(** * Resume-genius: the three résumé exporters of [SimpleExportManager]

    A shallow embedding of [export_to_pdf], [export_to_docx] and
    [export_to_html] (src/app_working.py, class [SimpleExportManager]) and
    the properties of the rendering specification checked against them.

    The résumé handed to the exporters is an untyped Python value (it is
    built by the form pages, or loaded as is from an uploaded JSON file), so
    the model works on a JSON-like [value] type with Python's [dict.get],
    truthiness, iteration, [str.join] and f-string formatting, and on a
    [result] type for raised exceptions.

    What the exporters hand to the layout libraries is the output of the
    model: the list of flowables given to [doc.build] for PDF, the
    paragraphs and runs added to the [Document] for DOCX, and the text
    itself for HTML.  Page geometry, colours and the byte serialisation done
    inside reportlab and python-docx are outside the model; whether their
    calls return or raise is a parameter of the two exporters that call
    them ([SimpleExportManager]).  The parameter [template_name] is read by
    none of the three functions and is left out.

    The exporters are written twice: over values ([Pdf], [Docx], [Html]),
    where each section of the source function is a function from the
    document to the blocks it adds, and over a store of objects ([Store]),
    statement by statement, where lists and dicts are changed in place.

    The definitions after those cover the rest of the file: the accounts of
    [UserManager], the texts of [SimpleAIGenerator], the session state, the
    form pages that build the résumé, the account sidebar, the live
    preview and the progress shown by [main]. *)

From Stdlib Require Import ZArith Ascii String List Bool Lia DecimalString.
From Stdlib Require Floats Uint63.
From stdpp Require Import base list strings.

Set Warnings "-register-all".

Local Open Scope Z_scope.
Local Open Scope string_scope.
Local Open Scope list_scope.

(** ** Python values *)

Module Py.

(** JSON-like values.  A [dict] keeps its insertion order (an association
    list, its keys being distinct); floats are not modelled. *)
Inductive value : Type :=
| VNone
| VBool (b : bool)
| VInt (z : Z)
| VStr (s : string)
| VList (l : list value)
| VDict (d : list (string * value)).

Inductive exn_kind : Type := AttributeError | TypeError | KeyError.

(** [Exception prefix cause] is [Exception(f"{prefix}{str(cause)}")]. *)
Inductive exn : Type :=
| Builtin (k : exn_kind)
| Exception (prefix : string) (cause : exn).

Inductive result (A : Type) : Type :=
| Ok (a : A)
| Raise (e : exn).
Arguments Ok {A} a.
Arguments Raise {A} e.

Definition bind {A B : Type} (m : result A) (f : A -> result B) : result B :=
  match m with
  | Ok a => f a
  | Raise e => Raise e
  end.

(** [try: body except Exception as e: raise Exception(f"{prefix}{str(e)}")] *)
Definition try_wrap {A : Type} (prefix : string) (body : result A) : result A :=
  match body with
  | Ok a => Ok a
  | Raise e => Raise (Exception prefix e)
  end.

Definition is_ok {A : Type} (m : result A) : bool :=
  match m with Ok _ => true | Raise _ => false end.

(** [bool(v)] *)
Definition truthy (v : value) : bool :=
  match v with
  | VNone => false
  | VBool b => b
  | VInt z => negb (Z.eqb z 0)
  | VStr s => negb (String.eqb s EmptyString)
  | VList l => match l with [] => false | _ :: _ => true end
  | VDict d => match d with [] => false | _ :: _ => true end
  end.

Fixpoint dict_lookup (k : string) (d : list (string * value)) : option value :=
  match d with
  | [] => None
  | (k', v) :: d' => if String.eqb k k' then Some v else dict_lookup k d'
  end.

(** What [get] returns on a dict: the value of the key, or the default. *)
Definition dict_get (d : list (string * value)) (k : string) (dflt : value) : value :=
  match dict_lookup k d with
  | Some x => x
  | None => dflt
  end.

(** [d[k] = v] as a new mapping: the value of the key is replaced where it
    stands, a new key comes last. *)
Fixpoint dict_set (k : string) (v : value) (d : list (string * value))
  : list (string * value) :=
  match d with
  | [] => [(k, v)]
  | (k', x) :: d' =>
      if String.eqb k k' then (k', v) :: d' else (k', x) :: dict_set k v d'
  end.

(** [v.get(k, dflt)]; [v.get(k)] is [get v k VNone]. *)
Definition get (v : value) (k : string) (dflt : value) : result value :=
  match v with
  | VDict d => Ok (dict_get d k dflt)
  | _ => Raise (Builtin AttributeError)
  end.

(** [v[k]] for a string key. *)
Definition getitem (v : value) (k : string) : result value :=
  match v with
  | VDict d =>
      match dict_lookup k d with
      | Some x => Ok x
      | None => Raise (Builtin KeyError)
      end
  | _ => Raise (Builtin TypeError)
  end.

(** [v.items()] *)
Definition items (v : value) : result (list (string * value)) :=
  match v with
  | VDict d => Ok d
  | _ => Raise (Builtin AttributeError)
  end.

(** The characters of a [str]: the text is held as UTF-8, a character is a
    leading byte with the continuation bytes (10xxxxxx) that follow it. *)
Definition is_continuation (a : ascii) : bool :=
  let n := nat_of_ascii a in Nat.leb 128 n && Nat.ltb n 192.

Definition starts_with_continuation (s : string) : bool :=
  match s with
  | String b _ => is_continuation b
  | EmptyString => false
  end.

Fixpoint chars (s : string) : list string :=
  match s with
  | EmptyString => []
  | String a rest =>
      match chars rest with
      | c :: cs =>
          if starts_with_continuation rest then String a c :: cs
          else String a EmptyString :: c :: cs
      | [] => [String a EmptyString]
      end
  end.

(** The values visited by [for x in v]. *)
Definition iter (v : value) : result (list value) :=
  match v with
  | VList l => Ok l
  | VDict d => Ok (map (fun kv => VStr (fst kv)) d)
  | VStr s => Ok (map VStr (chars s))
  | _ => Raise (Builtin TypeError)
  end.

(** [sep.join(l)] for a list object [l]: every item has to be a [str]. *)
Fixpoint join_list (sep : string) (l : list value) : result string :=
  match l with
  | [] => Ok EmptyString
  | VStr s :: l' =>
      match l' with
      | [] => Ok s
      | _ :: _ => bind (join_list sep l') (fun r => Ok (s +:+ sep +:+ r))
      end
  | _ :: _ => Raise (Builtin TypeError)
  end.

(** [sep.join(v)] *)
Definition join (sep : string) (v : value) : result string :=
  bind (iter v) (join_list sep).

(** [ord(c)]: the code point of a character, from its UTF-8 bytes. *)
Fixpoint ord_from (acc : Z) (s : string) : Z :=
  match s with
  | EmptyString => acc
  | String b rest => ord_from (acc * 64 + Z.land (Z.of_nat (nat_of_ascii b)) 63) rest
  end.

Definition ord (c : string) : Z :=
  match c with
  | EmptyString => 0
  | String a rest =>
      let n := Z.of_nat (nat_of_ascii a) in
      ord_from (if Z.ltb n 128 then n
                else if Z.ltb n 224 then Z.land n 31
                else if Z.ltb n 240 then Z.land n 15
                else Z.land n 7) rest
  end.

(** The code points from 128 on that [str.isprintable] refuses (the
    categories Cc, Cf, Cs, Co, Cn, Zl, Zp and Zs), as ranges: the table of
    CPython 3.11, which follows Unicode 14.0. *)
Definition unprintable : list (Z * Z) :=
  [(128, 160); (173, 173); (888, 889); (896, 899); (907, 907); (909, 909); (930, 930);
   (1328, 1328); (1367, 1368); (1419, 1420); (1424, 1424); (1480, 1487); (1515, 1518);
   (1525, 1541); (1564, 1564); (1757, 1757); (1806, 1807); (1867, 1868); (1970, 1983);
   (2043, 2044); (2094, 2095); (2111, 2111); (2140, 2141); (2143, 2143); (2155, 2159);
   (2191, 2199); (2274, 2274); (2436, 2436); (2445, 2446); (2449, 2450); (2473, 2473);
   (2481, 2481); (2483, 2485); (2490, 2491); (2501, 2502); (2505, 2506); (2511, 2518);
   (2520, 2523); (2526, 2526); (2532, 2533); (2559, 2560); (2564, 2564); (2571, 2574);
   (2577, 2578); (2601, 2601); (2609, 2609); (2612, 2612); (2615, 2615); (2618, 2619);
   (2621, 2621); (2627, 2630); (2633, 2634); (2638, 2640); (2642, 2648); (2653, 2653);
   (2655, 2661); (2679, 2688); (2692, 2692); (2702, 2702); (2706, 2706); (2729, 2729);
   (2737, 2737); (2740, 2740); (2746, 2747); (2758, 2758); (2762, 2762); (2766, 2767);
   (2769, 2783); (2788, 2789); (2802, 2808); (2816, 2816); (2820, 2820); (2829, 2830);
   (2833, 2834); (2857, 2857); (2865, 2865); (2868, 2868); (2874, 2875); (2885, 2886);
   (2889, 2890); (2894, 2900); (2904, 2907); (2910, 2910); (2916, 2917); (2936, 2945);
   (2948, 2948); (2955, 2957); (2961, 2961); (2966, 2968); (2971, 2971); (2973, 2973);
   (2976, 2978); (2981, 2983); (2987, 2989); (3002, 3005); (3011, 3013); (3017, 3017);
   (3022, 3023); (3025, 3030); (3032, 3045); (3067, 3071); (3085, 3085); (3089, 3089);
   (3113, 3113); (3130, 3131); (3141, 3141); (3145, 3145); (3150, 3156); (3159, 3159);
   (3163, 3164); (3166, 3167); (3172, 3173); (3184, 3190); (3213, 3213); (3217, 3217);
   (3241, 3241); (3252, 3252); (3258, 3259); (3269, 3269); (3273, 3273); (3278, 3284);
   (3287, 3292); (3295, 3295); (3300, 3301); (3312, 3312); (3315, 3327); (3341, 3341);
   (3345, 3345); (3397, 3397); (3401, 3401); (3408, 3411); (3428, 3429); (3456, 3456);
   (3460, 3460); (3479, 3481); (3506, 3506); (3516, 3516); (3518, 3519); (3527, 3529);
   (3531, 3534); (3541, 3541); (3543, 3543); (3552, 3557); (3568, 3569); (3573, 3584);
   (3643, 3646); (3676, 3712); (3715, 3715); (3717, 3717); (3723, 3723); (3748, 3748);
   (3750, 3750); (3774, 3775); (3781, 3781); (3783, 3783); (3790, 3791); (3802, 3803);
   (3808, 3839); (3912, 3912); (3949, 3952); (3992, 3992); (4029, 4029); (4045, 4045);
   (4059, 4095); (4294, 4294); (4296, 4300); (4302, 4303); (4681, 4681); (4686, 4687);
   (4695, 4695); (4697, 4697); (4702, 4703); (4745, 4745); (4750, 4751); (4785, 4785);
   (4790, 4791); (4799, 4799); (4801, 4801); (4806, 4807); (4823, 4823); (4881, 4881);
   (4886, 4887); (4955, 4956); (4989, 4991); (5018, 5023); (5110, 5111); (5118, 5119);
   (5760, 5760); (5789, 5791); (5881, 5887); (5910, 5918); (5943, 5951); (5972, 5983);
   (5997, 5997); (6001, 6001); (6004, 6015); (6110, 6111); (6122, 6127); (6138, 6143);
   (6158, 6158); (6170, 6175); (6265, 6271); (6315, 6319); (6390, 6399); (6431, 6431);
   (6444, 6447); (6460, 6463); (6465, 6467); (6510, 6511); (6517, 6527); (6572, 6575);
   (6602, 6607); (6619, 6621); (6684, 6685); (6751, 6751); (6781, 6782); (6794, 6799);
   (6810, 6815); (6830, 6831); (6863, 6911); (6989, 6991); (7039, 7039); (7156, 7163);
   (7224, 7226); (7242, 7244); (7305, 7311); (7355, 7356); (7368, 7375); (7419, 7423);
   (7958, 7959); (7966, 7967); (8006, 8007); (8014, 8015); (8024, 8024); (8026, 8026);
   (8028, 8028); (8030, 8030); (8062, 8063); (8117, 8117); (8133, 8133); (8148, 8149);
   (8156, 8156); (8176, 8177); (8181, 8181); (8191, 8207); (8232, 8239); (8287, 8303);
   (8306, 8307); (8335, 8335); (8349, 8351); (8385, 8399); (8433, 8447); (8588, 8591);
   (9255, 9279); (9291, 9311); (11124, 11125); (11158, 11158); (11508, 11512);
   (11558, 11558); (11560, 11564); (11566, 11567); (11624, 11630); (11633, 11646);
   (11671, 11679); (11687, 11687); (11695, 11695); (11703, 11703); (11711, 11711);
   (11719, 11719); (11727, 11727); (11735, 11735); (11743, 11743); (11870, 11903);
   (11930, 11930); (12020, 12031); (12246, 12271); (12284, 12288); (12352, 12352);
   (12439, 12440); (12544, 12548); (12592, 12592); (12687, 12687); (12772, 12783);
   (12831, 12831); (42125, 42127); (42183, 42191); (42540, 42559); (42744, 42751);
   (42955, 42959); (42962, 42962); (42964, 42964); (42970, 42993); (43053, 43055);
   (43066, 43071); (43128, 43135); (43206, 43213); (43226, 43231); (43348, 43358);
   (43389, 43391); (43470, 43470); (43482, 43485); (43519, 43519); (43575, 43583);
   (43598, 43599); (43610, 43611); (43715, 43738); (43767, 43776); (43783, 43784);
   (43791, 43792); (43799, 43807); (43815, 43815); (43823, 43823); (43884, 43887);
   (44014, 44015); (44026, 44031); (55204, 55215); (55239, 55242); (55292, 63743);
   (64110, 64111); (64218, 64255); (64263, 64274); (64280, 64284); (64311, 64311);
   (64317, 64317); (64319, 64319); (64322, 64322); (64325, 64325); (64451, 64466);
   (64912, 64913); (64968, 64974); (64976, 65007); (65050, 65055); (65107, 65107);
   (65127, 65127); (65132, 65135); (65141, 65141); (65277, 65280); (65471, 65473);
   (65480, 65481); (65488, 65489); (65496, 65497); (65501, 65503); (65511, 65511);
   (65519, 65531); (65534, 65535); (65548, 65548); (65575, 65575); (65595, 65595);
   (65598, 65598); (65614, 65615); (65630, 65663); (65787, 65791); (65795, 65798);
   (65844, 65846); (65935, 65935); (65949, 65951); (65953, 65999); (66046, 66175);
   (66205, 66207); (66257, 66271); (66300, 66303); (66340, 66348); (66379, 66383);
   (66427, 66431); (66462, 66462); (66500, 66503); (66518, 66559); (66718, 66719);
   (66730, 66735); (66772, 66775); (66812, 66815); (66856, 66863); (66916, 66926);
   (66939, 66939); (66955, 66955); (66963, 66963); (66966, 66966); (66978, 66978);
   (66994, 66994); (67002, 67002); (67005, 67071); (67383, 67391); (67414, 67423);
   (67432, 67455); (67462, 67462); (67505, 67505); (67515, 67583); (67590, 67591);
   (67593, 67593); (67638, 67638); (67641, 67643); (67645, 67646); (67670, 67670);
   (67743, 67750); (67760, 67807); (67827, 67827); (67830, 67834); (67868, 67870);
   (67898, 67902); (67904, 67967); (68024, 68027); (68048, 68049); (68100, 68100);
   (68103, 68107); (68116, 68116); (68120, 68120); (68150, 68151); (68155, 68158);
   (68169, 68175); (68185, 68191); (68256, 68287); (68327, 68330); (68343, 68351);
   (68406, 68408); (68438, 68439); (68467, 68471); (68498, 68504); (68509, 68520);
   (68528, 68607); (68681, 68735); (68787, 68799); (68851, 68857); (68904, 68911);
   (68922, 69215); (69247, 69247); (69290, 69290); (69294, 69295); (69298, 69375);
   (69416, 69423); (69466, 69487); (69514, 69551); (69580, 69599); (69623, 69631);
   (69710, 69713); (69750, 69758); (69821, 69821); (69827, 69839); (69865, 69871);
   (69882, 69887); (69941, 69941); (69960, 69967); (70007, 70015); (70112, 70112);
   (70133, 70143); (70162, 70162); (70207, 70271); (70279, 70279); (70281, 70281);
   (70286, 70286); (70302, 70302); (70314, 70319); (70379, 70383); (70394, 70399);
   (70404, 70404); (70413, 70414); (70417, 70418); (70441, 70441); (70449, 70449);
   (70452, 70452); (70458, 70458); (70469, 70470); (70473, 70474); (70478, 70479);
   (70481, 70486); (70488, 70492); (70500, 70501); (70509, 70511); (70517, 70655);
   (70748, 70748); (70754, 70783); (70856, 70863); (70874, 71039); (71094, 71095);
   (71134, 71167); (71237, 71247); (71258, 71263); (71277, 71295); (71354, 71359);
   (71370, 71423); (71451, 71452); (71468, 71471); (71495, 71679); (71740, 71839);
   (71923, 71934); (71943, 71944); (71946, 71947); (71956, 71956); (71959, 71959);
   (71990, 71990); (71993, 71994); (72007, 72015); (72026, 72095); (72104, 72105);
   (72152, 72153); (72165, 72191); (72264, 72271); (72355, 72367); (72441, 72703);
   (72713, 72713); (72759, 72759); (72774, 72783); (72813, 72815); (72848, 72849);
   (72872, 72872); (72887, 72959); (72967, 72967); (72970, 72970); (73015, 73017);
   (73019, 73019); (73022, 73022); (73032, 73039); (73050, 73055); (73062, 73062);
   (73065, 73065); (73103, 73103); (73106, 73106); (73113, 73119); (73130, 73439);
   (73465, 73647); (73649, 73663); (73714, 73726); (74650, 74751); (74863, 74863);
   (74869, 74879); (75076, 77711); (77811, 77823); (78895, 82943); (83527, 92159);
   (92729, 92735); (92767, 92767); (92778, 92781); (92863, 92863); (92874, 92879);
   (92910, 92911); (92918, 92927); (92998, 93007); (93018, 93018); (93026, 93026);
   (93048, 93052); (93072, 93759); (93851, 93951); (94027, 94030); (94088, 94094);
   (94112, 94175); (94181, 94191); (94194, 94207); (100344, 100351); (101590, 101631);
   (101641, 110575); (110580, 110580); (110588, 110588); (110591, 110591);
   (110883, 110927); (110931, 110947); (110952, 110959); (111356, 113663);
   (113771, 113775); (113789, 113791); (113801, 113807); (113818, 113819);
   (113824, 118527); (118574, 118575); (118599, 118607); (118724, 118783);
   (119030, 119039); (119079, 119080); (119155, 119162); (119275, 119295);
   (119366, 119519); (119540, 119551); (119639, 119647); (119673, 119807);
   (119893, 119893); (119965, 119965); (119968, 119969); (119971, 119972);
   (119975, 119976); (119981, 119981); (119994, 119994); (119996, 119996);
   (120004, 120004); (120070, 120070); (120075, 120076); (120085, 120085);
   (120093, 120093); (120122, 120122); (120127, 120127); (120133, 120133);
   (120135, 120137); (120145, 120145); (120486, 120487); (120780, 120781);
   (121484, 121498); (121504, 121504); (121520, 122623); (122655, 122879);
   (122887, 122887); (122905, 122906); (122914, 122914); (122917, 122917);
   (122923, 123135); (123181, 123183); (123198, 123199); (123210, 123213);
   (123216, 123535); (123567, 123583); (123642, 123646); (123648, 124895);
   (124903, 124903); (124908, 124908); (124911, 124911); (124927, 124927);
   (125125, 125126); (125143, 125183); (125260, 125263); (125274, 125277);
   (125280, 126064); (126133, 126208); (126270, 126463); (126468, 126468);
   (126496, 126496); (126499, 126499); (126501, 126502); (126504, 126504);
   (126515, 126515); (126520, 126520); (126522, 126522); (126524, 126529);
   (126531, 126534); (126536, 126536); (126538, 126538); (126540, 126540);
   (126544, 126544); (126547, 126547); (126549, 126550); (126552, 126552);
   (126554, 126554); (126556, 126556); (126558, 126558); (126560, 126560);
   (126563, 126563); (126565, 126566); (126571, 126571); (126579, 126579);
   (126584, 126584); (126589, 126589); (126591, 126591); (126602, 126602);
   (126620, 126624); (126628, 126628); (126634, 126634); (126652, 126703);
   (126706, 126975); (127020, 127023); (127124, 127135); (127151, 127152);
   (127168, 127168); (127184, 127184); (127222, 127231); (127406, 127461);
   (127491, 127503); (127548, 127551); (127561, 127567); (127570, 127583);
   (127590, 127743); (128728, 128732); (128749, 128751); (128765, 128767);
   (128884, 128895); (128985, 128991); (129004, 129007); (129009, 129023);
   (129036, 129039); (129096, 129103); (129114, 129119); (129160, 129167);
   (129198, 129199); (129202, 129279); (129620, 129631); (129646, 129647);
   (129653, 129655); (129661, 129663); (129671, 129679); (129709, 129711);
   (129723, 129727); (129734, 129743); (129754, 129759); (129768, 129775);
   (129783, 129791); (129939, 129939); (129995, 130031); (130042, 131071);
   (173792, 173823); (177977, 177983); (178206, 178207); (183970, 183983);
   (191457, 194559); (195102, 196607); (201547, 917759); (918000, 1114111)].

Definition isprintable (n : Z) : bool :=
  negb (existsb (fun r => Z.leb (fst r) n && Z.leb n (snd r)) unprintable).

(** [repr(s)] for a [str]: single quotes unless the text has a single and
    no double quote; backslash, the quote, control characters and the
    characters that are not printable are escaped. *)
Definition dq : string := String (ascii_of_nat 34) EmptyString.
Definition backslash : string := String (ascii_of_nat 92) EmptyString.

Fixpoint has_char (c : ascii) (s : string) : bool :=
  match s with
  | EmptyString => false
  | String a s' => Ascii.eqb a c || has_char c s'
  end.

Definition hex_digit (n : nat) : string :=
  String.substring n 1 "0123456789abcdef".

(** [n] in hexadecimal, on [digits] digits. *)
Fixpoint hex (digits : nat) (n : Z) : string :=
  match digits with
  | O => EmptyString
  | S d => hex d (n / 16) +:+ hex_digit (Z.to_nat (n mod 16))
  end.

Definition escape_ascii (q : ascii) (a : ascii) : string :=
  let n := nat_of_ascii a in
  if Ascii.eqb a (ascii_of_nat 92) then backslash +:+ backslash
  else if Ascii.eqb a q then backslash +:+ String q EmptyString
  else if Nat.eqb n 9 then backslash +:+ "t"
  else if Nat.eqb n 10 then backslash +:+ "n"
  else if Nat.eqb n 13 then backslash +:+ "r"
  else if Nat.ltb n 32 || Nat.eqb n 127
       then backslash +:+ "x" +:+ hex_digit (Nat.div n 16) +:+ hex_digit (Nat.modulo n 16)
  else String a EmptyString.

(** One character of the text: an ASCII one, or one of several bytes, which
    is copied when printable and written [\xhh], [\uhhhh] or [\Uhhhhhhhh]
    otherwise. *)
Definition escape_char (q : ascii) (c : string) : string :=
  match c with
  | EmptyString => EmptyString
  | String a EmptyString => escape_ascii q a
  | String _ (String _ _) =>
      let n := ord c in
      if isprintable n then c
      else if Z.ltb n 256 then backslash +:+ "x" +:+ hex 2 n
      else if Z.ltb n 65536 then backslash +:+ "u" +:+ hex 4 n
      else backslash +:+ "U" +:+ hex 8 n
  end.

Definition escape (q : ascii) (s : string) : string :=
  fold_right (fun c acc => escape_char q c +:+ acc) EmptyString (chars s).

Definition repr_str (s : string) : string :=
  let q := if has_char "'"%char s && negb (has_char (ascii_of_nat 34) s)
           then ascii_of_nat 34 else "'"%char in
  String q EmptyString +:+ escape q s +:+ String q EmptyString.

(** [repr(v)] *)
Fixpoint repr (v : value) : string :=
  match v with
  | VNone => "None"
  | VBool b => if b then "True" else "False"
  | VInt z => NilZero.string_of_int (Z.to_int z)
  | VStr s => repr_str s
  | VList l =>
      "[" +:+
      (fix elems (l : list value) : string :=
         match l with
         | [] => EmptyString
         | x :: l' =>
             match l' with
             | [] => repr x
             | _ :: _ => repr x +:+ ", " +:+ elems l'
             end
         end) l +:+ "]"
  | VDict d =>
      "{" +:+
      (fix entries (d : list (string * value)) : string :=
         match d with
         | [] => EmptyString
         | (k, x) :: d' =>
             match d' with
             | [] => repr_str k +:+ ": " +:+ repr x
             | _ :: _ => repr_str k +:+ ": " +:+ repr x +:+ ", " +:+ entries d'
             end
         end) d +:+ "}"
  end.

(** [str(v)], the text an f-string puts for [{v}]. *)
Definition str (v : value) : string :=
  match v with
  | VStr s => s
  | _ => repr v
  end.

End Py.

Import Py.

Arguments get : simpl never.
Arguments getitem : simpl never.

Notation "x <- m ;; k" := (bind m (fun x => k))
  (at level 100, m at next level, right associativity).

(** A [for] loop whose body adds blocks to the output: the blocks of all
    rounds in order, or the first exception raised. *)
Fixpoint for_each {A B : Type} (body : A -> result (list B)) (l : list A)
  : result (list B) :=
  match l with
  | [] => Ok []
  | x :: l' => ys <- body x ;; zs <- for_each body l' ;; Ok (ys ++ zs)
  end.

(** [if d.get(key): acc.append(d[key])] *)
Definition append_if_set (d : value) (key : string) (acc : list value)
  : result (list value) :=
  v <- get d key VNone ;;
  if truthy v then x <- getitem d key ;; Ok (acc ++ [x]) else Ok acc.

(** The local list [contact_info] of [export_to_pdf] and [export_to_docx]
    (the same three statements in both). *)
Definition contact_info (personal : value) : result (list value) :=
  c <- append_if_set personal "email" [] ;;
  c <- append_if_set personal "phone" c ;;
  append_if_set personal "location" c.

(** [f"{exp.get('start_date', '')} to {exp.get('end_date', 'Present')}"],
    the expression of all three exporters. *)
Definition date_range (exp : value) : result string :=
  start_date <- get exp "start_date" (VStr EmptyString) ;;
  end_date <- get exp "end_date" (VStr "Present") ;;
  Ok (str start_date +:+ " to " +:+ str end_date).

(** The five résumé sections, in display order. *)
Inductive section : Type := PERSONAL | SUMMARY | EXPERIENCE | EDUCATION | SKILLS.

(** ** export_to_pdf *)

Module Pdf.

Inductive ParagraphStyle : Type := title_style | heading_style | body_style.

(** The flowables of the story: [Paragraph(text, style)] and
    [Spacer(width, height)]. *)
Inductive Flowable : Type :=
| Paragraph (text : value) (style : ParagraphStyle)
| Spacer (width height : Z).

Definition header (personal : value) : result (list Flowable) :=
  full_name <- get personal "full_name" VNone ;;
  if truthy full_name then
    name <- getitem personal "full_name" ;;
    contact <- contact_info personal ;;
    line <- (match contact with
             | [] => Ok []
             | _ :: _ =>
                 joined <- join_list " • " contact ;;
                 Ok [Paragraph (VStr joined) body_style]
             end) ;;
    Ok ([Paragraph name title_style] ++ line ++ [Spacer 1 12])
  else Ok [].

Definition summary (resume_data : value) : result (list Flowable) :=
  s <- get resume_data "summary" VNone ;;
  if truthy s then
    text <- getitem resume_data "summary" ;;
    Ok [Paragraph (VStr "PROFESSIONAL SUMMARY") heading_style;
        Paragraph text body_style;
        Spacer 1 12]
  else Ok [].

Definition job_header (exp : value) : result string :=
  job_title <- get exp "job_title" (VStr EmptyString) ;;
  company <- get exp "company" (VStr EmptyString) ;;
  let job_header := "<b>" +:+ str job_title +:+ "</b> - " +:+ str company in
  location <- get exp "location" VNone ;;
  if truthy location then
    loc <- getitem exp "location" ;;
    Ok (job_header +:+ " (" +:+ str loc +:+ ")")
  else Ok job_header.

(** One round of [for exp in work_exp]. *)
Definition experience (exp : value) : result (list Flowable) :=
  job_header <- job_header exp ;;
  date_range <- date_range exp ;;
  bullets <- get exp "bullets" (VList []) ;;
  bullets <- iter bullets ;;
  Ok ([Paragraph (VStr job_header) body_style;
       Paragraph (VStr ("<i>" +:+ date_range +:+ "</i>")) body_style]
      ++ map (fun bullet => Paragraph (VStr ("• " +:+ str bullet)) body_style) bullets
      ++ [Spacer 1 8]).

Definition work_experience (resume_data : value) : result (list Flowable) :=
  work_exp <- get resume_data "work_experience" (VList []) ;;
  if truthy work_exp then
    exps <- iter work_exp ;;
    blocks <- for_each experience exps ;;
    Ok (Paragraph (VStr "PROFESSIONAL EXPERIENCE") heading_style :: blocks)
  else Ok [].

Definition edu_text (edu : value) : result string :=
  degree <- get edu "degree" (VStr EmptyString) ;;
  let edu_text := "<b>" +:+ str degree +:+ "</b>" in
  major <- get edu "major" VNone ;;
  edu_text <- (if truthy major then
                 m <- getitem edu "major" ;; Ok (edu_text +:+ " in " +:+ str m)
               else Ok edu_text) ;;
  school <- get edu "school" (VStr EmptyString) ;;
  let edu_text := edu_text +:+ " - " +:+ str school in
  graduation_date <- get edu "graduation_date" VNone ;;
  if truthy graduation_date then
    g <- getitem edu "graduation_date" ;; Ok (edu_text +:+ " (" +:+ str g +:+ ")")
  else Ok edu_text.

(** One round of [for edu in education]. *)
Definition education_entry (edu : value) : result (list Flowable) :=
  edu_text <- edu_text edu ;;
  Ok [Paragraph (VStr edu_text) body_style; Spacer 1 4].

Definition education (resume_data : value) : result (list Flowable) :=
  education <- get resume_data "education" (VList []) ;;
  if truthy education then
    edus <- iter education ;;
    blocks <- for_each education_entry edus ;;
    Ok (Paragraph (VStr "EDUCATION") heading_style :: blocks)
  else Ok [].

(** One round of [for category, skill_list in skills.items()]. *)
Definition skill_category (item : string * value) : result (list Flowable) :=
  let (category, skill_list) := item in
  if truthy skill_list then
    joined <- join ", " skill_list ;;
    Ok [Paragraph (VStr ("<b>" +:+ category +:+ ":</b> " +:+ joined)) body_style]
  else Ok [].

Definition skills_block (skills : value) : result (list Flowable) :=
  if truthy skills then
    its <- items skills ;;
    lines <- for_each skill_category its ;;
    Ok (Paragraph (VStr "SKILLS") heading_style :: lines)
  else Ok [].

Definition skills (resume_data : value) : result (list Flowable) :=
  skills <- get resume_data "skills" (VDict []) ;;
  skills_block skills.

(** The story given to [doc.build]. *)
Definition story (resume_data : value) : result (list Flowable) :=
  personal <- get resume_data "personal" (VDict []) ;;
  h <- header personal ;;
  s <- summary resume_data ;;
  w <- work_experience resume_data ;;
  e <- education resume_data ;;
  k <- skills resume_data ;;
  Ok (h ++ s ++ w ++ e ++ k).

(** What the exporter adds to the story for one section. *)
Definition block (s : section) (resume_data : value) : result (list Flowable) :=
  match s with
  | PERSONAL => personal <- get resume_data "personal" (VDict []) ;; header personal
  | SUMMARY => summary resume_data
  | EXPERIENCE => work_experience resume_data
  | EDUCATION => education resume_data
  | SKILLS => skills resume_data
  end.

(** The section is rendered: its block is produced and is not empty. *)
Definition renders (s : section) (resume_data : value) : Prop :=
  exists b, block s resume_data = Ok b /\ b <> [].

End Pdf.

(** The statements of [export_to_pdf] themselves, inside their [try]: the
    story they build for [doc.build], or the exception that one of them
    raised, wrapped by the [except] clause.  [export_to_pdf d = Ok story]
    says that [story] is built, not that the call returns: the calls into
    reportlab made inside the same [try] can raise as well, and come with
    [SimpleExportManager.export_to_pdf]. *)
Definition export_to_pdf (resume_data : value) : result (list Pdf.Flowable) :=
  try_wrap "PDF export failed: " (Pdf.story resume_data).

(** ** export_to_docx *)

Module Docx.

Inductive Alignment : Type := CENTER.

(** A run: the text given to [add_run], [bold] and [font.size] (in points). *)
Record Run : Type := mkRun {
  run_text : value;
  run_bold : bool;
  run_size : option Z
}.

Record DocxParagraph : Type := mkParagraph {
  runs : list Run;
  alignment : option Alignment;
  style : option string
}.

Definition plain_run (text : value) : Run := mkRun text false None.
Definition bold_run (text : value) : Run := mkRun text true None.

(** [doc.add_paragraph(text, style)] of python-docx: a run is added for a
    text that is not empty. *)
Definition add_paragraph (text : value) (style : option string) : DocxParagraph :=
  mkParagraph (if truthy text then [plain_run text] else []) None style.

(** [doc.add_paragraph()] *)
Definition empty_paragraph : DocxParagraph := mkParagraph [] None None.

(** The paragraph added by [_add_section_heading(doc, title)]. *)
Definition _add_section_heading (title : string) : DocxParagraph :=
  mkParagraph [mkRun (VStr title) true (Some 14)] None None.

Definition header (personal : value) : result (list DocxParagraph) :=
  full_name <- get personal "full_name" VNone ;;
  if truthy full_name then
    name <- getitem personal "full_name" ;;
    let name_para := mkParagraph [mkRun name true (Some 18)] (Some CENTER) None in
    contact <- contact_info personal ;;
    line <- (match contact with
             | [] => Ok []
             | _ :: _ =>
                 joined <- join_list " • " contact ;;
                 let contact_para := add_paragraph (VStr joined) None in
                 Ok [mkParagraph (runs contact_para) (Some CENTER) (style contact_para)]
             end) ;;
    Ok ([name_para] ++ line ++ [empty_paragraph])
  else Ok [].

Definition summary (resume_data : value) : result (list DocxParagraph) :=
  s <- get resume_data "summary" VNone ;;
  if truthy s then
    text <- getitem resume_data "summary" ;;
    Ok [_add_section_heading "PROFESSIONAL SUMMARY"; add_paragraph text None]
  else Ok [].

(** One round of [for exp in work_exp]. *)
Definition experience (exp : value) : result (list DocxParagraph) :=
  job_title <- get exp "job_title" (VStr EmptyString) ;;
  company <- get exp "company" (VStr EmptyString) ;;
  let job_para :=
    mkParagraph [bold_run (VStr (str job_title +:+ " - " +:+ str company))] None None in
  date_range <- date_range exp ;;
  let date_para := add_paragraph (VStr date_range) None in
  bullets <- get exp "bullets" (VList []) ;;
  bullets <- iter bullets ;;
  Ok ([job_para; date_para]
      ++ map (fun bullet => add_paragraph bullet (Some "List Bullet")) bullets
      ++ [empty_paragraph]).

Definition work_experience (resume_data : value) : result (list DocxParagraph) :=
  work_exp <- get resume_data "work_experience" (VList []) ;;
  if truthy work_exp then
    exps <- iter work_exp ;;
    paras <- for_each experience exps ;;
    Ok (_add_section_heading "PROFESSIONAL EXPERIENCE" :: paras)
  else Ok [].

(** One round of [for edu in education]: the runs of [edu_para]. *)
Definition education_entry (edu : value) : result (list DocxParagraph) :=
  degree <- get edu "degree" (VStr EmptyString) ;;
  let degree_run := bold_run degree in
  major <- get edu "major" VNone ;;
  major_run <- (if truthy major then
                  m <- getitem edu "major" ;; Ok [plain_run (VStr (" in " +:+ str m))]
                else Ok []) ;;
  school <- get edu "school" (VStr EmptyString) ;;
  let school_run := plain_run (VStr (" - " +:+ str school)) in
  graduation_date <- get edu "graduation_date" VNone ;;
  date_run <- (if truthy graduation_date then
                 g <- getitem edu "graduation_date" ;;
                 Ok [plain_run (VStr (" (" +:+ str g +:+ ")"))]
               else Ok []) ;;
  Ok [mkParagraph ([degree_run] ++ major_run ++ [school_run] ++ date_run) None None].

Definition education (resume_data : value) : result (list DocxParagraph) :=
  education <- get resume_data "education" (VList []) ;;
  if truthy education then
    edus <- iter education ;;
    paras <- for_each education_entry edus ;;
    Ok (_add_section_heading "EDUCATION" :: paras)
  else Ok [].

(** One round of [for category, skill_list in skills.items()]. *)
Definition skill_category (item : string * value) : result (list DocxParagraph) :=
  let (category, skill_list) := item in
  if truthy skill_list then
    let category_run := bold_run (VStr (category +:+ ": ")) in
    joined <- join ", " skill_list ;;
    Ok [mkParagraph [category_run; plain_run (VStr joined)] None None]
  else Ok [].

Definition skills_block (skills : value) : result (list DocxParagraph) :=
  if truthy skills then
    its <- items skills ;;
    paras <- for_each skill_category its ;;
    Ok (_add_section_heading "SKILLS" :: paras)
  else Ok [].

Definition skills (resume_data : value) : result (list DocxParagraph) :=
  skills <- get resume_data "skills" (VDict []) ;;
  skills_block skills.

(** The paragraphs of the document that is saved. *)
Definition document (resume_data : value) : result (list DocxParagraph) :=
  personal <- get resume_data "personal" (VDict []) ;;
  h <- header personal ;;
  s <- summary resume_data ;;
  w <- work_experience resume_data ;;
  e <- education resume_data ;;
  k <- skills resume_data ;;
  Ok (h ++ s ++ w ++ e ++ k).

(** What the exporter adds to the document for one section. *)
Definition block (s : section) (resume_data : value) : result (list DocxParagraph) :=
  match s with
  | PERSONAL => personal <- get resume_data "personal" (VDict []) ;; header personal
  | SUMMARY => summary resume_data
  | EXPERIENCE => work_experience resume_data
  | EDUCATION => education resume_data
  | SKILLS => skills resume_data
  end.

Definition renders (s : section) (resume_data : value) : Prop :=
  exists b, block s resume_data = Ok b /\ b <> [].

End Docx.

(** The statements of [export_to_docx] themselves, inside their [try]: the
    paragraphs and runs they ask python-docx for, or the exception that one
    of them raised, wrapped.  [export_to_docx d = Ok doc] says that the
    paragraphs are built, not that the call returns: the calls into
    python-docx can raise as well, and come with
    [SimpleExportManager.export_to_docx]. *)
Definition export_to_docx (resume_data : value) : result (list Docx.DocxParagraph) :=
  try_wrap "DOCX export failed: " (Docx.document resume_data).

(** ** export_to_html *)

(** A [for] loop whose body appends text to [html]. *)
Fixpoint for_each_text {A : Type} (body : A -> result string) (l : list A)
  : result string :=
  match l with
  | [] => Ok EmptyString
  | x :: l' => t <- body x ;; r <- for_each_text body l' ;; Ok (t +:+ r)
  end.

Module Html.

Definition nl : string := String (ascii_of_nat 10) EmptyString.

(** The literal parts of the page template, line by line as in the source;
    [dq] is the double quote and [nl] the line break. *)
Definition page_head : string :=
  nl +:+
  "        <!DOCTYPE html>" +:+ nl +:+
  "        <html>" +:+ nl +:+
  "        <head>" +:+ nl +:+
  "            <meta charset=" +:+ dq +:+ "UTF-8" +:+ dq +:+ ">" +:+ nl +:+
  "            <title>Resume - ".

Definition page_style : string :=
  "</title>" +:+ nl +:+
  "            <style>" +:+ nl +:+
  "                body { font-family: Arial, sans-serif; margin: 40px; color: #333; line-height: 1.6; }" +:+ nl +:+
  "                .header { text-align: center; border-bottom: 2px solid #2E86C1; padding-bottom: 20px; margin-bottom: 30px; }" +:+ nl +:+
  "                .name { font-size: 28px; font-weight: bold; color: #2E86C1; margin-bottom: 10px; }" +:+ nl +:+
  "                .contact { margin-bottom: 5px; }" +:+ nl +:+
  "                .section { margin-bottom: 25px; }" +:+ nl +:+
  "                .section-title { font-size: 18px; font-weight: bold; color: #2E86C1; border-bottom: 1px solid #85C1E9; padding-bottom: 5px; margin-bottom: 15px; }" +:+ nl +:+
  "                .job-title { font-weight: bold; color: #2E86C1; }" +:+ nl +:+
  "                .company { font-weight: 600; }" +:+ nl +:+
  "                .date-range { font-style: italic; color: #666; font-size: 14px; }" +:+ nl +:+
  "                .bullet { margin: 5px 0 5px 20px; }" +:+ nl +:+
  "                .skill-category { margin-bottom: 10px; }" +:+ nl +:+
  "                .skill-category strong { color: #2E86C1; }" +:+ nl +:+
  "            </style>" +:+ nl +:+
  "        </head>" +:+ nl +:+
  "        <body>" +:+ nl +:+
  "            <div class=" +:+ dq +:+ "header" +:+ dq +:+ ">" +:+ nl +:+
  "                <div class=" +:+ dq +:+ "name" +:+ dq +:+ ">".

Definition contact_open : string :=
  "</div>" +:+ nl +:+
  "                <div class=" +:+ dq +:+ "contact" +:+ dq +:+ ">".

Definition contact_close : string :=
  "</div>" +:+ nl +:+
  "        ".

(** The first assignment to [html]: the page head, the name and the contact
    line. *)
Definition page_top (personal : value) : result string :=
  title <- get personal "full_name" (VStr "Resume") ;;
  full_name <- get personal "full_name" (VStr EmptyString) ;;
  email <- get personal "email" (VStr EmptyString) ;;
  phone <- get personal "phone" (VStr EmptyString) ;;
  location <- get personal "location" (VStr EmptyString) ;;
  Ok (page_head +:+ str title +:+ page_style +:+ str full_name +:+
      contact_open +:+ str email +:+ " | " +:+ str phone +:+ " | " +:+
      str location +:+ contact_close).

(** [if personal.get('linkedin') or personal.get('website'): ...] *)
Definition links (personal : value) : result string :=
  linkedin <- get personal "linkedin" VNone ;;
  shown <- (if truthy linkedin then Ok true
            else website <- get personal "website" VNone ;; Ok (truthy website)) ;;
  if (shown : bool) then
    let html := "<div class='contact'>" in
    linkedin <- get personal "linkedin" VNone ;;
    html <- (if truthy linkedin then
               l <- getitem personal "linkedin" ;; Ok (html +:+ "LinkedIn: " +:+ str l)
             else Ok html) ;;
    website <- get personal "website" VNone ;;
    html <- (if truthy website then
               w <- getitem personal "website" ;; Ok (html +:+ " | Website: " +:+ str w)
             else Ok html) ;;
    Ok (html +:+ "</div>")
  else Ok EmptyString.

Definition header (personal : value) : result string :=
  top <- page_top personal ;;
  l <- links personal ;;
  Ok (top +:+ l +:+ "</div>").

Definition summary_open : string :=
  nl +:+
  "            <div class=" +:+ dq +:+ "section" +:+ dq +:+ ">" +:+ nl +:+
  "                <div class=" +:+ dq +:+ "section-title" +:+ dq +:+ ">Professional Summary</div>" +:+ nl +:+
  "                <p>".

Definition summary_close : string :=
  "</p>" +:+ nl +:+
  "            </div>" +:+ nl +:+
  "            ".

Definition summary (resume_data : value) : result string :=
  s <- get resume_data "summary" VNone ;;
  if truthy s then
    text <- getitem resume_data "summary" ;;
    Ok (summary_open +:+ str text +:+ summary_close)
  else Ok EmptyString.

Definition section_open (title : string) : string :=
  "<div class=" +:+ dq +:+ "section" +:+ dq +:+ "><div class=" +:+ dq +:+
  "section-title" +:+ dq +:+ ">" +:+ title +:+ "</div>".

Definition job_open : string :=
  nl +:+
  "                <div style=" +:+ dq +:+ "margin-bottom: 20px;" +:+ dq +:+ ">" +:+ nl +:+
  "                    <div><span class=" +:+ dq +:+ "job-title" +:+ dq +:+ ">".

Definition company_open : string :=
  "</span> - <span class=" +:+ dq +:+ "company" +:+ dq +:+ ">".

Definition dates_open : string :=
  "</span></div>" +:+ nl +:+
  "                    <div class=" +:+ dq +:+ "date-range" +:+ dq +:+ ">".

Definition dates_close : string :=
  "</div>" +:+ nl +:+
  "                ".

Definition bullet_open : string :=
  "<div class=" +:+ dq +:+ "bullet" +:+ dq +:+ ">• ".

(** One round of [for exp in work_exp]. *)
Definition experience (exp : value) : result string :=
  job_title <- get exp "job_title" (VStr EmptyString) ;;
  company <- get exp "company" (VStr EmptyString) ;;
  date_range <- date_range exp ;;
  location <- get exp "location" (VStr EmptyString) ;;
  let html := job_open +:+ str job_title +:+ company_open +:+ str company +:+
              dates_open +:+ date_range +:+ " | " +:+ str location +:+ dates_close in
  bullets <- get exp "bullets" (VList []) ;;
  bullets <- iter bullets ;;
  items <- for_each_text (fun bullet => Ok (bullet_open +:+ str bullet +:+ "</div>")) bullets ;;
  Ok (html +:+ items +:+ "</div>").

Definition work_experience (resume_data : value) : result string :=
  work_exp <- get resume_data "work_experience" (VList []) ;;
  if truthy work_exp then
    exps <- iter work_exp ;;
    entries <- for_each_text experience exps ;;
    Ok (section_open "Professional Experience" +:+ entries +:+ "</div>")
  else Ok EmptyString.

Definition degree_open : string :=
  nl +:+
  "                <div style=" +:+ dq +:+ "margin-bottom: 15px;" +:+ dq +:+ ">" +:+ nl +:+
  "                    <div class=" +:+ dq +:+ "job-title" +:+ dq +:+ ">".

Definition graduated_open : string :=
  "</div>" +:+ nl +:+
  "                    <div class=" +:+ dq +:+ "date-range" +:+ dq +:+ ">Graduated: ".

Definition graduated_close : string :=
  "</div>" +:+ nl +:+
  "                </div>" +:+ nl +:+
  "                ".

(** One round of [for edu in education]. *)
Definition education_entry (edu : value) : result string :=
  degree <- get edu "degree" (VStr EmptyString) ;;
  major <- get edu "major" (VStr EmptyString) ;;
  school <- get edu "school" (VStr EmptyString) ;;
  graduation_date <- get edu "graduation_date" (VStr EmptyString) ;;
  Ok (degree_open +:+ str degree +:+ " in " +:+ str major +:+ " - " +:+ str school +:+
      graduated_open +:+ str graduation_date +:+ graduated_close).

Definition education (resume_data : value) : result string :=
  education <- get resume_data "education" (VList []) ;;
  if truthy education then
    edus <- iter education ;;
    entries <- for_each_text education_entry edus ;;
    Ok (section_open "Education" +:+ entries +:+ "</div>")
  else Ok EmptyString.

(** One round of [for category, skill_list in skills.items()]. *)
Definition skill_category (item : string * value) : result string :=
  let (category, skill_list) := item in
  if truthy skill_list then
    joined <- join ", " skill_list ;;
    Ok ("<div class=" +:+ dq +:+ "skill-category" +:+ dq +:+ "><strong>" +:+ category +:+
        ":</strong> " +:+ joined +:+ "</div>")
  else Ok EmptyString.

Definition skills_block (skills : value) : result string :=
  if truthy skills then
    its <- items skills ;;
    lines <- for_each_text skill_category its ;;
    Ok (section_open "Skills" +:+ lines +:+ "</div>")
  else Ok EmptyString.

Definition skills (resume_data : value) : result string :=
  skills <- get resume_data "skills" (VDict []) ;;
  skills_block skills.

(** What the exporter appends to [html] for one section. *)
Definition block (s : section) (resume_data : value) : result string :=
  match s with
  | PERSONAL => personal <- get resume_data "personal" (VDict []) ;; header personal
  | SUMMARY => summary resume_data
  | EXPERIENCE => work_experience resume_data
  | EDUCATION => education resume_data
  | SKILLS => skills resume_data
  end.

Definition renders (s : section) (resume_data : value) : Prop :=
  exists t, block s resume_data = Ok t /\ t <> EmptyString.

End Html.

(** [export_to_html] has no [try]: an exception leaves it as raised. *)
Definition export_to_html (resume_data : value) : result string :=
  personal <- get resume_data "personal" (VDict []) ;;
  h <- Html.header personal ;;
  s <- Html.summary resume_data ;;
  w <- Html.work_experience resume_data ;;
  e <- Html.education resume_data ;;
  k <- Html.skills resume_data ;;
  Ok (h +:+ s +:+ w +:+ e +:+ k +:+ "</body></html>").

(** ** The calls into the layout libraries

    [export_to_pdf] and [export_to_docx] call reportlab and python-docx
    inside their [try]: [Paragraph(text, style)] parses [text] as markup
    when the paragraph is made and [doc.build(story)] lays the story out;
    [add_paragraph], [add_run] and [doc.save] write the XML of the
    document.  Any of these calls can raise (reportlab on a text such as
    "Seasoned <b>engineer", whose tag is not closed; python-docx on a
    control character), and the code of the two libraries is not part of
    the repository, so what they accept is a parameter: [reportlab story]
    tells whether the reportlab calls made for the flowables of [story] all
    return, and [python_docx doc] the same for the paragraphs of [doc].

    A call of the exporter returns when its own statements and the library
    calls all return.  In every other case the first exception raised is
    caught by [except Exception as e] and
    [Exception(f"PDF export failed: {str(e)}")] is raised, whatever [e]
    was.  [export_to_html] calls no library. *)

Module SimpleExportManager.

(** [Returned output]: the call returns the file made from [output].
    [Failed prefix]: it raises the generic [Exception] whose message is
    [prefix] followed by the text of the exception caught. *)
Inductive outcome (A : Type) : Type :=
| Returned (output : A)
| Failed (prefix : string).
Arguments Returned {A} output.
Arguments Failed {A} prefix.

Section Libraries.

Variable reportlab : list Pdf.Flowable -> bool.
Variable python_docx : list Docx.DocxParagraph -> bool.

Definition export_to_pdf (resume_data : value) : outcome (list Pdf.Flowable) :=
  match Pdf.story resume_data with
  | Ok story =>
      if reportlab story then Returned story else Failed "PDF export failed: "
  | Raise _ => Failed "PDF export failed: "
  end.

Definition export_to_docx (resume_data : value) : outcome (list Docx.DocxParagraph) :=
  match Docx.document resume_data with
  | Ok doc =>
      if python_docx doc then Returned doc else Failed "DOCX export failed: "
  | Raise _ => Failed "DOCX export failed: "
  end.

End Libraries.

End SimpleExportManager.

(** ** The exporters over a store of objects

    Python lists and dicts are objects that can be changed in place, and the
    résumé is handed to the exporters by reference.  Here the same three
    functions are written over a store: a variable or a slot of a container
    holds a [ref], which is an immutable value or the address of an object;
    [append] and [add_paragraph] change the object at an address.  A loop
    reads the items of its list once, before its first round.  The
    constructors of the layout libraries ([Paragraph], [add_run]) keep the
    reference they are given. *)

Module Store.

Abbreviation addr := nat.

Inductive ref : Type :=
| RNone
| RBool (b : bool)
| RInt (z : Z)
| RStr (s : string)
| RObj (a : addr).

Inductive flowable : Type :=
| Paragraph (text : ref) (style : Pdf.ParagraphStyle)
| Spacer (width height : Z).

Record run : Type := mkRun {
  run_text : ref;
  run_bold : bool;
  run_size : option Z
}.

Record paragraph : Type := mkParagraph {
  runs : list run;
  alignment : option Docx.Alignment;
  style : option string
}.

Inductive object : Type :=
| OList (elems : list ref)
| ODict (entries : list (string * ref))
| OStory (blocks : list flowable)
| ODocument (paragraphs : list paragraph).

(** The object at address [a] is the item of index [a]. *)
Abbreviation store := (list object).

(** A computation runs from a store to a result and a store; an exception
    keeps the store as it is when raised. *)
Definition M (A : Type) : Type := store -> result A * store.

Definition ret {A : Type} (x : A) : M A := fun h => (Ok x, h).

Definition raise {A : Type} (e : exn) : M A := fun h => (Raise e, h).

Definition bind {A B : Type} (m : M A) (f : A -> M B) : M B :=
  fun h =>
    match m h with
    | (Ok a, h') => f a h'
    | (Raise e, h') => (Raise e, h')
    end.

Notation "x <~ m ;; k" := (bind m (fun x => k))
  (at level 100, m at next level, right associativity).

Definition try_wrap {A : Type} (prefix : string) (body : M A) : M A :=
  fun h =>
    match body h with
    | (Ok a, h') => (Ok a, h')
    | (Raise e, h') => (Raise (Exception prefix e), h')
    end.

(** A new object, at the first free address. *)
Definition alloc (o : object) : M addr :=
  fun h => (Ok (length h), h ++ [o]).

Definition read (a : addr) : M object :=
  fun h =>
    match h !! a with
    | Some o => (Ok o, h)
    | None => (Raise (Builtin AttributeError), h)
    end.

Definition write (a : addr) (o : object) : M unit :=
  fun h => (Ok tt, <[a := o]> h).

Fixpoint lookup_entry (k : string) (d : list (string * ref)) : option ref :=
  match d with
  | [] => None
  | (k', v) :: d' => if String.eqb k k' then Some v else lookup_entry k d'
  end.

(** [v.get(k, dflt)] *)
Definition get (v : ref) (k : string) (dflt : ref) : M ref :=
  match v with
  | RObj a =>
      o <~ read a ;;
      match o with
      | ODict d => ret (match lookup_entry k d with Some x => x | None => dflt end)
      | _ => raise (Builtin AttributeError)
      end
  | _ => raise (Builtin AttributeError)
  end.

(** [v[k]] *)
Definition getitem (v : ref) (k : string) : M ref :=
  match v with
  | RObj a =>
      o <~ read a ;;
      match o with
      | ODict d =>
          match lookup_entry k d with
          | Some x => ret x
          | None => raise (Builtin KeyError)
          end
      | _ => raise (Builtin TypeError)
      end
  | _ => raise (Builtin TypeError)
  end.

(** [bool(v)] *)
Definition truthy (v : ref) : M bool :=
  match v with
  | RNone => ret false
  | RBool b => ret b
  | RInt z => ret (negb (Z.eqb z 0))
  | RStr s => ret (negb (String.eqb s EmptyString))
  | RObj a =>
      o <~ read a ;;
      match o with
      | OList l => ret (match l with [] => false | _ :: _ => true end)
      | ODict d => ret (match d with [] => false | _ :: _ => true end)
      | OStory l => ret (match l with [] => false | _ :: _ => true end)
      | ODocument _ => ret true
      end
  end.

(** The items visited by [for x in v]. *)
Definition iter (v : ref) : M (list ref) :=
  match v with
  | RStr s => ret (map RStr (chars s))
  | RObj a =>
      o <~ read a ;;
      match o with
      | OList l => ret l
      | ODict d => ret (map (fun kv => RStr (fst kv)) d)
      | _ => raise (Builtin TypeError)
      end
  | _ => raise (Builtin TypeError)
  end.

(** [v.items()] *)
Definition items (v : ref) : M (list (string * ref)) :=
  match v with
  | RObj a =>
      o <~ read a ;;
      match o with
      | ODict d => ret d
      | _ => raise (Builtin AttributeError)
      end
  | _ => raise (Builtin AttributeError)
  end.

(** The value held by a reference, read through the store down to [depth]
    objects. *)
Fixpoint snapshot (depth : nat) (h : store) (v : ref) : value :=
  match v with
  | RNone => VNone
  | RBool b => VBool b
  | RInt z => VInt z
  | RStr s => VStr s
  | RObj a =>
      match depth with
      | O => VStr "..."
      | S depth' =>
          match h !! a with
          | Some (OList l) => VList (map (snapshot depth' h) l)
          | Some (ODict d) => VDict (map (fun kv => (fst kv, snapshot depth' h (snd kv))) d)
          | _ => VNone
          end
      end
  end.

(** [str(v)]: the text of an f-string field; a container is read through the
    store (an object graph without cycles is no deeper than the store is
    long). *)
Definition str (v : ref) : M string :=
  fun h => (Ok (Py.str (snapshot (length h) h v)), h).

(** [sep.join(l)] on the items of a list. *)
Fixpoint join_items (sep : string) (l : list ref) : result string :=
  match l with
  | [] => Ok EmptyString
  | RStr s :: l' =>
      match l' with
      | [] => Ok s
      | _ :: _ => Py.bind (join_items sep l') (fun r => Ok (s +:+ sep +:+ r))
      end
  | _ :: _ => Raise (Builtin TypeError)
  end.

(** [sep.join(v)] *)
Definition join (sep : string) (v : ref) : M string :=
  l <~ iter v ;;
  match join_items sep l with
  | Ok s => ret s
  | Raise e => raise e
  end.

(** [l.append(x)] on a list object. *)
Definition append (l : addr) (x : ref) : M unit :=
  o <~ read l ;;
  match o with
  | OList elems => write l (OList (elems ++ [x]))
  | _ => raise (Builtin AttributeError)
  end.

(** [story.append(f)] *)
Definition story_append (story : addr) (f : flowable) : M unit :=
  o <~ read story ;;
  match o with
  | OStory blocks => write story (OStory (blocks ++ [f]))
  | _ => raise (Builtin AttributeError)
  end.

(** A paragraph added to the python-docx document, with its runs and
    attributes set. *)
Definition add_paragraph (doc : addr) (p : paragraph) : M unit :=
  o <~ read doc ;;
  match o with
  | ODocument paras => write doc (ODocument (paras ++ [p]))
  | _ => raise (Builtin AttributeError)
  end.

(** A [for] loop. *)
Fixpoint for_each {A : Type} (body : A -> M unit) (l : list A) : M unit :=
  match l with
  | [] => ret tt
  | x :: l' => _ <~ body x ;; for_each body l'
  end.

(** A [for] loop that appends to the local text [html]. *)
Fixpoint for_each_text {A : Type} (body : A -> string -> M string) (l : list A)
    (html : string) : M string :=
  match l with
  | [] => ret html
  | x :: l' => html <~ body x html ;; for_each_text body l' html
  end.

(** [if d.get(key): contact_info.append(d[key])] *)
Definition append_if_set (d : ref) (key : string) (contact_info : addr) : M unit :=
  v <~ get d key RNone ;;
  t <~ truthy v ;;
  if (t : bool) then x <~ getitem d key ;; append contact_info x else ret tt.

(** [contact_info = []] and the three conditional appends. *)
Definition contact_info (personal : ref) : M addr :=
  contact_info <~ alloc (OList []) ;;
  _ <~ append_if_set personal "email" contact_info ;;
  _ <~ append_if_set personal "phone" contact_info ;;
  _ <~ append_if_set personal "location" contact_info ;;
  ret contact_info.

Definition date_range (exp : ref) : M string :=
  start_date <~ get exp "start_date" (RStr EmptyString) ;;
  s <~ str start_date ;;
  end_date <~ get exp "end_date" (RStr "Present") ;;
  e <~ str end_date ;;
  ret (s +:+ " to " +:+ e).

(** *** export_to_pdf *)

Definition pdf_header (story : addr) (personal : ref) : M unit :=
  full_name <~ get personal "full_name" RNone ;;
  t <~ truthy full_name ;;
  if (t : bool) then
    name <~ getitem personal "full_name" ;;
    _ <~ story_append story (Paragraph name Pdf.title_style) ;;
    contact_info <~ contact_info personal ;;
    c <~ truthy (RObj contact_info) ;;
    _ <~ (if (c : bool) then
            joined <~ join " • " (RObj contact_info) ;;
            story_append story (Paragraph (RStr joined) Pdf.body_style)
          else ret tt) ;;
    story_append story (Spacer 1 12)
  else ret tt.

Definition pdf_summary (story : addr) (resume_data : ref) : M unit :=
  s <~ get resume_data "summary" RNone ;;
  t <~ truthy s ;;
  if (t : bool) then
    _ <~ story_append story (Paragraph (RStr "PROFESSIONAL SUMMARY") Pdf.heading_style) ;;
    text <~ getitem resume_data "summary" ;;
    _ <~ story_append story (Paragraph text Pdf.body_style) ;;
    story_append story (Spacer 1 12)
  else ret tt.

Definition pdf_experience (story : addr) (exp : ref) : M unit :=
  job_title <~ get exp "job_title" (RStr EmptyString) ;;
  job_title <~ str job_title ;;
  company <~ get exp "company" (RStr EmptyString) ;;
  company <~ str company ;;
  let job_header := "<b>" +:+ job_title +:+ "</b> - " +:+ company in
  location <~ get exp "location" RNone ;;
  t <~ truthy location ;;
  job_header <~ (if (t : bool) then
                   loc <~ getitem exp "location" ;;
                   loc <~ str loc ;;
                   ret (job_header +:+ " (" +:+ loc +:+ ")")
                 else ret job_header) ;;
  _ <~ story_append story (Paragraph (RStr job_header) Pdf.body_style) ;;
  date_range <~ date_range exp ;;
  _ <~ story_append story (Paragraph (RStr ("<i>" +:+ date_range +:+ "</i>")) Pdf.body_style) ;;
  dflt <~ alloc (OList []) ;;
  bullets <~ get exp "bullets" (RObj dflt) ;;
  bullets <~ iter bullets ;;
  _ <~ for_each (fun bullet =>
                   b <~ str bullet ;;
                   story_append story (Paragraph (RStr ("• " +:+ b)) Pdf.body_style))
         bullets ;;
  story_append story (Spacer 1 8).

Definition pdf_work_experience (story : addr) (resume_data : ref) : M unit :=
  dflt <~ alloc (OList []) ;;
  work_exp <~ get resume_data "work_experience" (RObj dflt) ;;
  t <~ truthy work_exp ;;
  if (t : bool) then
    _ <~ story_append story (Paragraph (RStr "PROFESSIONAL EXPERIENCE") Pdf.heading_style) ;;
    exps <~ iter work_exp ;;
    for_each (pdf_experience story) exps
  else ret tt.

Definition pdf_education_entry (story : addr) (edu : ref) : M unit :=
  degree <~ get edu "degree" (RStr EmptyString) ;;
  degree <~ str degree ;;
  let edu_text := "<b>" +:+ degree +:+ "</b>" in
  major <~ get edu "major" RNone ;;
  t <~ truthy major ;;
  edu_text <~ (if (t : bool) then
                 m <~ getitem edu "major" ;;
                 m <~ str m ;;
                 ret (edu_text +:+ " in " +:+ m)
               else ret edu_text) ;;
  school <~ get edu "school" (RStr EmptyString) ;;
  school <~ str school ;;
  let edu_text := edu_text +:+ " - " +:+ school in
  graduation_date <~ get edu "graduation_date" RNone ;;
  t <~ truthy graduation_date ;;
  edu_text <~ (if (t : bool) then
                 g <~ getitem edu "graduation_date" ;;
                 g <~ str g ;;
                 ret (edu_text +:+ " (" +:+ g +:+ ")")
               else ret edu_text) ;;
  _ <~ story_append story (Paragraph (RStr edu_text) Pdf.body_style) ;;
  story_append story (Spacer 1 4).

Definition pdf_education (story : addr) (resume_data : ref) : M unit :=
  dflt <~ alloc (OList []) ;;
  education <~ get resume_data "education" (RObj dflt) ;;
  t <~ truthy education ;;
  if (t : bool) then
    _ <~ story_append story (Paragraph (RStr "EDUCATION") Pdf.heading_style) ;;
    edus <~ iter education ;;
    for_each (pdf_education_entry story) edus
  else ret tt.

Definition pdf_skill_category (story : addr) (item : string * ref) : M unit :=
  let (category, skill_list) := item in
  t <~ truthy skill_list ;;
  if (t : bool) then
    joined <~ join ", " skill_list ;;
    story_append story
      (Paragraph (RStr ("<b>" +:+ category +:+ ":</b> " +:+ joined)) Pdf.body_style)
  else ret tt.

Definition pdf_skills (story : addr) (resume_data : ref) : M unit :=
  dflt <~ alloc (ODict []) ;;
  skills <~ get resume_data "skills" (RObj dflt) ;;
  t <~ truthy skills ;;
  if (t : bool) then
    _ <~ story_append story (Paragraph (RStr "SKILLS") Pdf.heading_style) ;;
    its <~ items skills ;;
    for_each (pdf_skill_category story) its
  else ret tt.

Definition export_to_pdf (resume_data : ref) : M (list flowable) :=
  try_wrap "PDF export failed: "
    (story <~ alloc (OStory []) ;;
     dflt <~ alloc (ODict []) ;;
     personal <~ get resume_data "personal" (RObj dflt) ;;
     _ <~ pdf_header story personal ;;
     _ <~ pdf_summary story resume_data ;;
     _ <~ pdf_work_experience story resume_data ;;
     _ <~ pdf_education story resume_data ;;
     _ <~ pdf_skills story resume_data ;;
     o <~ read story ;;
     match o with
     | OStory blocks => ret blocks
     | _ => raise (Builtin TypeError)
     end).

(** *** export_to_docx *)

Definition plain_run (text : ref) : run := mkRun text false None.
Definition bold_run (text : ref) : run := mkRun text true None.

(** [doc.add_paragraph(text, style)]: a run is added for a text that is not
    empty. *)
Definition add_text_paragraph (doc : addr) (text : ref) (style : option string)
    (alignment : option Docx.Alignment) : M unit :=
  t <~ truthy text ;;
  add_paragraph doc (mkParagraph (if (t : bool) then [plain_run text] else []) alignment style).

Definition _add_section_heading (doc : addr) (title : string) : M unit :=
  add_paragraph doc (mkParagraph [mkRun (RStr title) true (Some 14)] None None).

Definition docx_header (doc : addr) (personal : ref) : M unit :=
  full_name <~ get personal "full_name" RNone ;;
  t <~ truthy full_name ;;
  if (t : bool) then
    name <~ getitem personal "full_name" ;;
    _ <~ add_paragraph doc
           (mkParagraph [mkRun name true (Some 18)] (Some Docx.CENTER) None) ;;
    contact_info <~ contact_info personal ;;
    c <~ truthy (RObj contact_info) ;;
    _ <~ (if (c : bool) then
            joined <~ join " • " (RObj contact_info) ;;
            add_text_paragraph doc (RStr joined) None (Some Docx.CENTER)
          else ret tt) ;;
    add_paragraph doc (mkParagraph [] None None)
  else ret tt.

Definition docx_summary (doc : addr) (resume_data : ref) : M unit :=
  s <~ get resume_data "summary" RNone ;;
  t <~ truthy s ;;
  if (t : bool) then
    _ <~ _add_section_heading doc "PROFESSIONAL SUMMARY" ;;
    text <~ getitem resume_data "summary" ;;
    add_text_paragraph doc text None None
  else ret tt.

Definition docx_experience (doc : addr) (exp : ref) : M unit :=
  job_title <~ get exp "job_title" (RStr EmptyString) ;;
  job_title <~ str job_title ;;
  company <~ get exp "company" (RStr EmptyString) ;;
  company <~ str company ;;
  _ <~ add_paragraph doc
         (mkParagraph [bold_run (RStr (job_title +:+ " - " +:+ company))] None None) ;;
  date_range <~ date_range exp ;;
  _ <~ add_text_paragraph doc (RStr date_range) None None ;;
  dflt <~ alloc (OList []) ;;
  bullets <~ get exp "bullets" (RObj dflt) ;;
  bullets <~ iter bullets ;;
  _ <~ for_each (fun bullet => add_text_paragraph doc bullet (Some "List Bullet") None)
         bullets ;;
  add_paragraph doc (mkParagraph [] None None).

Definition docx_work_experience (doc : addr) (resume_data : ref) : M unit :=
  dflt <~ alloc (OList []) ;;
  work_exp <~ get resume_data "work_experience" (RObj dflt) ;;
  t <~ truthy work_exp ;;
  if (t : bool) then
    _ <~ _add_section_heading doc "PROFESSIONAL EXPERIENCE" ;;
    exps <~ iter work_exp ;;
    for_each (docx_experience doc) exps
  else ret tt.

Definition docx_education_entry (doc : addr) (edu : ref) : M unit :=
  degree <~ get edu "degree" (RStr EmptyString) ;;
  let degree_run := bold_run degree in
  major <~ get edu "major" RNone ;;
  t <~ truthy major ;;
  major_run <~ (if (t : bool) then
                  m <~ getitem edu "major" ;;
                  m <~ str m ;;
                  ret [plain_run (RStr (" in " +:+ m))]
                else ret []) ;;
  school <~ get edu "school" (RStr EmptyString) ;;
  school <~ str school ;;
  let school_run := plain_run (RStr (" - " +:+ school)) in
  graduation_date <~ get edu "graduation_date" RNone ;;
  t <~ truthy graduation_date ;;
  date_run <~ (if (t : bool) then
                 g <~ getitem edu "graduation_date" ;;
                 g <~ str g ;;
                 ret [plain_run (RStr (" (" +:+ g +:+ ")"))]
               else ret []) ;;
  add_paragraph doc
    (mkParagraph ([degree_run] ++ major_run ++ [school_run] ++ date_run) None None).

Definition docx_education (doc : addr) (resume_data : ref) : M unit :=
  dflt <~ alloc (OList []) ;;
  education <~ get resume_data "education" (RObj dflt) ;;
  t <~ truthy education ;;
  if (t : bool) then
    _ <~ _add_section_heading doc "EDUCATION" ;;
    edus <~ iter education ;;
    for_each (docx_education_entry doc) edus
  else ret tt.

Definition docx_skill_category (doc : addr) (item : string * ref) : M unit :=
  let (category, skill_list) := item in
  t <~ truthy skill_list ;;
  if (t : bool) then
    let category_run := bold_run (RStr (category +:+ ": ")) in
    joined <~ join ", " skill_list ;;
    add_paragraph doc (mkParagraph [category_run; plain_run (RStr joined)] None None)
  else ret tt.

Definition docx_skills (doc : addr) (resume_data : ref) : M unit :=
  dflt <~ alloc (ODict []) ;;
  skills <~ get resume_data "skills" (RObj dflt) ;;
  t <~ truthy skills ;;
  if (t : bool) then
    _ <~ _add_section_heading doc "SKILLS" ;;
    its <~ items skills ;;
    for_each (docx_skill_category doc) its
  else ret tt.

Definition export_to_docx (resume_data : ref) : M (list paragraph) :=
  try_wrap "DOCX export failed: "
    (doc <~ alloc (ODocument []) ;;
     dflt <~ alloc (ODict []) ;;
     personal <~ get resume_data "personal" (RObj dflt) ;;
     _ <~ docx_header doc personal ;;
     _ <~ docx_summary doc resume_data ;;
     _ <~ docx_work_experience doc resume_data ;;
     _ <~ docx_education doc resume_data ;;
     _ <~ docx_skills doc resume_data ;;
     o <~ read doc ;;
     match o with
     | ODocument paras => ret paras
     | _ => raise (Builtin TypeError)
     end).

(** *** export_to_html

    [html] is a local variable holding a text; [html += t] binds it to a new
    text. *)

(** [get] followed by the formatting of the value. *)
Definition field (d : ref) (key : string) (dflt : ref) : M string :=
  v <~ get d key dflt ;; str v.

Definition html_page_top (personal : ref) : M string :=
  title <~ field personal "full_name" (RStr "Resume") ;;
  full_name <~ field personal "full_name" (RStr EmptyString) ;;
  email <~ field personal "email" (RStr EmptyString) ;;
  phone <~ field personal "phone" (RStr EmptyString) ;;
  location <~ field personal "location" (RStr EmptyString) ;;
  ret (Html.page_head +:+ title +:+ Html.page_style +:+ full_name +:+
       Html.contact_open +:+ email +:+ " | " +:+ phone +:+ " | " +:+
       location +:+ Html.contact_close).

Definition html_links (personal : ref) (html : string) : M string :=
  linkedin <~ get personal "linkedin" RNone ;;
  t <~ truthy linkedin ;;
  shown <~ (if (t : bool) then ret true
            else website <~ get personal "website" RNone ;; truthy website) ;;
  if (shown : bool) then
    let html := html +:+ "<div class='contact'>" in
    linkedin <~ get personal "linkedin" RNone ;;
    t <~ truthy linkedin ;;
    html <~ (if (t : bool) then
               l <~ getitem personal "linkedin" ;;
               l <~ str l ;;
               ret (html +:+ "LinkedIn: " +:+ l)
             else ret html) ;;
    website <~ get personal "website" RNone ;;
    t <~ truthy website ;;
    html <~ (if (t : bool) then
               w <~ getitem personal "website" ;;
               w <~ str w ;;
               ret (html +:+ " | Website: " +:+ w)
             else ret html) ;;
    ret (html +:+ "</div>")
  else ret html.

Definition html_summary (resume_data : ref) (html : string) : M string :=
  s <~ get resume_data "summary" RNone ;;
  t <~ truthy s ;;
  if (t : bool) then
    text <~ getitem resume_data "summary" ;;
    text <~ str text ;;
    ret (html +:+ Html.summary_open +:+ text +:+ Html.summary_close)
  else ret html.

Definition html_experience (exp : ref) (html : string) : M string :=
  job_title <~ field exp "job_title" (RStr EmptyString) ;;
  company <~ field exp "company" (RStr EmptyString) ;;
  start_date <~ field exp "start_date" (RStr EmptyString) ;;
  end_date <~ field exp "end_date" (RStr "Present") ;;
  location <~ field exp "location" (RStr EmptyString) ;;
  let html := html +:+ Html.job_open +:+ job_title +:+ Html.company_open +:+ company +:+
              Html.dates_open +:+ (start_date +:+ " to " +:+ end_date) +:+ " | " +:+
              location +:+ Html.dates_close in
  dflt <~ alloc (OList []) ;;
  bullets <~ get exp "bullets" (RObj dflt) ;;
  bullets <~ iter bullets ;;
  html <~ for_each_text
            (fun bullet html =>
               b <~ str bullet ;; ret (html +:+ Html.bullet_open +:+ b +:+ "</div>"))
            bullets html ;;
  ret (html +:+ "</div>").

Definition html_work_experience (resume_data : ref) (html : string) : M string :=
  dflt <~ alloc (OList []) ;;
  work_exp <~ get resume_data "work_experience" (RObj dflt) ;;
  t <~ truthy work_exp ;;
  if (t : bool) then
    let html := html +:+ Html.section_open "Professional Experience" in
    exps <~ iter work_exp ;;
    html <~ for_each_text html_experience exps html ;;
    ret (html +:+ "</div>")
  else ret html.

Definition html_education_entry (edu : ref) (html : string) : M string :=
  degree <~ field edu "degree" (RStr EmptyString) ;;
  major <~ field edu "major" (RStr EmptyString) ;;
  school <~ field edu "school" (RStr EmptyString) ;;
  graduation_date <~ field edu "graduation_date" (RStr EmptyString) ;;
  ret (html +:+ Html.degree_open +:+ degree +:+ " in " +:+ major +:+ " - " +:+ school +:+
       Html.graduated_open +:+ graduation_date +:+ Html.graduated_close).

Definition html_education (resume_data : ref) (html : string) : M string :=
  dflt <~ alloc (OList []) ;;
  education <~ get resume_data "education" (RObj dflt) ;;
  t <~ truthy education ;;
  if (t : bool) then
    let html := html +:+ Html.section_open "Education" in
    edus <~ iter education ;;
    html <~ for_each_text html_education_entry edus html ;;
    ret (html +:+ "</div>")
  else ret html.

Definition html_skill_category (item : string * ref) (html : string) : M string :=
  let (category, skill_list) := item in
  t <~ truthy skill_list ;;
  if (t : bool) then
    joined <~ join ", " skill_list ;;
    ret (html +:+ "<div class=" +:+ dq +:+ "skill-category" +:+ dq +:+ "><strong>" +:+
         category +:+ ":</strong> " +:+ joined +:+ "</div>")
  else ret html.

Definition html_skills (resume_data : ref) (html : string) : M string :=
  dflt <~ alloc (ODict []) ;;
  skills <~ get resume_data "skills" (RObj dflt) ;;
  t <~ truthy skills ;;
  if (t : bool) then
    let html := html +:+ Html.section_open "Skills" in
    its <~ items skills ;;
    html <~ for_each_text html_skill_category its html ;;
    ret (html +:+ "</div>")
  else ret html.

Definition export_to_html (resume_data : ref) : M string :=
  dflt <~ alloc (ODict []) ;;
  personal <~ get resume_data "personal" (RObj dflt) ;;
  html <~ html_page_top personal ;;
  html <~ html_links personal html ;;
  let html := html +:+ "</div>" in
  html <~ html_summary resume_data html ;;
  html <~ html_work_experience resume_data html ;;
  html <~ html_education resume_data html ;;
  html <~ html_skills resume_data html ;;
  ret (html +:+ "</body></html>").

(** The store image of a value: [load v h] adds the objects of [v] to [h]
    and gives the reference to it. *)
Definition load_all (load : value -> store -> ref * store)
  : list value -> store -> list ref * store :=
  fix go (l : list value) (h : store) : list ref * store :=
    match l with
    | [] => ([], h)
    | x :: l' =>
        let '(r, h) := load x h in
        let '(rs, h) := go l' h in
        (r :: rs, h)
    end.

Definition load_entries (load : value -> store -> ref * store)
  : list (string * value) -> store -> list (string * ref) * store :=
  fix go (d : list (string * value)) (h : store) : list (string * ref) * store :=
    match d with
    | [] => ([], h)
    | (k, x) :: d' =>
        let '(r, h) := load x h in
        let '(rs, h) := go d' h in
        ((k, r) :: rs, h)
    end.

Fixpoint load (v : value) (h : store) : ref * store :=
  match v with
  | VNone => (RNone, h)
  | VBool b => (RBool b, h)
  | VInt z => (RInt z, h)
  | VStr s => (RStr s, h)
  | VList l =>
      let '(refs, h) := load_all load l h in
      (RObj (length h), h ++ [OList refs])
  | VDict d =>
      let '(entries, h) := load_entries load d h in
      (RObj (length h), h ++ [ODict entries])
  end.

(** The reference [r] stands for the value [v] in the store [h]; an object
    holds references to objects below it only. *)
Definition below (a : addr) (r : ref) : Prop :=
  match r with
  | RObj a' => (a' < a)%nat
  | _ => True
  end.

Inductive rep (h : store) : value -> ref -> Prop :=
| rep_none : rep h VNone RNone
| rep_bool (b : bool) : rep h (VBool b) (RBool b)
| rep_int (z : Z) : rep h (VInt z) (RInt z)
| rep_str (s : string) : rep h (VStr s) (RStr s)
| rep_list (a : addr) (rs : list ref) (vs : list value) :
    h !! a = Some (OList rs) ->
    Forall2 (fun v r => rep h v r /\ below a r) vs rs ->
    rep h (VList vs) (RObj a)
| rep_dict (a : addr) (es : list (string * ref)) (d : list (string * value)) :
    h !! a = Some (ODict es) ->
    Forall2 (fun kv e => fst kv = fst e /\ rep h (snd kv) (snd e) /\ below a (snd e)) d es ->
    rep h (VDict d) (RObj a).

(** [h'] has every object of [h], at the same address. *)
Definition extends (h h' : store) : Prop :=
  forall a o, h !! a = Some o -> h' !! a = Some o.

(** Two results that are both values, related by [R], or the same exception. *)
Definition agree {A B : Type} (R : A -> B -> Prop) (p : result A) (q : result B) : Prop :=
  match p, q with
  | Ok a, Ok b => R a b
  | Raise e, Raise e' => e = e'
  | _, _ => False
  end.

(** The outputs read back as values, to compare them with those of the
    exporters over values. *)
Definition flowable_value (h : store) (f : flowable) : Pdf.Flowable :=
  match f with
  | Paragraph text style => Pdf.Paragraph (snapshot (length h) h text) style
  | Spacer width height => Pdf.Spacer width height
  end.

Definition paragraph_value (h : store) (p : paragraph) : Docx.DocxParagraph :=
  Docx.mkParagraph
    (map (fun r => Docx.mkRun (snapshot (length h) h (run_text r)) (run_bold r) (run_size r))
       (runs p))
    (alignment p) (style p).

(** The exporters run on the store image of a value. *)
Definition run_pdf (v : value) : result (list Pdf.Flowable) :=
  let '(r, h) := load v [] in
  let '(out, h') := export_to_pdf r h in
  match out with
  | Ok blocks => Ok (map (flowable_value h') blocks)
  | Raise e => Raise e
  end.

Definition run_docx (v : value) : result (list Docx.DocxParagraph) :=
  let '(r, h) := load v [] in
  let '(out, h') := export_to_docx r h in
  match out with
  | Ok paras => Ok (map (paragraph_value h') paras)
  | Raise e => Raise e
  end.

Definition run_html (v : value) : result string :=
  let '(r, h) := load v [] in fst (export_to_html r h).

(** [m] leaves every object below address [n] as it is, does not shrink the
    store, and what it returns satisfies [post]. *)
Definition keeps (n : nat) {A : Type} (post : A -> Prop) (m : M A) : Prop :=
  forall h : store, (n <= length h)%nat ->
    (length h <= length (snd (m h)))%nat
    /\ (forall a : addr, (a < n)%nat -> snd (m h) !! a = h !! a)
    /\ (forall x : A, fst (m h) = Ok x -> post x).

(** No reference held by an object points outside the store. *)
Definition ref_in (h : store) (v : ref) : Prop :=
  match v with
  | RObj a => (a < length h)%nat
  | _ => True
  end.

Definition object_in (h : store) (o : object) : Prop :=
  match o with
  | OList l => Forall (ref_in h) l
  | ODict d => Forall (fun kv => ref_in h (snd kv)) d
  | _ => True
  end.

Definition closed (h : store) : Prop := Forall (object_in h) h.

End Store.

(** ** Reading the outputs *)

Fixpoint is_prefix (p s : string) : bool :=
  match p, s with
  | EmptyString, _ => true
  | String a p', String b s' => Ascii.eqb a b && is_prefix p' s'
  | String _ _, EmptyString => false
  end.

(** [needle in text] *)
Fixpoint contains (needle text : string) : bool :=
  is_prefix needle text ||
  match text with
  | EmptyString => false
  | String _ text' => contains needle text'
  end.

Definition infix (needle text : string) : Prop :=
  exists before after, text = before +:+ needle +:+ after.

(** The text of a flowable: the markup of a paragraph built from a [str]. *)
Definition pdf_text (f : Pdf.Flowable) : string :=
  match f with
  | Pdf.Paragraph (VStr s) _ => s
  | _ => EmptyString
  end.

Definition run_str (r : Docx.Run) : string :=
  match Docx.run_text r with
  | VStr s => s
  | _ => EmptyString
  end.

(** The text of a paragraph: that of its runs, in order. *)
Definition docx_text (p : Docx.DocxParagraph) : string :=
  fold_right (fun r acc => run_str r +:+ acc) EmptyString (Docx.runs p).

Definition pdf_shows (needle : string) (resume_data : value) : bool :=
  match export_to_pdf resume_data with
  | Ok story => existsb (fun f => contains needle (pdf_text f)) story
  | Raise _ => false
  end.

Definition docx_shows (needle : string) (resume_data : value) : bool :=
  match export_to_docx resume_data with
  | Ok doc => existsb (fun p => contains needle (docx_text p)) doc
  | Raise _ => false
  end.

Definition html_shows (needle : string) (resume_data : value) : bool :=
  match export_to_html resume_data with
  | Ok html => contains needle html
  | Raise _ => false
  end.

(** The value of a computation that returned ([dflt] when it raised). *)
Definition value_of {A : Type} (dflt : A) (r : result A) : A :=
  match r with Ok a => a | Raise _ => dflt end.

Definition pdf_output (resume_data : value) : list Pdf.Flowable :=
  value_of [] (export_to_pdf resume_data).

Definition docx_output (resume_data : value) : list Docx.DocxParagraph :=
  value_of [] (export_to_docx resume_data).

Definition html_output (resume_data : value) : string :=
  value_of EmptyString (export_to_html resume_data).

(** The key of the field a section is made from. *)
Definition section_key (s : section) : string :=
  match s with
  | PERSONAL => "personal"
  | SUMMARY => "summary"
  | EXPERIENCE => "work_experience"
  | EDUCATION => "education"
  | SKILLS => "skills"
  end.

(** A block was produced and is not empty. *)
Definition present_blocks {A : Type} (r : result (list A)) : bool :=
  match r with Ok (_ :: _) => true | _ => false end.

Definition present_text (r : result string) : bool :=
  match r with Ok (String _ _) => true | _ => false end.

(** The name element and the contact element of the HTML header. *)
Definition name_div (name : string) : string :=
  "<div class=" +:+ dq +:+ "name" +:+ dq +:+ ">" +:+ name +:+ "</div>".

Definition contact_div (line : string) : string :=
  "<div class=" +:+ dq +:+ "contact" +:+ dq +:+ ">" +:+ line +:+ "</div>".




(** The document without the field [key]. *)
Definition without (key : string) (fields : list (string * value)) : value :=
  VDict (List.filter (fun item => negb (String.eqb (fst item) key)) fields).


(** ** Documents of the data model

    The field names of the specification are the camel-case forms of the
    keys the code reads: [fullName] is ["full_name"], [workExperience] is
    ["work_experience"], [jobTitle] is ["job_title"], and so on. *)

Definition is_str (v : value) : bool :=
  match v with VStr _ => true | _ => false end.

Definition is_str_list (v : value) : bool :=
  match v with VList l => forallb is_str l | _ => false end.

(** The field is absent or satisfies [ok]. *)
Definition optional (ok : value -> bool) (key : string) (d : list (string * value)) : bool :=
  match dict_lookup key d with
  | Some v => ok v
  | None => true
  end.

Definition conforms_personal (v : value) : bool :=
  match v with
  | VDict d =>
      forallb (fun key => optional is_str key d)
        ["full_name"; "email"; "phone"; "location"; "linkedin"; "website"]
  | _ => false
  end.

Definition conforms_experience (v : value) : bool :=
  match v with
  | VDict d =>
      forallb (fun key => optional is_str key d)
        ["job_title"; "company"; "location"; "start_date"; "end_date"]
      && optional is_str_list "bullets" d
  | _ => false
  end.

Definition conforms_education (v : value) : bool :=
  match v with
  | VDict d =>
      forallb (fun key => optional is_str key d)
        ["degree"; "major"; "school"; "graduation_date"; "gpa"; "honors"]
  | _ => false
  end.

Definition is_list_of (ok : value -> bool) (v : value) : bool :=
  match v with VList l => forallb ok l | _ => false end.

Definition conforms_skills (v : value) : bool :=
  match v with
  | VDict d => forallb (fun kv => is_str_list (snd kv)) d
  | _ => false
  end.

(** A document of the shape of the data model: every field is optional,
    and one that is there has the type the model gives it. *)
Definition schema_conforming (resume_data : value) : bool :=
  match resume_data with
  | VDict d =>
      optional conforms_personal "personal" d
      && optional is_str "summary" d
      && optional (is_list_of conforms_experience) "work_experience" d
      && optional (is_list_of conforms_education) "education" d
      && optional conforms_skills "skills" d
  | _ => false
  end.

(** ** Example documents *)

(** The document of the end-to-end scenario. *)
Definition jane : value :=
  VDict [("personal", VDict [("full_name", VStr "Jane Doe"); ("email", VStr "jane@x.com")]);
         ("summary", VStr EmptyString);
         ("work_experience",
           VList [VDict [("job_title", VStr "Engineer"); ("company", VStr "Acme");
                         ("start_date", VStr "01/2020"); ("end_date", VStr EmptyString);
                         ("bullets", VList [VStr "Shipped X"])]]);
         ("education", VList []);
         ("skills", VDict [])].

(** The same entry without an ["end_date"] key. *)
Definition jane_current_fields : list (string * value) :=
  [("job_title", VStr "Engineer"); ("company", VStr "Acme");
   ("start_date", VStr "01/2020"); ("bullets", VList [VStr "Shipped X"])].

Definition jane_current : value :=
  VDict [("personal", VDict [("full_name", VStr "Jane Doe"); ("email", VStr "jane@x.com")]);
         ("work_experience", VList [VDict jane_current_fields])].

Definition name_only : value :=
  VDict [("personal", VDict [("full_name", VStr "Jane Doe")])].

Definition email_only : value :=
  VDict [("personal", VDict [("email", VStr "jane@x.com")])].

Definition script_name : value :=
  VDict [("personal", VDict [("full_name", VStr "<script>alert(1)</script>")])].

Definition located_fields : list (string * value) :=
  [("job_title", VStr "Engineer"); ("company", VStr "Acme"); ("location", VStr "Remote");
   ("start_date", VStr "01/2020"); ("end_date", VStr "Present"); ("bullets", VList [])].

Definition located : value :=
  VDict [("work_experience", VList [VDict located_fields])].

Definition degree_fields : list (string * value) :=
  [("degree", VStr "BSc"); ("school", VStr "MIT"); ("major", VStr EmptyString);
   ("graduation_date", VStr EmptyString)].

Definition degree_only : value :=
  VDict [("education", VList [VDict degree_fields])].

Definition tools_fields : list (string * value) :=
  [("skills", VDict [("Languages", VList [VStr "Python"; VStr "Go"]); ("Tools", VList [])])].

Definition empty_categories_fields : list (string * value) :=
  [("skills", VDict [("Languages", VList []); ("Tools", VList [])])].

(** [{"work_experience": 5}] *)
Definition numeric_experience : value :=
  VDict [("personal", VDict [("full_name", VStr "Jane Doe")]);
         ("work_experience", VInt 5)].

(** [{"work_experience": null}] *)
Definition null_experience : value :=
  VDict [("personal", VDict [("full_name", VStr "Jane Doe")]);
         ("work_experience", VNone)].

(** * The rest of the application

    The accounts kept in [users.json] ([UserManager]), the canned and the
    generated texts ([SimpleAIGenerator]), the session state, the form pages
    that build the résumé and the live preview.  What streamlit, the file
    system, the clock and the completion service give to the code is an
    argument of the model. *)

(** ** More of Python's built-in operations *)

Module Builtins.

(** [v == k] for a [str] [k] *)
Definition eq_str (k : string) (v : value) : bool :=
  match v with
  | VStr s => String.eqb s k
  | _ => false
  end.

(** [k in v] for a [str] [k]: a key of a dict, an item of a list, a part of
    a text. *)
Definition is_in (k : string) (v : value) : result bool :=
  match v with
  | VDict d => Ok (match dict_lookup k d with Some _ => true | None => false end)
  | VList l => Ok (existsb (eq_str k) l)
  | VStr s => Ok (contains k s)
  | _ => Raise (Builtin TypeError)
  end.

(** [v[k] = x] for a [str] [k] *)
Definition setitem (v : value) (k : string) (x : value) : result value :=
  match v with
  | VDict d => Ok (VDict (dict_set k x d))
  | _ => Raise (Builtin TypeError)
  end.

Fixpoint dict_del (k : string) (d : list (string * value)) : list (string * value) :=
  match d with
  | [] => []
  | (k', x) :: d' => if String.eqb k k' then d' else (k', x) :: dict_del k d'
  end.

(** [del v[k]] for a [str] [k] *)
Definition delitem (v : value) (k : string) : result value :=
  match v with
  | VDict d =>
      match dict_lookup k d with
      | Some _ => Ok (VDict (dict_del k d))
      | None => Raise (Builtin KeyError)
      end
  | _ => Raise (Builtin TypeError)
  end.

(** [list(v.keys())] *)
Definition keys (v : value) : result (list string) :=
  match v with
  | VDict d => Ok (map fst d)
  | _ => Raise (Builtin AttributeError)
  end.

(** [v.append(x)] *)
Definition append (v : value) (x : value) : result value :=
  match v with
  | VList l => Ok (VList (l ++ [x]))
  | _ => Raise (Builtin AttributeError)
  end.

(** [v.extend(xs)] for a list [xs] *)
Definition extend (v : value) (xs : list value) : result value :=
  match v with
  | VList l => Ok (VList (l ++ xs))
  | _ => Raise (Builtin AttributeError)
  end.

(** [len(v)] *)
Definition len (v : value) : result nat :=
  match v with
  | VList l => Ok (length l)
  | VDict d => Ok (length d)
  | VStr s => Ok (length (chars s))
  | _ => Raise (Builtin TypeError)
  end.

(** The text of a list of characters. *)
Definition text_of (l : list string) : string :=
  fold_right String.append EmptyString l.

(** [v[:n]]: the first [n] items of a list, the first [n] characters of a
    text.  A dict takes no slice ([TypeError: unhashable type]; from Python
    3.12 on a [KeyError]). *)
Definition slice_to (n : nat) (v : value) : result value :=
  match v with
  | VList l => Ok (VList (firstn n l))
  | VStr s => Ok (VStr (text_of (firstn n (chars s))))
  | _ => Raise (Builtin TypeError)
  end.

(** A character given by the bytes of its UTF-8 form. *)
Definition utf8 (bytes : list nat) : string :=
  fold_right (fun n s => String (ascii_of_nat n) s) EmptyString bytes.

(** The characters [c] with [c.isspace()]: U+0009 to U+000D, U+001C to
    U+0020, U+0085, U+00A0, U+1680, U+2000 to U+200A, U+2028, U+2029,
    U+202F, U+205F and U+3000. *)
Definition whitespace : list string :=
  map utf8
    [[9%nat]; [10%nat]; [11%nat]; [12%nat]; [13%nat];
     [28%nat]; [29%nat]; [30%nat]; [31%nat]; [32%nat];
     [194%nat; 133%nat]; [194%nat; 160%nat]; [225%nat; 154%nat; 128%nat];
     [226%nat; 128%nat; 128%nat]; [226%nat; 128%nat; 129%nat];
     [226%nat; 128%nat; 130%nat]; [226%nat; 128%nat; 131%nat];
     [226%nat; 128%nat; 132%nat]; [226%nat; 128%nat; 133%nat];
     [226%nat; 128%nat; 134%nat]; [226%nat; 128%nat; 135%nat];
     [226%nat; 128%nat; 136%nat]; [226%nat; 128%nat; 137%nat];
     [226%nat; 128%nat; 138%nat]; [226%nat; 128%nat; 168%nat];
     [226%nat; 128%nat; 169%nat]; [226%nat; 128%nat; 175%nat];
     [226%nat; 129%nat; 159%nat]; [227%nat; 128%nat; 128%nat]].

Definition isspace (c : string) : bool :=
  existsb (String.eqb c) whitespace.

(** The characters left when the leading ones that satisfy [drop] are
    taken off. *)
Fixpoint lstrip_chars (drop : string -> bool) (l : list string) : list string :=
  match l with
  | [] => []
  | c :: l' => if drop c then lstrip_chars drop l' else l
  end.

Definition rstrip_chars (drop : string -> bool) (l : list string) : list string :=
  rev (lstrip_chars drop (rev l)).

(** [s.strip()] *)
Definition strip (s : string) : string :=
  text_of (rstrip_chars isspace (lstrip_chars isspace (chars s))).

(** [s.lstrip(set)] *)
Definition lstrip (set : string) (s : string) : string :=
  text_of (lstrip_chars (fun c => existsb (String.eqb c) (chars set)) (chars s)).

(** [s.split(sep)] for a separator of one ASCII character. *)
Fixpoint split (sep : ascii) (s : string) : list string :=
  match s with
  | EmptyString => [EmptyString]
  | String a s' =>
      if Ascii.eqb a sep then EmptyString :: split sep s'
      else match split sep s' with
           | w :: ws => String a w :: ws
           | [] => [String a EmptyString]
           end
  end.

Definition newline : ascii := ascii_of_nat 10.

(** The shape of the items of [chars s]: a character is a byte with the
    continuation bytes after it, and all but the first begin with a byte
    that is not a continuation byte. *)
Fixpoint all_continuation (s : string) : bool :=
  match s with
  | EmptyString => true
  | String a s' => is_continuation a && all_continuation s'
  end.

Definition is_char (c : string) : bool :=
  match c with
  | String _ rest => all_continuation rest
  | EmptyString => false
  end.

Definition leads (c : string) : bool :=
  is_char c && negb (starts_with_continuation c).

Definition char_list (l : list string) : bool :=
  match l with
  | [] => true
  | c :: l' => is_char c && forallb leads l'
  end.

(** The first item is not one that [drop] takes off. *)
Definition kept_first (drop : string -> bool) (l : list string) : bool :=
  match l with
  | [] => true
  | c :: _ => negb (drop c)
  end.

(** [bool(s)] for a [str] *)
Definition nonempty (s : string) : bool := negb (String.eqb s EmptyString).

End Builtins.

(** ** UserManager *)

Module UserManager.

Import Builtins.

(** The file [users.json] and the manager object.  [users_json] is what
    [json.load] gives for the file: [None] when there is no file or it
    does not hold JSON.  [writable] tells whether [open(users_file, 'w')]
    succeeds.  What [json.dump] writes is read back by [json.load] as the
    same value. *)
Record state : Type := mkState {
  users_json : option value;
  writable : bool;
  current_user : option string
}.

Definition load_users (s : state) : value :=
  match users_json s with
  | Some users => users
  | None => VDict []
  end.

Definition save_users (users : value) (s : state) : state :=
  if writable s then mkState (Some users) true (current_user s) else s.

Section Hash.

(** [hashlib.sha256(b).hexdigest()] for the UTF-8 bytes [b] *)
Variable sha256_hexdigest : string -> string.

Definition hash_password (password : string) : string :=
  sha256_hexdigest password.

(** [now] is [datetime.now().isoformat()]. *)
Definition register_user (username password email now : string) (s : state)
  : result (bool * string) * state :=
  let users := load_users s in
  match is_in username users with
  | Raise e => (Raise e, s)
  | Ok true => (Ok (false, "Username already exists"), s)
  | Ok false =>
      match setitem users username
              (VDict [("password", VStr (hash_password password));
                      ("email", VStr email);
                      ("created_at", VStr now);
                      ("resumes", VDict [])]) with
      | Raise e => (Raise e, s)
      | Ok users => (Ok (true, "Registration successful"), save_users users s)
      end
  end.

Definition login_user (username password : string) (s : state)
  : result (bool * string) * state :=
  let users := load_users s in
  match (found <- is_in username users ;;
         if found then
           user <- getitem users username ;;
           stored <- getitem user "password" ;;
           Ok (eq_str (hash_password password) stored)
         else Ok false) with
  | Raise e => (Raise e, s)
  | Ok true =>
      (Ok (true, "Login successful"),
       mkState (users_json s) (writable s) (Some username))
  | Ok false => (Ok (false, "Invalid credentials"), s)
  end.

End Hash.

(** The dicts are changed in place in the source; here each changed dict
    is put back into the one that holds it. *)
Definition save_user_resume (username : string) (resume_data : value)
    (resume_name now : string) (s : state) : result bool * state :=
  let users := load_users s in
  match (found <- is_in username users ;;
         if found then
           user <- getitem users username ;;
           has <- is_in "resumes" user ;;
           user <- (if has then Ok user else setitem user "resumes" (VDict [])) ;;
           resumes <- getitem user "resumes" ;;
           resumes <- setitem resumes resume_name
                        (VDict [("data", resume_data); ("last_updated", VStr now)]) ;;
           user <- setitem user "resumes" resumes ;;
           users <- setitem users username user ;;
           Ok (Some users)
         else Ok None) with
  | Raise e => (Raise e, s)
  | Ok (Some users) => (Ok true, save_users users s)
  | Ok None => (Ok false, s)
  end.

Definition load_user_resume (username resume_name : string) (s : state)
  : result value :=
  let users := load_users s in
  found <- is_in username users ;;
  if found then
    user <- getitem users username ;;
    has <- is_in "resumes" user ;;
    if has then
      resumes <- getitem user "resumes" ;;
      saved <- is_in resume_name resumes ;;
      if saved then
        entry <- getitem resumes resume_name ;;
        getitem entry "data"
      else Ok VNone
    else Ok VNone
  else Ok VNone.

Definition get_user_resumes (username : string) (s : state) : result (list string) :=
  let users := load_users s in
  found <- is_in username users ;;
  if found then
    user <- getitem users username ;;
    has <- is_in "resumes" user ;;
    if has then
      resumes <- getitem user "resumes" ;;
      keys resumes
    else Ok []
  else Ok [].

(** The entry of [username] in the users file. *)
Definition account (username : string) (s : state) : option value :=
  match load_users s with
  | VDict users => dict_lookup username users
  | _ => None
  end.

(** The résumés saved in an account entry: none when it has no
    ["resumes"] key. *)
Definition resumes_of (user : list (string * value)) : list (string * value) :=
  match dict_lookup "resumes" user with
  | Some (VDict saved) => saved
  | _ => []
  end.

(** The entry of an account has its résumés in an object, or none yet. *)
Definition resumes_ok (user : list (string * value)) : Prop :=
  dict_lookup "resumes" user = None \/
  exists saved, dict_lookup "resumes" user = Some (VDict saved).

(** A stand-in digest for running the functions on examples. *)
Definition example_digest (password : string) : string := "#" +:+ password.

Definition no_file : state := mkState None true None.

Definition read_only : state := mkState None false None.

(** A users file with the account of ["ann"], who has saved one résumé. *)
Definition ann_entry : list (string * value) :=
  [("password", VStr "#secret"); ("email", VStr "ann@x.org");
   ("created_at", VStr "2024-01-01T00:00:00");
   ("resumes", VDict [("default", VDict [("data", VDict []);
                                         ("last_updated", VStr "2024-01-02T00:00:00")])])].

Definition ann_file : state :=
  mkState (Some (VDict [("ann", VDict ann_entry)])) true None.

(** A users file that holds a JSON array. *)
Definition array_file : state := mkState (Some (VList [VStr "ann"])) true None.

End UserManager.

(** ** SimpleAIGenerator *)

Module SimpleAIGenerator.

Import Builtins.

(** What the request to the completion service comes to: an exception
    raised inside the [try] block, or the text (or [None]) found in
    [response.choices[0].message.content]. *)
Inductive completion : Type :=
| Failed
| Content (content : option string).

(** [not self.api_key], for the value of [os.getenv("OPENAI_API_KEY")] *)
Definition no_key (api_key : option string) : bool :=
  match api_key with
  | Some key => negb (nonempty key)
  | None => true
  end.

(** The text returned without a key and after a failed request. *)
Definition canned_summary (job_title : string) (years_experience : Z) (industry : string)
  : string :=
  "Experienced " +:+ job_title +:+ " with " +:+ str (VInt years_experience)
  +:+ " years in " +:+ industry
  +:+ ". Proven track record of delivering results and contributing to organizational success.".

Definition generate_professional_summary (api_key : option string) (reply : completion)
    (job_title : string) (years_experience : Z) (industry : string) : string :=
  if no_key api_key then canned_summary job_title years_experience industry
  else
    match reply with
    | Failed => canned_summary job_title years_experience industry
    | Content content =>
        if match content with Some text => nonempty text | None => false end
        then match content with Some text => strip text | None => EmptyString end
        else "Experienced " +:+ job_title +:+ " with " +:+ str (VInt years_experience)
             +:+ " years in " +:+ industry +:+ "."
    end.

(** The bullets returned without a key and after a failed request. *)
Definition canned_bullets (job_title company : string) : list string :=
  ["Performed key responsibilities as " +:+ job_title;
   "Contributed to " +:+ company +:+ "'s operational excellence";
   "Collaborated with cross-functional teams";
   "Achieved measurable results and improvements"].

Definition generate_bullet_points (api_key : option string) (reply : completion)
    (job_title company job_description : string) : list string :=
  if no_key api_key then canned_bullets job_title company
  else
    match reply with
    | Failed => canned_bullets job_title company
    | Content content =>
        match content with
        | Some text =>
            if nonempty text then
              let bullets :=
                map (fun line => strip (lstrip "•-*" (strip line)))
                    (List.filter (fun line => nonempty (strip line)) (split newline text)) in
              match bullets with
              | _ :: _ => firstn 6 bullets
              | [] => ["Performed key responsibilities as " +:+ job_title]
              end
            else ["Performed key responsibilities as " +:+ job_title]
        | None => ["Performed key responsibilities as " +:+ job_title]
        end
    end.

End SimpleAIGenerator.

(** ** The session state *)

Module Session.

(** [st.session_state.resume_data] of a new session. *)
Definition new_resume_data : value :=
  VDict [("personal",
           VDict [("full_name", VStr EmptyString); ("email", VStr EmptyString);
                  ("phone", VStr EmptyString); ("location", VStr EmptyString);
                  ("linkedin", VStr EmptyString); ("website", VStr EmptyString)]);
         ("summary", VStr EmptyString);
         ("work_experience", VList []);
         ("education", VList []);
         ("skills", VDict []);
         ("projects", VList []);
         ("certifications", VList [])].

(** [if key not in st.session_state: st.session_state[key] = dflt] *)
Definition set_default (key : string) (dflt : value) (session : list (string * value))
  : list (string * value) :=
  match dict_lookup key session with
  | Some _ => session
  | None => dict_set key dflt session
  end.

Definition initialize_session_state (session : list (string * value))
  : list (string * value) :=
  let session := set_default "resume_data" new_resume_data session in
  let session := set_default "current_page" (VStr "landing") session in
  let session := set_default "current_step" (VInt 0) session in
  let session := set_default "user_authenticated" (VBool false) session in
  let session := set_default "current_user" VNone session in
  set_default "selected_template" (VStr "modern") session.

End Session.

(** ** The form pages

    One run of a page function on the résumé of the session: the value the
    widgets return and the button that was clicked are arguments, the
    result is the résumé after the run ([st.rerun()] ends the run), or the
    exception that the run raises.  What the page shows is left out. *)

Module Forms.

Import Builtins.

(** [resume_data['personal'][key] = st.text_input(...,
    value=resume_data['personal'].get(key, ''))], the widget returning
    [text] *)
Definition set_personal (key text : string) (resume_data : value) : result value :=
  personal <- getitem resume_data "personal" ;;
  _ <- get personal key (VStr EmptyString) ;;
  personal <- getitem resume_data "personal" ;;
  personal <- setitem personal key (VStr text) ;;
  setitem resume_data "personal" personal.

Definition render_personal_info (full_name email phone location linkedin website : string)
    (resume_data : value) : result value :=
  resume_data <- set_personal "full_name" full_name resume_data ;;
  resume_data <- set_personal "email" email resume_data ;;
  resume_data <- set_personal "phone" phone resume_data ;;
  resume_data <- set_personal "location" location resume_data ;;
  resume_data <- set_personal "linkedin" linkedin resume_data ;;
  set_personal "website" website resume_data.

(** [generate]: the button "Generate AI Summary" was clicked; [text]: what
    the text area returns. *)
Definition render_professional_summary (job_title : string) (years_experience : Z)
    (industry : string) (generate : bool)
    (api_key : option string) (reply : SimpleAIGenerator.completion)
    (text : string) (resume_data : value) : result value :=
  if generate && nonempty job_title then
    setitem resume_data "summary"
      (VStr (SimpleAIGenerator.generate_professional_summary
               api_key reply job_title years_experience industry))
  else
    _ <- get resume_data "summary" (VStr EmptyString) ;;
    setitem resume_data "summary" (VStr text).

(** [if key not in resume_data: resume_data[key] = empty] *)
Definition ensure (key : string) (empty : value) (resume_data : value) : result value :=
  has <- is_in key resume_data ;;
  if has then Ok resume_data else setitem resume_data key empty.

(** The button clicked in a run of a page with a list of entries. *)
Inductive click : Type :=
| NoClick
| Add
| Delete (i : nat).

Definition is_add (c : click) : bool :=
  match c with Add => true | _ => false end.

Definition deletes (c : click) (i : nat) : bool :=
  match c with Delete j => Nat.eqb j i | _ => false end.

(** [for i, x in enumerate(l)]: the entry is shown, and when its Delete
    button was clicked, [l.pop(i)] and [st.rerun()].  The list after the
    loop. *)
Fixpoint listing (show : value -> result unit) (c : click) (i : nat) (l : list value)
  : result (list value) :=
  match l with
  | [] => Ok []
  | x :: l' =>
      _ <- show x ;;
      if deletes c i then Ok l'
      else rest <- listing show c (S i) l' ;; Ok (x :: rest)
  end.

(** The loop over [resume_data[key]].  Only a list gets as far as [pop]: the
    items of a dict and of a text are texts, which [show] cannot read. *)
Definition list_entries (key : string) (show : value -> result unit) (c : click)
    (resume_data : value) : result value :=
  entries <- getitem resume_data key ;;
  items <- iter entries ;;
  items <- listing show c 0 items ;;
  match entries with
  | VList _ => setitem resume_data key (VList items)
  | _ => Ok resume_data
  end.

(** The widgets of "Add New Work Experience". *)
Record experience_form : Type := mkExperienceForm {
  job_title : string;
  company : string;
  start_date : string;
  location : string;
  current_job : bool;
  end_date_input : string;
  bullets_text : string
}.

(** [[bullet.strip() for bullet in bullets_text.split('\n') if bullet.strip()]] *)
Definition bullets_of (bullets_text : string) : list string :=
  map strip (List.filter (fun bullet => nonempty (strip bullet)) (split newline bullets_text)).

Definition experience_of (f : experience_form) : value :=
  let end_date := if current_job f then "Present" else end_date_input f in
  VDict [("job_title", VStr (job_title f));
         ("company", VStr (company f));
         ("location", VStr (location f));
         ("start_date", VStr (start_date f));
         ("end_date", VStr end_date);
         ("current", VBool (current_job f));
         ("bullets", VList (map VStr (bullets_of (bullets_text f))))].

(** What the loop of the page reads of an entry. *)
Definition show_experience (exp : value) : result unit :=
  _ <- getitem exp "job_title" ;;
  _ <- getitem exp "company" ;;
  _ <- getitem exp "location" ;;
  _ <- getitem exp "start_date" ;;
  _ <- getitem exp "end_date" ;;
  bullets <- getitem exp "bullets" ;;
  if truthy bullets then
    bullets <- getitem exp "bullets" ;;
    _ <- iter bullets ;;
    Ok tt
  else Ok tt.

Definition render_work_experience (f : experience_form) (c : click) (resume_data : value)
  : result value :=
  resume_data <- ensure "work_experience" (VList []) resume_data ;;
  work_experience <- getitem resume_data "work_experience" ;;
  _ <- len work_experience ;;
  if is_add c && nonempty (job_title f) && nonempty (company f) then
    work_experience <- getitem resume_data "work_experience" ;;
    work_experience <- append work_experience (experience_of f) ;;
    setitem resume_data "work_experience" work_experience
  else list_entries "work_experience" show_experience c resume_data.

(** The widgets of "Add Education". *)
Record education_form : Type := mkEducationForm {
  degree : string;
  school : string;
  graduation_date : string;
  major : string;
  gpa : string;
  honors : string
}.

Definition education_of (f : education_form) : value :=
  VDict [("degree", VStr (degree f));
         ("school", VStr (school f));
         ("major", VStr (major f));
         ("graduation_date", VStr (graduation_date f));
         ("gpa", VStr (gpa f));
         ("honors", VStr (honors f))].

Definition show_education (edu : value) : result unit :=
  _ <- getitem edu "degree" ;;
  _ <- getitem edu "school" ;;
  _ <- getitem edu "major" ;;
  _ <- getitem edu "graduation_date" ;;
  gpa <- getitem edu "gpa" ;;
  _ <- (if truthy gpa then getitem edu "gpa" else Ok VNone) ;;
  honors <- getitem edu "honors" ;;
  _ <- (if truthy honors then getitem edu "honors" else Ok VNone) ;;
  Ok tt.

Definition render_education (f : education_form) (c : click) (resume_data : value)
  : result value :=
  resume_data <- ensure "education" (VList []) resume_data ;;
  education <- getitem resume_data "education" ;;
  _ <- len education ;;
  if is_add c && nonempty (degree f) && nonempty (school f) then
    education <- getitem resume_data "education" ;;
    education <- append education (education_of f) ;;
    setitem resume_data "education" education
  else list_entries "education" show_education c resume_data.

(** The button clicked in a run of the skills page. *)
Inductive skills_click : Type :=
| NoSkillsClick
| AddSkills
| DeleteCategory (category : string).

Definition comma : ascii := ascii_of_nat 44.

(** [[skill.strip() for skill in new_skills.split(',')]] *)
Definition skills_of (new_skills : string) : list string :=
  map strip (split comma new_skills).

(** [for category, skills in resume_data['skills'].items()]: a category
    with skills is shown, and when its button was clicked it is the one to
    delete. *)
Fixpoint skills_listing (c : skills_click) (its : list (string * value))
  : result (option string) :=
  match its with
  | [] => Ok None
  | (category, skills) :: rest =>
      if truthy skills then
        _ <- join ", " skills ;;
        if match c with DeleteCategory k => String.eqb k category | _ => false end
        then Ok (Some category)
        else skills_listing c rest
      else skills_listing c rest
  end.

Definition render_skills (selected_category new_skills : string) (c : skills_click)
    (resume_data : value) : result value :=
  resume_data <- ensure "skills" (VDict []) resume_data ;;
  if match c with AddSkills => true | _ => false end && nonempty new_skills then
    skills <- getitem resume_data "skills" ;;
    has <- is_in selected_category skills ;;
    skills <- (if has then Ok skills else setitem skills selected_category (VList [])) ;;
    category <- getitem skills selected_category ;;
    category <- extend category (map VStr (skills_of new_skills)) ;;
    skills <- setitem skills selected_category category ;;
    setitem resume_data "skills" skills
  else
    skills <- getitem resume_data "skills" ;;
    if truthy skills then
      its <- items skills ;;
      clicked <- skills_listing c its ;;
      match clicked with
      | Some category =>
          skills <- delitem skills category ;;
          setitem resume_data "skills" skills
      | None => Ok resume_data
      end
    else Ok resume_data.

(** One run of the builder page on one of the five form steps. *)
Inductive page_run : Type :=
| PersonalInformation (full_name email phone location linkedin website : string)
| ProfessionalSummary (job_title : string) (years_experience : Z) (industry : string)
    (generate : bool) (api_key : option string) (reply : SimpleAIGenerator.completion)
    (text : string)
| WorkExperience (f : experience_form) (c : click)
| Education (f : education_form) (c : click)
| Skills (selected_category new_skills : string) (c : skills_click).

Definition run (p : page_run) (resume_data : value) : result value :=
  match p with
  | PersonalInformation full_name email phone location linkedin website =>
      render_personal_info full_name email phone location linkedin website resume_data
  | ProfessionalSummary job_title years_experience industry generate api_key reply text =>
      render_professional_summary job_title years_experience industry generate
        api_key reply text resume_data
  | WorkExperience f c => render_work_experience f c resume_data
  | Education f c => render_education f c resume_data
  | Skills selected_category new_skills c =>
      render_skills selected_category new_skills c resume_data
  end.

Fixpoint run_all (runs : list page_run) (resume_data : value) : result value :=
  match runs with
  | [] => Ok resume_data
  | p :: runs' => resume_data <- run p resume_data ;; run_all runs' resume_data
  end.

(** The field is there and satisfies [ok]. *)
Definition required (ok : value -> bool) (key : string) (d : list (string * value)) : bool :=
  match dict_lookup key d with
  | Some v => ok v
  | None => false
  end.

(** An entry with all the keys that the work-experience page reads. *)
Definition full_experience (v : value) : bool :=
  match v with
  | VDict d =>
      forallb (fun key => required is_str key d)
        ["job_title"; "company"; "location"; "start_date"; "end_date"]
      && required is_str_list "bullets" d
  | _ => false
  end.

(** An entry with all the keys that the education page reads. *)
Definition full_education (v : value) : bool :=
  match v with
  | VDict d =>
      forallb (fun key => required is_str key d)
        ["degree"; "school"; "major"; "graduation_date"; "gpa"; "honors"]
  | _ => false
  end.

(** The shape of the résumés that the form pages make. *)
Definition form_built (resume_data : value) : bool :=
  match resume_data with
  | VDict d =>
      required conforms_personal "personal" d
      && optional is_str "summary" d
      && optional (is_list_of full_experience) "work_experience" d
      && optional (is_list_of full_education) "education" d
      && optional conforms_skills "skills" d
  | _ => false
  end.

(** Example inputs. *)
Definition engineer_form : experience_form :=
  mkExperienceForm "Engineer" "Acme" "01/2020" "Remote" false EmptyString
    ("Shipped X" +:+ String newline "  ").

Definition bsc_form : education_form :=
  mkEducationForm "BSc" "MIT" "06/2019" "Physics" EmptyString EmptyString.

(** A conforming résumé whose work-experience entry has no ["location"]. *)
Definition no_location : value :=
  VDict [("personal", VDict []);
         ("work_experience",
           VList [VDict [("job_title", VStr "Engineer"); ("company", VStr "Acme");
                         ("start_date", VStr "01/2020"); ("end_date", VStr "Present");
                         ("bullets", VList [])]])].

End Forms.

(** ** The live preview *)

Module Preview.

Import Builtins.

(** The calls that show something. *)
Inductive widget : Type :=
| Markdown (text : string)
| Caption (text : string)
| Write (v : value).

(** A part of the function: what it has shown, and how it ended. *)
Definition shown (A : Type) : Type := (list widget * result A)%type.

Definition lift {A : Type} (r : result A) : shown A := ([], r).

Definition show (w : widget) : shown unit := ([w], Ok tt).

Definition then_ {A B : Type} (m : shown A) (f : A -> shown B) : shown B :=
  match m with
  | (ws, Ok a) => let (ws', r) := f a in (ws ++ ws', r)
  | (ws, Raise e) => (ws, Raise e)
  end.

Notation "x <<- m ;; k" := (then_ m (fun x => k))
  (at level 100, m at next level, right associativity).

Fixpoint show_each {A : Type} (body : A -> shown unit) (l : list A) : shown unit :=
  match l with
  | [] => lift (Ok tt)
  | x :: l' => _ <<- body x ;; show_each body l'
  end.

Definition preview_header (personal : value) : shown unit :=
  full_name <<- lift (get personal "full_name" VNone) ;;
  if truthy full_name then
    name <<- lift (getitem personal "full_name") ;;
    _ <<- show (Markdown ("**" +:+ str name +:+ "**")) ;;
    contact <<- lift (contact_info personal) ;;
    match contact with
    | [] => lift (Ok tt)
    | _ :: _ =>
        joined <<- lift (join_list " | " contact) ;;
        show (Caption joined)
    end
  else lift (Ok tt).

Definition preview_summary (resume_data : value) : shown unit :=
  summary <<- lift (get resume_data "summary" VNone) ;;
  if truthy summary then
    _ <<- show (Markdown "**Professional Summary**") ;;
    summary <<- lift (getitem resume_data "summary") ;;
    show (Write summary)
  else lift (Ok tt).

Definition preview_experience (exp : value) : shown unit :=
  job_title <<- lift (get exp "job_title" (VStr EmptyString)) ;;
  company <<- lift (get exp "company" (VStr EmptyString)) ;;
  show (Write (VStr ("• " +:+ str job_title +:+ " at " +:+ str company))).

Definition preview_work_experience (resume_data : value) : shown unit :=
  work_exp <<- lift (get resume_data "work_experience" (VList [])) ;;
  if truthy work_exp then
    _ <<- show (Markdown "**Experience**") ;;
    first <<- lift (slice_to 2 work_exp) ;;
    exps <<- lift (iter first) ;;
    show_each preview_experience exps
  else lift (Ok tt).

Definition preview_category (item : string * value) : shown unit :=
  let (category, skill_list) := item in
  if truthy skill_list then
    first <<- lift (slice_to 3 skill_list) ;;
    joined <<- lift (join ", " first) ;;
    show (Write (VStr ("**" +:+ category +:+ ":** " +:+ joined +:+ "...")))
  else lift (Ok tt).

Definition preview_skills (resume_data : value) : shown unit :=
  skills <<- lift (get resume_data "skills" (VDict [])) ;;
  if truthy skills then
    _ <<- show (Markdown "**Skills**") ;;
    its <<- lift (items skills) ;;
    show_each preview_category (firstn 2 its)
  else lift (Ok tt).

(** The body of the [try] block. *)
Definition preview_body (resume_data : value) : shown unit :=
  _ <<- lift (export_to_html resume_data) ;;
  personal <<- lift (get resume_data "personal" (VDict [])) ;;
  _ <<- preview_header personal ;;
  _ <<- preview_summary resume_data ;;
  _ <<- preview_work_experience resume_data ;;
  preview_skills resume_data.

Definition placeholder : widget :=
  Write (VStr "Preview will appear as you add information").

(** What [render_preview] shows. *)
Definition render_preview (resume_data : value) : list widget :=
  match preview_body resume_data with
  | (ws, Ok _) => ws
  | (ws, Raise _) => ws ++ [placeholder]
  end.

(** The number of calls of a part that is run inside the [try] block, the
    call of the handler counted for a part that raises. *)
Definition calls {A : Type} (m : shown A) : nat :=
  (length (fst m) + (if is_ok (snd m) then 0 else 1))%nat.

End Preview.

(** ** The progress shown in the sidebar ([main]) *)

Module Progress.

Import Builtins.

Definition personal_complete (resume_data : value) : result bool :=
  personal <- getitem resume_data "personal" ;;
  full_name <- get personal "full_name" VNone ;;
  Ok (truthy full_name).

Definition summary_complete (resume_data : value) : result bool :=
  summary <- get resume_data "summary" VNone ;;
  Ok (truthy summary).

Definition experience_complete (resume_data : value) : result bool :=
  work_experience <- get resume_data "work_experience" (VList []) ;;
  n <- len work_experience ;;
  Ok (Nat.ltb 0 n).

Definition education_complete (resume_data : value) : result bool :=
  education <- get resume_data "education" (VList []) ;;
  n <- len education ;;
  Ok (Nat.ltb 0 n).

Definition skills_complete (resume_data : value) : result bool :=
  skills <- get resume_data "skills" (VDict []) ;;
  n <- len skills ;;
  Ok (Nat.ltb 0 n).

(** [sum([...])] of the five booleans *)
Definition completed (resume_data : value) : result Z :=
  personal_complete <- personal_complete resume_data ;;
  summary_complete <- summary_complete resume_data ;;
  experience_complete <- experience_complete resume_data ;;
  education_complete <- education_complete resume_data ;;
  skills_complete <- skills_complete resume_data ;;
  Ok (Z.b2z personal_complete + Z.b2z summary_complete + Z.b2z experience_complete
      + Z.b2z education_complete + Z.b2z skills_complete).

(** [float(z)] for a small integer *)
Definition float_of (z : Z) : PrimFloat.float :=
  PrimFloat.of_uint63 (Uint63.of_Z z).

(** [completed / 5], a binary64 number *)
Definition progress (completed : Z) : PrimFloat.float :=
  PrimFloat.div (float_of completed) (float_of 5).

(** [int(x)]: the integer part; an infinity and a NaN have none. *)
Definition int_of (x : PrimFloat.float) : option Z :=
  match FloatOps.Prim2SF x with
  | SpecFloat.S754_zero _ => Some 0
  | SpecFloat.S754_finite negative m e =>
      let magnitude := if Z.leb 0 e then Z.pos m * 2 ^ e else Z.shiftr (Z.pos m) (- e) in
      Some (if negative then - magnitude else magnitude)
  | _ => None
  end.

(** [int(progress * 100)] *)
Definition percent (completed : Z) : option Z :=
  int_of (PrimFloat.mul (progress completed) (float_of 100)).

(** [f"{int(progress * 100)}% Complete"] *)
Definition caption (completed : Z) : option string :=
  match percent completed with
  | Some p => Some (str (VInt p) +:+ "% Complete")
  | None => None
  end.

(** The sections with a block in the PDF story. *)
Definition rendered (resume_data : value) : list section :=
  List.filter (fun s => present_blocks (Pdf.block s resume_data))
    [PERSONAL; SUMMARY; EXPERIENCE; EDUCATION; SKILLS].

End Progress.

(** ** The account sidebar

    The branch of [render_authentication] for an authenticated session,
    [current_user] being the name kept in the session.  One run: the
    résumé of the session afterwards, whether the session was logged out,
    and the notices shown. *)

Module Sidebar.

Import Builtins UserManager.

Inductive notice : Type :=
| Success (text : string)
| Error (text : string).

Inductive sidebar_click : Type :=
| NoSidebarClick
| LoadSelected
| SaveCurrent
| Logout.

Record outcome : Type := mkOutcome {
  resume_data : value;
  logged_out : bool;
  notices : list notice
}.

Definition is_load (c : sidebar_click) : bool :=
  match c with LoadSelected => true | _ => false end.

Definition is_save (c : sidebar_click) : bool :=
  match c with SaveCurrent => true | _ => false end.

Definition is_logout (c : sidebar_click) : bool :=
  match c with Logout => true | _ => false end.

(** The statements under "Save current resume", and the Logout button after
    them. *)
Definition save_and_logout (current_user resume_name : string) (c : sidebar_click)
    (now : string) (data : value) (shown : list notice) (s : state)
  : result outcome * state :=
  if is_save c && nonempty resume_name then
    match save_user_resume current_user data resume_name now s with
    | (Raise e, s') => (Raise e, s')
    | (Ok saved, s') =>
        (Ok (mkOutcome data false
               (shown ++ [if saved
                          then Success ("Resume saved as '" +:+ resume_name +:+ "'!")
                          else Error "Failed to save resume"])), s')
    end
  else (Ok (mkOutcome data (is_logout c) shown), s).

Definition account_sidebar (current_user selected_resume resume_name : string)
    (c : sidebar_click) (now : string) (data : value) (s : state)
  : result outcome * state :=
  let welcome := [Success ("Welcome, " +:+ current_user +:+ "!")] in
  match get_user_resumes current_user s with
  | Raise e => (Raise e, s)
  | Ok [] => (Ok (mkOutcome data (is_logout c) welcome), s)
  | Ok (_ :: _) =>
      if nonempty selected_resume && is_load c then
        match load_user_resume current_user selected_resume s with
        | Raise e => (Raise e, s)
        | Ok loaded_data =>
            if truthy loaded_data then
              (Ok (mkOutcome loaded_data false
                     (welcome ++ [Success ("Resume '" +:+ selected_resume +:+ "' loaded!")])),
               s)
            else save_and_logout current_user resume_name c now data welcome s
        end
      else save_and_logout current_user resume_name c now data welcome s
  end.

End Sidebar.

(** * Properties *)

(** ** Text *)

Lemma append_assoc (a b c : string) : (a +:+ b) +:+ c = a +:+ b +:+ c.
Proof. induction a as [|x a IH]; [reflexivity|]. change (String x ((a +:+ b) +:+ c) = String x (a +:+ b +:+ c)). now rewrite IH. Qed.

Lemma append_empty_r (a : string) : a +:+ EmptyString = a.
Proof. induction a as [|x a IH]; [reflexivity|]. change (String x (a +:+ EmptyString) = String x a). now rewrite IH. Qed.

Lemma is_prefix_append (p r : string) : is_prefix p (p +:+ r) = true.
Proof.
  induction p as [|x p IH]; [reflexivity|].
  change (Ascii.eqb x x && is_prefix p (p +:+ r) = true).
  now rewrite Ascii.eqb_refl, IH.
Qed.

Lemma is_prefix_split (p s : string) :
  is_prefix p s = true -> exists r, s = p +:+ r.
Proof.
  revert s; induction p as [|x p IH]; intros s H.
  - now exists s.
  - destruct s as [|y s]; [discriminate|].
    simpl in H. apply andb_true_iff in H as [Hxy Hp].
    apply Ascii.eqb_eq in Hxy as ->.
    destruct (IH s Hp) as [r ->]. now exists r.
Qed.

Lemma contains_infix (needle text : string) :
  contains needle text = true <-> infix needle text.
Proof.
  split.
  - induction text as [|y text IH]; simpl; intros H.
    + apply orb_true_iff in H as [H|H]; [|discriminate].
      destruct (is_prefix_split _ _ H) as [r Hr]. now exists EmptyString, r.
    + apply orb_true_iff in H as [H|H].
      * destruct (is_prefix_split _ _ H) as [r Hr]. now exists EmptyString, r.
      * destruct (IH H) as (b & a & ->). now exists (String y b), a.
  - intros (b & a & ->). induction b as [|y b IH].
    + change (contains needle (needle +:+ a) = true).
      destruct (needle +:+ a) eqn:E; simpl; rewrite <- E, is_prefix_append; reflexivity.
    + change (contains needle (String y (b +:+ needle +:+ a)) = true).
      simpl. rewrite IH. apply orb_true_r.
Qed.

Lemma infix_here (needle after : string) : infix needle (needle +:+ after).
Proof. now exists EmptyString, after. Qed.

Lemma infix_refl (needle : string) : infix needle needle.
Proof. exists EmptyString, EmptyString. now rewrite append_empty_r. Qed.

Lemma infix_append_r (needle a b : string) : infix needle b -> infix needle (a +:+ b).
Proof. intros (x & y & ->). exists (a +:+ x), y. now rewrite append_assoc. Qed.

Lemma infix_append_l (needle a b : string) : infix needle a -> infix needle (a +:+ b).
Proof. intros (x & y & ->). exists x, (y +:+ b). now rewrite !append_assoc. Qed.

Lemma infix_trans (a b c : string) : infix a b -> infix b c -> infix a c.
Proof.
  intros (x & y & ->) (u & v & ->). exists (u +:+ x), (y +:+ v).
  now rewrite !append_assoc.
Qed.

(** ** The exception monad and the loops *)

Lemma bind_ok_r {A : Type} (m : result A) : (x <- m ;; Ok x) = m.
Proof. now destruct m. Qed.

Lemma bind_ok_inv {A B : Type} (m : result A) (f : A -> result B) (b : B) :
  (x <- m ;; f x) = Ok b -> exists a, m = Ok a /\ f a = Ok b.
Proof. destruct m as [a|e]; simpl; [eauto|discriminate]. Qed.

Lemma for_each_skip {A B : Type} (body : A -> result (list B)) (before after : list A) (x : A) :
  body x = Ok [] ->
  for_each body (before ++ x :: after) = for_each body (before ++ after).
Proof.
  intros Hx. induction before as [|y before IH]; simpl.
  - rewrite Hx. simpl. apply bind_ok_r.
  - now rewrite IH.
Qed.

Lemma for_each_text_skip {A : Type} (body : A -> result string) (before after : list A) (x : A) :
  body x = Ok EmptyString ->
  for_each_text body (before ++ x :: after) = for_each_text body (before ++ after).
Proof.
  intros Hx. induction before as [|y before IH]; simpl.
  - rewrite Hx. simpl. apply (bind_ok_r (for_each_text body after)).
  - now rewrite IH.
Qed.



Lemma get_VDict (d : list (string * value)) (k : string) (dflt : value) :
  get (VDict d) k dflt = Ok (dict_get d k dflt).
Proof. reflexivity. Qed.

Lemma get_dict (d : list (string * value)) (k : string) (dflt v : value) :
  dict_lookup k d = Some v -> get (VDict d) k dflt = Ok v.
Proof. intros H. unfold get, dict_get. now rewrite H. Qed.

Lemma get_dict_absent (d : list (string * value)) (k : string) (dflt : value) :
  dict_lookup k d = None -> get (VDict d) k dflt = Ok dflt.
Proof. intros H. unfold get, dict_get. now rewrite H. Qed.

Lemma for_each_In {A B : Type} (body : A -> result (list B)) (l : list A)
    (out : list B) (x : A) :
  for_each body l = Ok out -> In x l ->
  exists ys, body x = Ok ys /\ forall y, In y ys -> In y out.
Proof.
  revert out; induction l as [|a l IH]; intros out H Hx; [destruct Hx|].
  simpl in H. apply bind_ok_inv in H as (ys & Hys & H).
  apply bind_ok_inv in H as (zs & Hzs & H). injection H as <-.
  destruct Hx as [->|Hx].
  - exists ys. split; [assumption|]. intros y Hy. apply in_or_app. now left.
  - destruct (IH zs Hzs Hx) as (ys' & Hb & Hin). exists ys'. split; [assumption|].
    intros y Hy. apply in_or_app. right. now apply Hin.
Qed.

Lemma for_each_text_In {A : Type} (body : A -> result string) (l : list A)
    (out : string) (x : A) :
  for_each_text body l = Ok out -> In x l ->
  exists t, body x = Ok t /\ infix t out.
Proof.
  revert out; induction l as [|a l IH]; intros out H Hx; [destruct Hx|].
  simpl in H. apply bind_ok_inv in H as (t & Ht & H).
  apply bind_ok_inv in H as (r & Hr & H). injection H as <-.
  destruct Hx as [->|Hx].
  - exists t. split; [assumption|]. apply infix_here.
  - destruct (IH r Hr Hx) as (t' & Hb & Hin). exists t'. split; [assumption|].
    now apply infix_append_r.
Qed.

Lemma try_wrap_ok {A : Type} (prefix : string) (body : result A) (a : A) :
  try_wrap prefix body = Ok a -> body = Ok a.
Proof. destruct body; simpl; congruence. Qed.

(** An export that returns is made of the five blocks, in display order. *)
Lemma export_to_pdf_blocks (d : value) (story : list Pdf.Flowable) :
  export_to_pdf d = Ok story ->
  exists h s w e k,
    Pdf.block PERSONAL d = Ok h /\ Pdf.block SUMMARY d = Ok s /\
    Pdf.block EXPERIENCE d = Ok w /\ Pdf.block EDUCATION d = Ok e /\
    Pdf.block SKILLS d = Ok k /\ story = h ++ s ++ w ++ e ++ k.
Proof.
  intros H. apply try_wrap_ok in H. unfold Pdf.story in H.
  apply bind_ok_inv in H as (personal & Hp & H).
  apply bind_ok_inv in H as (h & Hh & H).
  apply bind_ok_inv in H as (s & Hs & H).
  apply bind_ok_inv in H as (w & Hw & H).
  apply bind_ok_inv in H as (e & He & H).
  apply bind_ok_inv in H as (k & Hk & H).
  injection H as <-. exists h, s, w, e, k. simpl. rewrite Hp. simpl. auto 10.
Qed.

Lemma export_to_docx_blocks (d : value) (doc : list Docx.DocxParagraph) :
  export_to_docx d = Ok doc ->
  exists h s w e k,
    Docx.block PERSONAL d = Ok h /\ Docx.block SUMMARY d = Ok s /\
    Docx.block EXPERIENCE d = Ok w /\ Docx.block EDUCATION d = Ok e /\
    Docx.block SKILLS d = Ok k /\ doc = h ++ s ++ w ++ e ++ k.
Proof.
  intros H. apply try_wrap_ok in H. unfold Docx.document in H.
  apply bind_ok_inv in H as (personal & Hp & H).
  apply bind_ok_inv in H as (h & Hh & H).
  apply bind_ok_inv in H as (s & Hs & H).
  apply bind_ok_inv in H as (w & Hw & H).
  apply bind_ok_inv in H as (e & He & H).
  apply bind_ok_inv in H as (k & Hk & H).
  injection H as <-. exists h, s, w, e, k. simpl. rewrite Hp. simpl. auto 10.
Qed.

Lemma export_to_html_blocks (d : value) (html : string) :
  export_to_html d = Ok html ->
  exists h s w e k,
    Html.block PERSONAL d = Ok h /\ Html.block SUMMARY d = Ok s /\
    Html.block EXPERIENCE d = Ok w /\ Html.block EDUCATION d = Ok e /\
    Html.block SKILLS d = Ok k /\
    html = h +:+ s +:+ w +:+ e +:+ k +:+ "</body></html>".
Proof.
  intros H. unfold export_to_html in H.
  apply bind_ok_inv in H as (personal & Hp & H).
  apply bind_ok_inv in H as (h & Hh & H).
  apply bind_ok_inv in H as (s & Hs & H).
  apply bind_ok_inv in H as (w & Hw & H).
  apply bind_ok_inv in H as (e & He & H).
  apply bind_ok_inv in H as (k & Hk & H).
  injection H as <-. exists h, s, w, e, k. simpl. rewrite Hp. simpl. auto 10.
Qed.

(** What the calls into the libraries add to the statements of the two
    exporters. *)
Lemma export_to_pdf_library (reportlab : list Pdf.Flowable -> bool) (d : value)
    (story : list Pdf.Flowable) :
  Pdf.story d = Ok story ->
  SimpleExportManager.export_to_pdf reportlab d =
    if reportlab story then SimpleExportManager.Returned story
    else SimpleExportManager.Failed "PDF export failed: ".
Proof. intros H. unfold SimpleExportManager.export_to_pdf. now rewrite H. Qed.

Lemma export_to_docx_library (python_docx : list Docx.DocxParagraph -> bool) (d : value)
    (doc : list Docx.DocxParagraph) :
  Docx.document d = Ok doc ->
  SimpleExportManager.export_to_docx python_docx d =
    if python_docx doc then SimpleExportManager.Returned doc
    else SimpleExportManager.Failed "DOCX export failed: ".
Proof. intros H. unfold SimpleExportManager.export_to_docx. now rewrite H. Qed.



(** ** Skill categories *)

Lemma dict_lookup_set_eq (k : string) (v : value) (d : list (string * value)) :
  dict_lookup k (dict_set k v d) = Some v.
Proof.
  induction d as [|[k' x] d IH]; simpl.
  - now rewrite String.eqb_refl.
  - destruct (String.eqb k k') eqn:E; simpl; rewrite E; [reflexivity|assumption].
Qed.

Lemma dict_lookup_set_ne (k k' : string) (v : value) (d : list (string * value)) :
  String.eqb k' k = false ->
  dict_lookup k' (dict_set k v d) = dict_lookup k' d.
Proof.
  intros Hne. induction d as [|[k1 x] d IH]; simpl.
  - now rewrite Hne.
  - destruct (String.eqb k k1) eqn:E; simpl.
    + apply String.eqb_eq in E. subst k1. now rewrite Hne.
    + now rewrite IH.
Qed.

(** The other four blocks do not read the skills. *)
Lemma blocks_ignore_skills (fields : list (string * value)) (skills : value) (s : section) :
  s <> SKILLS ->
  Pdf.block s (VDict (dict_set "skills" skills fields)) = Pdf.block s (VDict fields)
  /\ Docx.block s (VDict (dict_set "skills" skills fields)) = Docx.block s (VDict fields)
  /\ Html.block s (VDict (dict_set "skills" skills fields)) = Html.block s (VDict fields).
Proof.
  intros Hs.
  destruct s; [| | | |contradiction];
    cbn [Pdf.block Docx.block Html.block];
    unfold Pdf.summary, Docx.summary, Html.summary,
      Pdf.work_experience, Docx.work_experience, Html.work_experience,
      Pdf.education, Docx.education, Html.education;
    rewrite !get_VDict; unfold getitem, dict_get;
    rewrite !dict_lookup_set_ne by reflexivity; repeat split.
Qed.

(** C7 — a category of the skills mapping whose skill list is empty leaves
    no trace: in each of the three formats the SKILLS block of the document
    is the heading followed by the lines of the other categories, exactly
    as the loop over the mapping without that category produces them; and
    when there is another category, each exporter returns for the document
    what it returns for the document without the empty category. *)
Theorem empty_skill_category_suppressed
    (fields before after : list (string * value)) (category : string) :
  dict_lookup "skills" fields = Some (VDict (before ++ (category, VList []) :: after)) ->
  (Pdf.skills (VDict fields) =
     (lines <- for_each Pdf.skill_category (before ++ after) ;;
      Ok (Pdf.Paragraph (VStr "SKILLS") Pdf.heading_style :: lines))
   /\ Docx.skills (VDict fields) =
     (paras <- for_each Docx.skill_category (before ++ after) ;;
      Ok (Docx._add_section_heading "SKILLS" :: paras))
   /\ Html.skills (VDict fields) =
     (lines <- for_each_text Html.skill_category (before ++ after) ;;
      Ok (Html.section_open "Skills" +:+ lines +:+ "</div>")))
  /\ (before ++ after <> [] ->
      let without := VDict (dict_set "skills" (VDict (before ++ after)) fields) in
      export_to_pdf (VDict fields) = export_to_pdf without
      /\ export_to_docx (VDict fields) = export_to_docx without
      /\ export_to_html (VDict fields) = export_to_html without).
Proof.
  intros Hskills.
  assert (Hblock :
    Pdf.skills (VDict fields) =
      (lines <- for_each Pdf.skill_category (before ++ after) ;;
       Ok (Pdf.Paragraph (VStr "SKILLS") Pdf.heading_style :: lines))
    /\ Docx.skills (VDict fields) =
      (paras <- for_each Docx.skill_category (before ++ after) ;;
       Ok (Docx._add_section_heading "SKILLS" :: paras))
    /\ Html.skills (VDict fields) =
      (lines <- for_each_text Html.skill_category (before ++ after) ;;
       Ok (Html.section_open "Skills" +:+ lines +:+ "</div>"))).
  { unfold Pdf.skills, Docx.skills, Html.skills.
    rewrite (get_dict _ _ _ _ Hskills). simpl bind.
    unfold Pdf.skills_block, Docx.skills_block, Html.skills_block.
    assert (Ht : truthy (VDict (before ++ (category, VList []) :: after)) = true)
      by (destruct before; reflexivity).
    rewrite Ht. simpl items. simpl bind.
    rewrite for_each_skip by reflexivity.
    rewrite for_each_skip by reflexivity.
    rewrite for_each_text_skip by reflexivity.
    repeat split. }
  split; [exact Hblock|].
  intros Hne without. destruct Hblock as (Hpdf & Hdocx & Hhtml).
  assert (Hwithout :
    Pdf.skills without = Pdf.skills (VDict fields)
    /\ Docx.skills without = Docx.skills (VDict fields)
    /\ Html.skills without = Html.skills (VDict fields)).
  { rewrite Hpdf, Hdocx, Hhtml. unfold without, Pdf.skills, Docx.skills, Html.skills.
    rewrite (get_dict _ _ _ _ (dict_lookup_set_eq "skills" _ fields)). simpl bind.
    unfold Pdf.skills_block, Docx.skills_block, Html.skills_block.
    assert (Ht : truthy (VDict (before ++ after)) = true)
      by (destruct (before ++ after); [contradiction|reflexivity]).
    rewrite Ht. repeat split. }
  destruct Hwithout as (Hkp & Hkd & Hkh).
  assert (Hp : Pdf.block PERSONAL without = Pdf.block PERSONAL (VDict fields)
               /\ Docx.block PERSONAL without = Docx.block PERSONAL (VDict fields)
               /\ Html.block PERSONAL without = Html.block PERSONAL (VDict fields))
    by (apply blocks_ignore_skills; discriminate).
  assert (Hget : get without "personal" (VDict []) = get (VDict fields) "personal" (VDict [])).
  { unfold without. rewrite !get_VDict. unfold dict_get.
    now rewrite dict_lookup_set_ne by reflexivity. }
  destruct (blocks_ignore_skills fields (VDict (before ++ after)) SUMMARY)
    as (Hs1 & Hs2 & Hs3); [discriminate|].
  destruct (blocks_ignore_skills fields (VDict (before ++ after)) EXPERIENCE)
    as (Hw1 & Hw2 & Hw3); [discriminate|].
  destruct (blocks_ignore_skills fields (VDict (before ++ after)) EDUCATION)
    as (He1 & He2 & He3); [discriminate|].
  cbn [Pdf.block Docx.block Html.block] in *. fold without in Hs1, Hs2, Hs3,
    Hw1, Hw2, Hw3, He1, He2, He3.
  unfold export_to_pdf, export_to_docx, export_to_html, Pdf.story, Docx.document.
  rewrite Hget, Hs1, Hs2, Hs3, Hw1, Hw2, Hw3, He1, He2, He3, Hkp, Hkd, Hkh.
  repeat split.
Qed.

Lemma empty_skill_category_suppressed_witness :
  dict_lookup "skills" tools_fields
    = Some (VDict ([("Languages", VList [VStr "Python"; VStr "Go"])] ++ ("Tools", VList []) :: []))
  /\ Pdf.skills (VDict tools_fields) =
       Ok [Pdf.Paragraph (VStr "SKILLS") Pdf.heading_style;
           Pdf.Paragraph (VStr "<b>Languages:</b> Python, Go") Pdf.body_style]
  /\ export_to_html (VDict tools_fields) =
       export_to_html (VDict [("skills", VDict [("Languages", VList [VStr "Python"; VStr "Go"])])]).
Proof.
  pose proof (empty_skill_category_suppressed tools_fields
                [("Languages", VList [VStr "Python"; VStr "Go"])] [] "Tools" eq_refl)
    as ((Hpdf & _ & _) & Hsame).
  split; [reflexivity|]. split; [exact Hpdf|].
  assert (Hne : [("Languages", VList [VStr "Python"; VStr "Go"])] ++ []
                <> ([] : list (string * value))) by discriminate.
  exact (proj2 (proj2 (Hsame Hne))).
Defined.



(** ** Work-experience entries *)

Lemma getitem_after_get (d : list (string * value)) (k : string) :
  truthy (dict_get d k VNone) = true ->
  getitem (VDict d) k = Ok (dict_get d k VNone).
Proof.
  unfold getitem, dict_get. destruct (dict_lookup k d); [reflexivity|discriminate].
Qed.

Lemma date_range_dict (fields : list (string * value)) :
  date_range (VDict fields) =
    Ok (str (dict_get fields "start_date" (VStr EmptyString)) +:+ " to " +:+
        str (dict_get fields "end_date" (VStr "Present"))).
Proof. reflexivity. Qed.

Lemma pdf_job_header_dict (fields : list (string * value)) :
  Pdf.job_header (VDict fields) =
    Ok ("<b>" +:+ str (dict_get fields "job_title" (VStr EmptyString)) +:+ "</b> - " +:+
        str (dict_get fields "company" (VStr EmptyString)) +:+
        (if truthy (dict_get fields "location" VNone)
         then " (" +:+ str (dict_get fields "location" VNone) +:+ ")"
         else EmptyString)).
Proof.
  unfold Pdf.job_header. rewrite !get_VDict. simpl bind.
  destruct (truthy (dict_get fields "location" VNone)) eqn:Hloc.
  - rewrite (getitem_after_get _ _ Hloc). simpl bind.
    now rewrite ?append_assoc.
  - now rewrite ?append_assoc, ?append_empty_r.
Qed.

Lemma pdf_experience_dict (fields : list (string * value)) :
  Pdf.experience (VDict fields) =
    (header <- Pdf.job_header (VDict fields) ;;
     bullets <- iter (dict_get fields "bullets" (VList [])) ;;
     Ok ([Pdf.Paragraph (VStr header) Pdf.body_style;
          Pdf.Paragraph
            (VStr ("<i>" +:+
                   (str (dict_get fields "start_date" (VStr EmptyString)) +:+ " to " +:+
                    str (dict_get fields "end_date" (VStr "Present"))) +:+ "</i>"))
            Pdf.body_style]
         ++ map (fun bullet => Pdf.Paragraph (VStr ("• " +:+ str bullet)) Pdf.body_style)
              bullets
         ++ [Pdf.Spacer 1 8])).
Proof. reflexivity. Qed.

Lemma docx_experience_dict (fields : list (string * value)) :
  Docx.experience (VDict fields) =
    (bullets <- iter (dict_get fields "bullets" (VList [])) ;;
     Ok ([Docx.mkParagraph
            [Docx.bold_run
               (VStr (str (dict_get fields "job_title" (VStr EmptyString)) +:+ " - " +:+
                      str (dict_get fields "company" (VStr EmptyString))))] None None;
          Docx.add_paragraph
            (VStr (str (dict_get fields "start_date" (VStr EmptyString)) +:+ " to " +:+
                   str (dict_get fields "end_date" (VStr "Present")))) None]
         ++ map (fun bullet => Docx.add_paragraph bullet (Some "List Bullet")) bullets
         ++ [Docx.empty_paragraph])).
Proof. reflexivity. Qed.

Lemma html_experience_dict (fields : list (string * value)) :
  Html.experience (VDict fields) =
    (bullets <- iter (dict_get fields "bullets" (VList [])) ;;
     items <- for_each_text
                (fun bullet => Ok (Html.bullet_open +:+ str bullet +:+ "</div>")) bullets ;;
     Ok ((Html.job_open +:+ str (dict_get fields "job_title" (VStr EmptyString)) +:+
          Html.company_open +:+ str (dict_get fields "company" (VStr EmptyString)) +:+
          Html.dates_open +:+
          (str (dict_get fields "start_date" (VStr EmptyString)) +:+ " to " +:+
           str (dict_get fields "end_date" (VStr "Present"))) +:+
          " | " +:+ str (dict_get fields "location" (VStr EmptyString)) +:+
          Html.dates_close) +:+ items +:+ "</div>")).
Proof. reflexivity. Qed.

Lemma truthy_list_In (x : value) (l : list value) : In x l -> truthy (VList l) = true.
Proof. destruct l; [intros []|reflexivity]. Qed.

(** The blocks of an entry of the work-experience list are in the output. *)
Lemma pdf_entry_in_story (d : value) (exps : list value) (exp : value)
    (story : list Pdf.Flowable) :
  get d "work_experience" (VList []) = Ok (VList exps) ->
  In exp exps ->
  export_to_pdf d = Ok story ->
  exists blocks, Pdf.experience exp = Ok blocks /\ forall b, In b blocks -> In b story.
Proof.
  intros Hget Hin Hexp.
  apply export_to_pdf_blocks in Hexp as (h & s & w & e & k & _ & _ & Hw & _ & _ & ->).
  cbn [Pdf.block] in Hw. unfold Pdf.work_experience in Hw.
  rewrite Hget in Hw. cbn [bind] in Hw.
  rewrite (truthy_list_In _ _ Hin) in Hw. cbn [iter bind] in Hw.
  apply bind_ok_inv in Hw as (blocks & Hblocks & Hw). injection Hw as <-.
  destruct (for_each_In _ _ _ _ Hblocks Hin) as (ys & Hys & Hsub).
  exists ys. split; [assumption|]. intros b Hb.
  apply in_or_app; right. apply in_or_app; right. apply in_or_app; left.
  right. now apply Hsub.
Qed.

Lemma docx_entry_in_document (d : value) (exps : list value) (exp : value)
    (doc : list Docx.DocxParagraph) :
  get d "work_experience" (VList []) = Ok (VList exps) ->
  In exp exps ->
  export_to_docx d = Ok doc ->
  exists paras, Docx.experience exp = Ok paras /\ forall p, In p paras -> In p doc.
Proof.
  intros Hget Hin Hexp.
  apply export_to_docx_blocks in Hexp as (h & s & w & e & k & _ & _ & Hw & _ & _ & ->).
  cbn [Docx.block] in Hw. unfold Docx.work_experience in Hw.
  rewrite Hget in Hw. cbn [bind] in Hw.
  rewrite (truthy_list_In _ _ Hin) in Hw. cbn [iter bind] in Hw.
  apply bind_ok_inv in Hw as (paras & Hparas & Hw). injection Hw as <-.
  destruct (for_each_In _ _ _ _ Hparas Hin) as (ys & Hys & Hsub).
  exists ys. split; [assumption|]. intros b Hb.
  apply in_or_app; right. apply in_or_app; right. apply in_or_app; left.
  right. now apply Hsub.
Qed.

Lemma html_entry_in_text (d : value) (exps : list value) (exp : value) (html : string) :
  get d "work_experience" (VList []) = Ok (VList exps) ->
  In exp exps ->
  export_to_html d = Ok html ->
  exists t, Html.experience exp = Ok t /\ infix t html.
Proof.
  intros Hget Hin Hexp.
  apply export_to_html_blocks in Hexp as (h & s & w & e & k & _ & _ & Hw & _ & _ & ->).
  cbn [Html.block] in Hw. unfold Html.work_experience in Hw.
  rewrite Hget in Hw. cbn [bind] in Hw.
  rewrite (truthy_list_In _ _ Hin) in Hw. cbn [iter bind] in Hw.
  apply bind_ok_inv in Hw as (entries & Hentries & Hw). injection Hw as <-.
  destruct (for_each_text_In _ _ _ _ Hentries Hin) as (t & Ht & Hsub).
  exists t. split; [assumption|].
  apply infix_append_r, infix_append_r, infix_append_l, infix_append_r, infix_append_l.
  exact Hsub.
Qed.

(** The default of [exp.get('end_date', 'Present')]: for every
    work-experience entry that has no ["end_date"] key, the date line
    rendered by each of the three exporters is "{start_date} to Present";
    it is the italic date paragraph of the PDF story, the date paragraph of
    the DOCX document, and part of the date line of the HTML text. *)
Theorem date_line_present_when_end_date_absent
    (d : value) (exps : list value) (fields : list (string * value))
    (story : list Pdf.Flowable) (doc : list Docx.DocxParagraph) (html : string) :
  get d "work_experience" (VList []) = Ok (VList exps) ->
  In (VDict fields) exps ->
  dict_lookup "end_date" fields = None ->
  export_to_pdf d = Ok story ->
  export_to_docx d = Ok doc ->
  export_to_html d = Ok html ->
  let line := str (dict_get fields "start_date" (VStr EmptyString)) +:+ " to Present" in
  In (Pdf.Paragraph (VStr ("<i>" +:+ line +:+ "</i>")) Pdf.body_style) story
  /\ In (Docx.add_paragraph (VStr line) None) doc
  /\ infix line html.
Proof.
  intros Hget Hin Hend Hpdf Hdocx Hhtml line.
  assert (Hline : str (dict_get fields "start_date" (VStr EmptyString)) +:+ " to " +:+
                  str (dict_get fields "end_date" (VStr "Present")) = line).
  { unfold dict_get at 2. rewrite Hend. reflexivity. }
  split; [|split].
  - destruct (pdf_entry_in_story _ _ _ _ Hget Hin Hpdf) as (blocks & Hb & Hsub).
    rewrite pdf_experience_dict in Hb.
    apply bind_ok_inv in Hb as (header & _ & Hb).
    apply bind_ok_inv in Hb as (bullets & _ & Hb). injection Hb as <-.
    apply Hsub. rewrite Hline. right. left. reflexivity.
  - destruct (docx_entry_in_document _ _ _ _ Hget Hin Hdocx) as (paras & Hp & Hsub).
    rewrite docx_experience_dict in Hp.
    apply bind_ok_inv in Hp as (bullets & _ & Hp). injection Hp as <-.
    apply Hsub. rewrite Hline. right. left. reflexivity.
  - destruct (html_entry_in_text _ _ _ _ Hget Hin Hhtml) as (t & Ht & Hsub).
    rewrite html_experience_dict in Ht.
    apply bind_ok_inv in Ht as (bullets & _ & Ht).
    apply bind_ok_inv in Ht as (items & _ & Ht). injection Ht as <-.
    refine (infix_trans _ _ _ _ Hsub). rewrite Hline.
    apply infix_append_l.
    do 5 apply infix_append_r. apply infix_here.
Qed.

(** C2 — the document of the end-to-end scenario has the empty string as its
    end date, and the default "Present" is not used for it: the three
    outputs show the date line "01/2020 to " and none of them shows
    "01/2020 to Present". *)
Theorem date_line_with_empty_end_date :
  pdf_shows "01/2020 to Present" jane = false
  /\ docx_shows "01/2020 to Present" jane = false
  /\ html_shows "01/2020 to Present" jane = false
  /\ In (Pdf.Paragraph (VStr "<i>01/2020 to </i>") Pdf.body_style) (pdf_output jane)
  /\ In (Docx.add_paragraph (VStr "01/2020 to ") None) (docx_output jane)
  /\ html_shows "01/2020 to  | " jane = true.
Proof.
  repeat split; try (vm_compute; reflexivity).
  - vm_compute. tauto.
  - vm_compute. tauto.
Qed.

Lemma date_line_present_when_end_date_absent_witness :
  In (Pdf.Paragraph (VStr ("<i>" +:+ "01/2020 to Present" +:+ "</i>")) Pdf.body_style)
     (pdf_output jane_current)
  /\ In (Docx.add_paragraph (VStr "01/2020 to Present") None) (docx_output jane_current)
  /\ infix "01/2020 to Present" (html_output jane_current).
Proof.
  apply (date_line_present_when_end_date_absent jane_current
           [VDict jane_current_fields] jane_current_fields).
  - reflexivity.
  - simpl. auto.
  - reflexivity.
  - vm_compute. reflexivity.
  - vm_compute. reflexivity.
  - vm_compute. reflexivity.
Defined.

(** ** The header *)

(** C3 — for the document whose personal record has the name only, the PDF
    story and the DOCX document have the name and no contact line, whereas
    the HTML text has a contact element, made of the two separators. *)
Theorem contact_line_with_name_only :
  export_to_pdf name_only
    = Ok [Pdf.Paragraph (VStr "Jane Doe") Pdf.title_style; Pdf.Spacer 1 12]
  /\ export_to_docx name_only
    = Ok [Docx.mkParagraph [Docx.mkRun (VStr "Jane Doe") true (Some 18)]
            (Some Docx.CENTER) None;
          Docx.empty_paragraph]
  /\ html_shows (name_div "Jane Doe") name_only = true
  /\ html_shows (contact_div " |  | ") name_only = true.
Proof. repeat split; vm_compute; reflexivity. Qed.

(** The HTML header is produced for every dict, whatever it holds. *)
Lemma html_header_total (p : list (string * value)) :
  is_ok (Html.header (VDict p)) = true.
Proof.
  unfold Html.header, Html.page_top, Html.links. rewrite !get_VDict. cbn [bind].
  destruct (truthy (dict_get p "linkedin" VNone)) eqn:Hl;
    destruct (truthy (dict_get p "website" VNone)) eqn:Hw;
    cbn [bind]; rewrite ?Hl, ?Hw;
    rewrite ?(getitem_after_get _ _ Hl), ?(getitem_after_get _ _ Hw); reflexivity.
Qed.

Lemma append_if_set_unset (p : list (string * value)) (key : string) (acc : list value) :
  truthy (dict_get p key VNone) = false -> append_if_set (VDict p) key acc = Ok acc.
Proof. intros H. unfold append_if_set. rewrite get_VDict. cbn [bind]. now rewrite H. Qed.

(** With a name and none of the three contact fields, the PDF and the DOCX
    header have no contact line, for every personal record. *)
Lemma header_without_contact_fields (p : list (string * value)) :
  truthy (dict_get p "full_name" VNone) = true ->
  truthy (dict_get p "email" VNone) = false ->
  truthy (dict_get p "phone" VNone) = false ->
  truthy (dict_get p "location" VNone) = false ->
  Pdf.header (VDict p)
    = Ok [Pdf.Paragraph (dict_get p "full_name" VNone) Pdf.title_style; Pdf.Spacer 1 12]
  /\ Docx.header (VDict p)
    = Ok [Docx.mkParagraph [Docx.mkRun (dict_get p "full_name" VNone) true (Some 18)]
            (Some Docx.CENTER) None;
          Docx.empty_paragraph].
Proof.
  intros Hname He Hp Hl. unfold Pdf.header, Docx.header, contact_info.
  rewrite !get_VDict. cbn [bind]. rewrite Hname, (getitem_after_get _ _ Hname).
  cbn [bind]. rewrite !(append_if_set_unset p "email" [] He). cbn [bind].
  rewrite !(append_if_set_unset p "phone" [] Hp). cbn [bind].
  rewrite !(append_if_set_unset p "location" [] Hl). cbn [bind].
  split; reflexivity.
Qed.

(** The HTML header has its contact element for every personal record. *)
Lemma html_contact_line_always (p : list (string * value)) :
  exists html,
    Html.header (VDict p) = Ok html
    /\ infix (contact_div (str (dict_get p "email" (VStr EmptyString)) +:+ " | " +:+
                           str (dict_get p "phone" (VStr EmptyString)) +:+ " | " +:+
                           str (dict_get p "location" (VStr EmptyString)))) html.
Proof.
  pose proof (html_header_total p) as Hok.
  destruct (Html.header (VDict p)) as [html|] eqn:Hh; [|discriminate].
  exists html. split; [reflexivity|].
  unfold Html.header in Hh.
  apply bind_ok_inv in Hh as (top & Htop & Hh).
  apply bind_ok_inv in Hh as (l & _ & Hh). injection Hh as <-.
  apply infix_append_l.
  unfold Html.page_top in Htop. rewrite !get_VDict in Htop. cbn [bind] in Htop.
  injection Htop as <-.
  do 4 apply infix_append_r.
  assert (Hopen : Html.contact_open =
            String.substring 0 (String.length Html.contact_open - 21) Html.contact_open
            +:+ "<div class=" +:+ dq +:+ "contact" +:+ dq +:+ ">")
    by (vm_compute; reflexivity).
  assert (Hclose : Html.contact_close =
            "</div>" +:+ String.substring 6 (String.length Html.contact_close)
                           Html.contact_close)
    by (vm_compute; reflexivity).
  rewrite Hopen, Hclose.
  set (pre := String.substring _ _ Html.contact_open).
  set (rest := String.substring _ _ Html.contact_close).
  exists pre, rest. unfold contact_div. now rewrite !append_assoc.
Qed.

Lemma page_style_name_open :
  Html.page_style =
    String.substring 0 (String.length Html.page_style - 18) Html.page_style
    +:+ "<div class=" +:+ dq +:+ "name" +:+ dq +:+ ">".
Proof. vm_compute. reflexivity. Qed.

Lemma contact_open_close_name :
  Html.contact_open = "</div>" +:+ String.substring 6 (String.length Html.contact_open) Html.contact_open.
Proof. vm_compute. reflexivity. Qed.

(** C4 (as amended) — [export_to_html] puts field values into the markup as
    they are, with no escaping: for every document the full name is found
    verbatim inside the name element of the returned text, also when it
    contains "<script>". *)
Theorem full_name_verbatim_in_html
    (d : value) (personal : list (string * value)) (name html : string) :
  get d "personal" (VDict []) = Ok (VDict personal) ->
  dict_lookup "full_name" personal = Some (VStr name) ->
  export_to_html d = Ok html ->
  infix (name_div name) html.
Proof.
  intros Hp Hname Hhtml. unfold export_to_html in Hhtml.
  rewrite Hp in Hhtml. cbn [bind] in Hhtml.
  apply bind_ok_inv in Hhtml as (h & Hh & Hhtml).
  apply bind_ok_inv in Hhtml as (s & _ & Hhtml).
  apply bind_ok_inv in Hhtml as (w & _ & Hhtml).
  apply bind_ok_inv in Hhtml as (e & _ & Hhtml).
  apply bind_ok_inv in Hhtml as (k & _ & Hhtml). injection Hhtml as <-.
  apply infix_append_l.
  unfold Html.header in Hh.
  apply bind_ok_inv in Hh as (top & Htop & Hh).
  apply bind_ok_inv in Hh as (l & _ & Hh). injection Hh as <-.
  apply infix_append_l.
  unfold Html.page_top in Htop. rewrite !get_VDict in Htop. cbn [bind] in Htop.
  injection Htop as <-.
  unfold dict_get at 2. rewrite Hname. cbn [str].
  do 2 apply infix_append_r.
  rewrite page_style_name_open, contact_open_close_name.
  set (pre := String.substring _ _ Html.page_style).
  set (rest := String.substring _ _ Html.contact_open).
  exists pre. eexists. unfold name_div. rewrite !append_assoc. reflexivity.
Qed.

Lemma script_name_unescaped :
  html_shows "<script>" script_name = true
  /\ html_shows (name_div "<script>alert(1)</script>") script_name = true
  /\ html_shows "&lt;script&gt;" script_name = false.
Proof. repeat split; vm_compute; reflexivity. Qed.

Lemma full_name_verbatim_in_html_witness :
  infix (name_div "<script>alert(1)</script>") (html_output script_name).
Proof.
  apply (full_name_verbatim_in_html script_name
           [("full_name", VStr "<script>alert(1)</script>")]).
  - reflexivity.
  - reflexivity.
  - vm_compute. reflexivity.
Defined.

(** ** Title lines *)

(** The title line of every work-experience entry, format by format.  PDF:
    the first paragraph of the entry is "<b>{job_title}</b> - {company}",
    followed by " ({location})" exactly when the location is not empty.
    DOCX: the entry is one bold run "{job_title} - {company}", the date
    paragraph, the bullets and an empty paragraph, the location being read
    by none of them.  HTML: the job title and the company in their two
    spans, and the location on the date line after " | ", whether empty or
    not. *)
Lemma title_line_by_format
    (fields : list (string * value))
    (blocks : list Pdf.Flowable) (paras : list Docx.DocxParagraph) (text : string) :
  Pdf.experience (VDict fields) = Ok blocks ->
  Docx.experience (VDict fields) = Ok paras ->
  Html.experience (VDict fields) = Ok text ->
  let job_title := str (dict_get fields "job_title" (VStr EmptyString)) in
  let company := str (dict_get fields "company" (VStr EmptyString)) in
  let location := dict_get fields "location" VNone in
  let dates := str (dict_get fields "start_date" (VStr EmptyString)) +:+ " to " +:+
               str (dict_get fields "end_date" (VStr "Present")) in
  hd_error blocks =
    Some (Pdf.Paragraph
            (VStr ("<b>" +:+ job_title +:+ "</b> - " +:+ company +:+
                   (if truthy location then " (" +:+ str location +:+ ")"
                    else EmptyString)))
            Pdf.body_style)
  /\ (exists bullets,
        iter (dict_get fields "bullets" (VList [])) = Ok bullets /\
        paras =
          [Docx.mkParagraph
             [Docx.mkRun (VStr (job_title +:+ " - " +:+ company)) true None] None None;
           Docx.mkParagraph
             (if truthy (VStr dates) then [Docx.mkRun (VStr dates) false None] else [])
             None None]
          ++ map (fun bullet =>
                    Docx.mkParagraph
                      (if truthy bullet then [Docx.mkRun bullet false None] else [])
                      None (Some "List Bullet")) bullets
          ++ [Docx.mkParagraph [] None None])
  /\ (exists before rest,
        text =
          before +:+
          "<span class=" +:+ dq +:+ "job-title" +:+ dq +:+ ">" +:+ job_title +:+
          "</span> - <span class=" +:+ dq +:+ "company" +:+ dq +:+ ">" +:+ company +:+
          "</span></div>" +:+ Html.nl +:+
          "                    <div class=" +:+ dq +:+ "date-range" +:+ dq +:+ ">" +:+
          dates +:+ " | " +:+ str (dict_get fields "location" (VStr EmptyString)) +:+
          "</div>" +:+ rest).
Proof.
  intros Hpdf Hdocx Hhtml job_title company location dates.
  split; [|split].
  - rewrite pdf_experience_dict, pdf_job_header_dict in Hpdf. cbn [bind] in Hpdf.
    apply bind_ok_inv in Hpdf as (bullets & _ & Hpdf). injection Hpdf as <-.
    reflexivity.
  - rewrite docx_experience_dict in Hdocx.
    apply bind_ok_inv in Hdocx as (bullets & Hb & Hdocx). injection Hdocx as <-.
    exists bullets. split; [assumption|reflexivity].
  - rewrite html_experience_dict in Hhtml.
    apply bind_ok_inv in Hhtml as (bullets & _ & Hhtml).
    apply bind_ok_inv in Hhtml as (items & _ & Hhtml). injection Hhtml as <-.
    exists (Html.nl +:+
            "                <div style=" +:+ dq +:+ "margin-bottom: 20px;" +:+ dq +:+ ">" +:+
            Html.nl +:+ "                    <div>"),
           (Html.nl +:+ "                " +:+ items +:+ "</div>").
    fold job_title company dates.
    unfold Html.job_open, Html.company_open, Html.dates_open, Html.dates_close.
    now rewrite !append_assoc.
Qed.

(** C5 — the entry with the job title "Engineer", the company "Acme" and
    the location "Remote".  The PDF story has the title line of the
    specification, "<b>Engineer</b> - Acme (Remote)".  The DOCX document has
    the bold run "Engineer - Acme" and shows the location nowhere.  The HTML
    text has the title and the company in their spans, without the suffix,
    and the location on the date line after " | "; this separator is
    written for an entry without a location as well. *)
Theorem title_line_location_by_format :
  export_to_pdf located =
    Ok [Pdf.Paragraph (VStr "PROFESSIONAL EXPERIENCE") Pdf.heading_style;
        Pdf.Paragraph (VStr "<b>Engineer</b> - Acme (Remote)") Pdf.body_style;
        Pdf.Paragraph (VStr "<i>01/2020 to Present</i>") Pdf.body_style;
        Pdf.Spacer 1 8]
  /\ export_to_docx located =
    Ok [Docx.mkParagraph [Docx.mkRun (VStr "PROFESSIONAL EXPERIENCE") true (Some 14)]
          None None;
        Docx.mkParagraph [Docx.mkRun (VStr "Engineer - Acme") true None] None None;
        Docx.mkParagraph [Docx.mkRun (VStr "01/2020 to Present") false None] None None;
        Docx.mkParagraph [] None None]
  /\ html_shows
       ("<span class=" +:+ dq +:+ "job-title" +:+ dq +:+ ">Engineer</span> - <span class=" +:+
        dq +:+ "company" +:+ dq +:+ ">Acme</span></div>") located = true
  /\ html_shows "(Remote)" located = false
  /\ html_shows
       ("<div class=" +:+ dq +:+ "date-range" +:+ dq +:+ ">01/2020 to Present | Remote</div>")
       located = true
  /\ html_shows
       ("<div class=" +:+ dq +:+ "date-range" +:+ dq +:+ ">01/2020 to Present | </div>")
       jane_current = true.
Proof. repeat split; vm_compute; reflexivity. Qed.

(** ** Education lines *)

Lemma pdf_edu_text_dict (fields : list (string * value)) :
  Pdf.edu_text (VDict fields) =
    Ok ("<b>" +:+ str (dict_get fields "degree" (VStr EmptyString)) +:+ "</b>" +:+
        (if truthy (dict_get fields "major" VNone)
         then " in " +:+ str (dict_get fields "major" VNone) else EmptyString) +:+
        " - " +:+ str (dict_get fields "school" (VStr EmptyString)) +:+
        (if truthy (dict_get fields "graduation_date" VNone)
         then " (" +:+ str (dict_get fields "graduation_date" VNone) +:+ ")"
         else EmptyString)).
Proof.
  unfold Pdf.edu_text. rewrite !get_VDict. cbn [bind].
  destruct (truthy (dict_get fields "major" VNone)) eqn:Hmajor;
    destruct (truthy (dict_get fields "graduation_date" VNone)) eqn:Hdate;
    rewrite ?(getitem_after_get _ _ Hmajor), ?(getitem_after_get _ _ Hdate);
    cbn [bind]; rewrite ?append_assoc, ?append_empty_r; reflexivity.
Qed.

Lemma docx_education_entry_dict (fields : list (string * value)) :
  Docx.education_entry (VDict fields) =
    Ok [Docx.mkParagraph
          ([Docx.bold_run (dict_get fields "degree" (VStr EmptyString))]
           ++ (if truthy (dict_get fields "major" VNone)
               then [Docx.plain_run (VStr (" in " +:+ str (dict_get fields "major" VNone)))]
               else [])
           ++ [Docx.plain_run
                 (VStr (" - " +:+ str (dict_get fields "school" (VStr EmptyString))))]
           ++ (if truthy (dict_get fields "graduation_date" VNone)
               then [Docx.plain_run
                       (VStr (" (" +:+ str (dict_get fields "graduation_date" VNone) +:+ ")"))]
               else []))
          None None].
Proof.
  unfold Docx.education_entry. rewrite !get_VDict. cbn [bind].
  destruct (truthy (dict_get fields "major" VNone)) eqn:Hmajor;
    destruct (truthy (dict_get fields "graduation_date" VNone)) eqn:Hdate;
    rewrite ?(getitem_after_get _ _ Hmajor), ?(getitem_after_get _ _ Hdate);
    reflexivity.
Qed.

(** The education line of every entry, format by format.  PDF: one
    paragraph "<b>{degree}</b>[ in {major}] - {school}[ ({graduation_date})]".
    DOCX: one paragraph whose runs are the degree in bold, " in {major}",
    " - {school}" and " ({graduation_date})".  In both, each bracketed
    fragment is there exactly when its field is not empty.  HTML:
    "{degree} in {major} - {school}" with the " in " fragment always there,
    and the graduation date on a line of its own after "Graduated: ",
    whether empty or not. *)
Lemma education_line_by_format (fields : list (string * value)) :
  let degree := dict_get fields "degree" (VStr EmptyString) in
  let major := dict_get fields "major" VNone in
  let school := str (dict_get fields "school" (VStr EmptyString)) in
  let graduation_date := dict_get fields "graduation_date" VNone in
  Pdf.education_entry (VDict fields) =
    Ok [Pdf.Paragraph
          (VStr ("<b>" +:+ str degree +:+ "</b>" +:+
                 (if truthy major then " in " +:+ str major else EmptyString) +:+
                 " - " +:+ school +:+
                 (if truthy graduation_date
                  then " (" +:+ str graduation_date +:+ ")" else EmptyString)))
          Pdf.body_style;
        Pdf.Spacer 1 4]
  /\ Docx.education_entry (VDict fields) =
       Ok [Docx.mkParagraph
             ([Docx.mkRun degree true None]
              ++ (if truthy major
                  then [Docx.mkRun (VStr (" in " +:+ str major)) false None] else [])
              ++ [Docx.mkRun (VStr (" - " +:+ school)) false None]
              ++ (if truthy graduation_date
                  then [Docx.mkRun (VStr (" (" +:+ str graduation_date +:+ ")")) false None]
                  else []))
             None None]
  /\ (exists before after,
        Html.education_entry (VDict fields) =
          Ok (before +:+
              "<div class=" +:+ dq +:+ "job-title" +:+ dq +:+ ">" +:+ str degree +:+
              " in " +:+ str (dict_get fields "major" (VStr EmptyString)) +:+
              " - " +:+ school +:+ "</div>" +:+ Html.nl +:+
              "                    <div class=" +:+ dq +:+ "date-range" +:+ dq +:+
              ">Graduated: " +:+
              str (dict_get fields "graduation_date" (VStr EmptyString)) +:+
              "</div>" +:+ after)).
Proof.
  intros degree major school graduation_date.
  split; [|split].
  - unfold Pdf.education_entry. rewrite pdf_edu_text_dict. reflexivity.
  - rewrite docx_education_entry_dict. reflexivity.
  - exists (Html.nl +:+
            "                <div style=" +:+ dq +:+ "margin-bottom: 15px;" +:+ dq +:+ ">" +:+
            Html.nl +:+ "                    "),
           (Html.nl +:+ "                </div>" +:+ Html.nl +:+ "                ").
    unfold Html.education_entry. rewrite !get_VDict. cbn [bind].
    fold degree school.
    unfold Html.degree_open, Html.graduated_open, Html.graduated_close.
    now rewrite !append_assoc.
Qed.

(** C6 — the entry with the degree "BSc" and the school "MIT", whose major
    and graduation date are empty.  The PDF story and the DOCX document have
    the education line of the specification, "BSc - MIT" with the degree in
    bold and neither fragment.  The HTML text has "BSc in  - MIT", the
    " in " fragment being written for the empty major, and a line
    "Graduated: " without a date. *)
Theorem education_line_fragments_by_format :
  export_to_pdf degree_only =
    Ok [Pdf.Paragraph (VStr "EDUCATION") Pdf.heading_style;
        Pdf.Paragraph (VStr "<b>BSc</b> - MIT") Pdf.body_style;
        Pdf.Spacer 1 4]
  /\ export_to_docx degree_only =
    Ok [Docx.mkParagraph [Docx.mkRun (VStr "EDUCATION") true (Some 14)] None None;
        Docx.mkParagraph
          [Docx.mkRun (VStr "BSc") true None; Docx.mkRun (VStr " - MIT") false None]
          None None]
  /\ html_shows
       ("<div class=" +:+ dq +:+ "job-title" +:+ dq +:+ ">BSc in  - MIT</div>")
       degree_only = true
  /\ html_shows "BSc - MIT" degree_only = false
  /\ html_shows
       ("<div class=" +:+ dq +:+ "date-range" +:+ dq +:+ ">Graduated: </div>")
       degree_only = true.
Proof. repeat split; vm_compute; reflexivity. Qed.

(** ** Section parity *)

Lemma pdf_renders_present (s : section) (d : value) :
  Pdf.renders s d <-> present_blocks (Pdf.block s d) = true.
Proof.
  unfold Pdf.renders. destruct (Pdf.block s d) as [[|b bs]|e]; simpl; split.
  - intros (b & Hb & Hne). injection Hb as <-. contradiction.
  - discriminate.
  - reflexivity.
  - intros _. eexists. split; [reflexivity|discriminate].
  - intros (b & Hb & _). discriminate.
  - discriminate.
Qed.

Lemma docx_renders_present (s : section) (d : value) :
  Docx.renders s d <-> present_blocks (Docx.block s d) = true.
Proof.
  unfold Docx.renders. destruct (Docx.block s d) as [[|b bs]|e]; simpl; split.
  - intros (b & Hb & Hne). injection Hb as <-. contradiction.
  - discriminate.
  - reflexivity.
  - intros _. eexists. split; [reflexivity|discriminate].
  - intros (b & Hb & _). discriminate.
  - discriminate.
Qed.

Lemma html_renders_present (s : section) (d : value) :
  Html.renders s d <-> present_text (Html.block s d) = true.
Proof.
  unfold Html.renders. destruct (Html.block s d) as [[|c t]|e]; simpl; split.
  - intros (b & Hb & Hne). injection Hb as <-. contradiction.
  - discriminate.
  - reflexivity.
  - intros _. eexists. split; [reflexivity|discriminate].
  - intros (b & Hb & _). discriminate.
  - discriminate.
Qed.

Lemma present_blocks_heading {A : Type} (m : result (list A)) (heading : A) :
  present_blocks (bs <- m ;; Ok (heading :: bs)) = is_ok m.
Proof. now destruct m. Qed.

Lemma present_text_section (m : result string) (title : string) :
  present_text (t <- m ;; Ok (Html.section_open title +:+ t +:+ "</div>")) = is_ok m.
Proof. now destruct m. Qed.

Lemma is_ok_for_each_ext {A B C : Type}
    (f : A -> result (list B)) (g : A -> result (list C)) (l : list A) :
  (forall x, is_ok (f x) = is_ok (g x)) ->
  is_ok (for_each f l) = is_ok (for_each g l).
Proof.
  intros Hfg. induction l as [|x l IH]; [reflexivity|]. simpl.
  specialize (Hfg x). destruct (f x), (g x); try discriminate; simpl; [|reflexivity].
  destruct (for_each f l), (for_each g l); try discriminate; reflexivity.
Qed.

Lemma is_ok_for_each_text_ext {A B : Type}
    (f : A -> result (list B)) (g : A -> result string) (l : list A) :
  (forall x, is_ok (f x) = is_ok (g x)) ->
  is_ok (for_each f l) = is_ok (for_each_text g l).
Proof.
  intros Hfg. induction l as [|x l IH]; [reflexivity|]. simpl.
  specialize (Hfg x). destruct (f x), (g x); try discriminate; simpl; [|reflexivity].
  destruct (for_each f l), (for_each_text g l); try discriminate; reflexivity.
Qed.

Lemma for_each_text_total {A : Type} (f : A -> string) (l : list A) :
  is_ok (for_each_text (fun x => Ok (f x)) l) = true.
Proof.
  induction l as [|x l IH]; [reflexivity|]. simpl.
  destruct (for_each_text _ l); [reflexivity|discriminate].
Qed.

(** An entry is rendered by one exporter exactly when the others render it. *)
Lemma experience_ok_docx (exp : value) :
  is_ok (Pdf.experience exp) = is_ok (Docx.experience exp).
Proof.
  destruct exp as [| | | | |fields]; try reflexivity.
  rewrite pdf_experience_dict, pdf_job_header_dict, docx_experience_dict. cbn [bind].
  now destruct (iter _).
Qed.

Lemma experience_ok_html (exp : value) :
  is_ok (Pdf.experience exp) = is_ok (Html.experience exp).
Proof.
  destruct exp as [| | | | |fields]; try reflexivity.
  rewrite pdf_experience_dict, pdf_job_header_dict, html_experience_dict. cbn [bind].
  destruct (iter _) as [bullets|]; [|reflexivity]. cbn [bind].
  pose proof (for_each_text_total
                (fun bullet => Html.bullet_open +:+ str bullet +:+ "</div>") bullets) as H.
  destruct (for_each_text _ bullets); [reflexivity|discriminate].
Qed.

Lemma education_ok_docx (edu : value) :
  is_ok (Pdf.education_entry edu) = is_ok (Docx.education_entry edu).
Proof.
  destruct edu as [| | | | |fields]; try reflexivity.
  unfold Pdf.education_entry.
  now rewrite pdf_edu_text_dict, docx_education_entry_dict.
Qed.

Lemma education_ok_html (edu : value) :
  is_ok (Pdf.education_entry edu) = is_ok (Html.education_entry edu).
Proof.
  destruct edu as [| | | | |fields]; try reflexivity.
  unfold Pdf.education_entry. now rewrite pdf_edu_text_dict.
Qed.

Lemma skill_category_ok_docx (item : string * value) :
  is_ok (Pdf.skill_category item) = is_ok (Docx.skill_category item).
Proof.
  destruct item as [category skill_list]. simpl.
  destruct (truthy skill_list); [|reflexivity]. now destruct (join _ _).
Qed.

Lemma skill_category_ok_html (item : string * value) :
  is_ok (Pdf.skill_category item) = is_ok (Html.skill_category item).
Proof.
  destruct item as [category skill_list]. simpl.
  destruct (truthy skill_list); [|reflexivity]. now destruct (join _ _).
Qed.

Lemma present_docx (s : section) (d : value) :
  present_blocks (Pdf.block s d) = present_blocks (Docx.block s d).
Proof.
  destruct s; cbn [Pdf.block Docx.block].
  - destruct (get d "personal" (VDict [])) as [personal|]; [|reflexivity]. cbn [bind].
    unfold Pdf.header, Docx.header.
    destruct (get personal "full_name" VNone) as [name|]; [|reflexivity]. cbn [bind].
    destruct (truthy name); [|reflexivity].
    destruct (getitem personal "full_name"); [|reflexivity]. cbn [bind].
    destruct (contact_info personal) as [[|c contact]|]; try reflexivity. cbn [bind].
    now destruct (join_list _ _).
  - unfold Pdf.summary, Docx.summary.
    destruct (get d "summary" VNone) as [text|]; [|reflexivity]. cbn [bind].
    destruct (truthy text); [|reflexivity]. now destruct (getitem d "summary").
  - unfold Pdf.work_experience, Docx.work_experience.
    destruct (get d "work_experience" (VList [])) as [w|]; [|reflexivity]. cbn [bind].
    destruct (truthy w); [|reflexivity].
    destruct (iter w) as [exps|]; [|reflexivity]. cbn [bind].
    rewrite !present_blocks_heading. apply is_ok_for_each_ext, experience_ok_docx.
  - unfold Pdf.education, Docx.education.
    destruct (get d "education" (VList [])) as [w|]; [|reflexivity]. cbn [bind].
    destruct (truthy w); [|reflexivity].
    destruct (iter w) as [edus|]; [|reflexivity]. cbn [bind].
    rewrite !present_blocks_heading. apply is_ok_for_each_ext, education_ok_docx.
  - unfold Pdf.skills, Docx.skills, Pdf.skills_block, Docx.skills_block.
    destruct (get d "skills" (VDict [])) as [w|]; [|reflexivity]. cbn [bind].
    destruct (truthy w); [|reflexivity].
    destruct (items w) as [its|]; [|reflexivity]. cbn [bind].
    rewrite !present_blocks_heading. apply is_ok_for_each_ext, skill_category_ok_docx.
Qed.

Lemma present_html (s : section) (d : value) :
  s <> PERSONAL ->
  present_blocks (Pdf.block s d) = present_text (Html.block s d).
Proof.
  intros Hs. destruct s; [contradiction| | | |]; cbn [Pdf.block Html.block].
  - unfold Pdf.summary, Html.summary.
    destruct (get d "summary" VNone) as [text|]; [|reflexivity]. cbn [bind].
    destruct (truthy text); [|reflexivity]. now destruct (getitem d "summary").
  - unfold Pdf.work_experience, Html.work_experience.
    destruct (get d "work_experience" (VList [])) as [w|]; [|reflexivity]. cbn [bind].
    destruct (truthy w); [|reflexivity].
    destruct (iter w) as [exps|]; [|reflexivity]. cbn [bind].
    rewrite present_blocks_heading, present_text_section.
    apply is_ok_for_each_text_ext, experience_ok_html.
  - unfold Pdf.education, Html.education.
    destruct (get d "education" (VList [])) as [w|]; [|reflexivity]. cbn [bind].
    destruct (truthy w); [|reflexivity].
    destruct (iter w) as [edus|]; [|reflexivity]. cbn [bind].
    rewrite present_blocks_heading, present_text_section.
    apply is_ok_for_each_text_ext, education_ok_html.
  - unfold Pdf.skills, Html.skills, Pdf.skills_block, Html.skills_block.
    destruct (get d "skills" (VDict [])) as [w|]; [|reflexivity]. cbn [bind].
    destruct (truthy w); [|reflexivity].
    destruct (items w) as [its|]; [|reflexivity]. cbn [bind].
    rewrite present_blocks_heading, present_text_section.
    apply is_ok_for_each_text_ext, skill_category_ok_html.
Qed.

(** Each block is rendered by one exporter exactly when the others render
    it, whether the export as a whole returns or not; the header of the
    HTML text apart. *)
Lemma section_blocks_parity (d : value) (s : section) :
  (Pdf.renders s d <-> Docx.renders s d)
  /\ (s <> PERSONAL -> (Pdf.renders s d <-> Html.renders s d)).
Proof.
  split.
  - rewrite pdf_renders_present, docx_renders_present. now rewrite present_docx.
  - intros Hs. rewrite pdf_renders_present, html_renders_present.
    now rewrite (present_html s d Hs).
Qed.

(** A section whose field is absent or empty (an empty text, list or
    mapping) is left out by the three exporters. *)
Lemma empty_section_omitted (fields : list (string * value)) (s : section) :
  s <> PERSONAL ->
  truthy (dict_get fields (section_key s) VNone) = false ->
  Pdf.block s (VDict fields) = Ok []
  /\ Docx.block s (VDict fields) = Ok []
  /\ Html.block s (VDict fields) = Ok EmptyString.
Proof.
  intros Hs Hempty.
  assert (Hdflt : forall dflt, truthy dflt = false ->
            truthy (dict_get fields (section_key s) dflt) = false).
  { intros dflt Hd. unfold dict_get in *.
    now destruct (dict_lookup (section_key s) fields). }
  destruct s; [contradiction| | | |]; cbn [section_key] in Hdflt;
    cbn [Pdf.block Docx.block Html.block].
  - unfold Pdf.summary, Docx.summary, Html.summary. rewrite !get_VDict. cbn [bind].
    now rewrite (Hdflt VNone eq_refl).
  - unfold Pdf.work_experience, Docx.work_experience, Html.work_experience.
    rewrite !get_VDict. cbn [bind]. now rewrite (Hdflt (VList []) eq_refl).
  - unfold Pdf.education, Docx.education, Html.education.
    rewrite !get_VDict. cbn [bind]. now rewrite (Hdflt (VList []) eq_refl).
  - unfold Pdf.skills, Docx.skills, Html.skills,
      Pdf.skills_block, Docx.skills_block, Html.skills_block.
    rewrite !get_VDict. cbn [bind]. now rewrite (Hdflt (VDict []) eq_refl).
Qed.

(** *** The headings of an output *)






Section BodyBlocks.

(** A test that holds of no body paragraph and of no spacer. *)
Variable P : Pdf.Flowable -> bool.
Hypothesis P_body : forall text, P (Pdf.Paragraph text Pdf.body_style) = false.
Hypothesis P_spacer : forall w h, P (Pdf.Spacer w h) = false.




End BodyBlocks.








(** *** The document without an empty field *)











(** ** Documents of the shape of the data model are rendered *)

Lemma optional_dict_get (ok : value -> bool) (key : string)
    (d : list (string * value)) (dflt : value) :
  optional ok key d = true -> ok dflt = true -> ok (dict_get d key dflt) = true.
Proof. unfold optional, dict_get. now destruct (dict_lookup key d). Qed.

Lemma optional_truthy (ok : value -> bool) (key : string) (d : list (string * value)) :
  optional ok key d = true -> truthy (dict_get d key VNone) = true ->
  ok (dict_get d key VNone) = true.
Proof. unfold optional, dict_get. destruct (dict_lookup key d); [tauto|discriminate]. Qed.

Lemma join_list_strs (sep : string) (l : list value) :
  forallb is_str l = true -> is_ok (join_list sep l) = true.
Proof.
  induction l as [|x l IH]; [reflexivity|]. intros H.
  apply andb_true_iff in H as [Hx Hl]. destruct x; try discriminate.
  simpl. destruct l as [|y l]; [reflexivity|].
  specialize (IH Hl). now destruct (join_list sep (y :: l)).
Qed.

Lemma append_if_set_strs (p : list (string * value)) (key : string) (acc : list value) :
  optional is_str key p = true -> forallb is_str acc = true ->
  exists acc', append_if_set (VDict p) key acc = Ok acc' /\ forallb is_str acc' = true.
Proof.
  intros Hopt Hacc. unfold append_if_set. rewrite get_VDict. cbn [bind].
  destruct (truthy (dict_get p key VNone)) eqn:Ht.
  - rewrite (getitem_after_get _ _ Ht). cbn [bind]. eexists. split; [reflexivity|].
    rewrite forallb_app, Hacc. simpl. now rewrite (optional_truthy _ _ _ Hopt Ht).
  - now exists acc.
Qed.

Lemma contact_info_strs (p : list (string * value)) :
  optional is_str "email" p = true ->
  optional is_str "phone" p = true ->
  optional is_str "location" p = true ->
  exists l, contact_info (VDict p) = Ok l /\ forallb is_str l = true.
Proof.
  intros He Hp Hl. unfold contact_info.
  destruct (append_if_set_strs p "email" [] He eq_refl) as (c1 & -> & H1). cbn [bind].
  destruct (append_if_set_strs p "phone" c1 Hp H1) as (c2 & -> & H2). cbn [bind].
  exact (append_if_set_strs p "location" c2 Hl H2).
Qed.

Lemma conforms_personal_contact (p : list (string * value)) :
  conforms_personal (VDict p) = true ->
  exists l, contact_info (VDict p) = Ok l /\ forallb is_str l = true.
Proof.
  intros H. simpl in H. repeat (apply andb_true_iff in H as [? H]).
  now apply contact_info_strs.
Qed.

Lemma pdf_header_total (personal : value) :
  conforms_personal personal = true -> is_ok (Pdf.header personal) = true.
Proof.
  destruct personal as [| | | | |p]; try discriminate. intros H.
  destruct (conforms_personal_contact p H) as (l & Hl & Hstr).
  unfold Pdf.header. rewrite get_VDict. cbn [bind].
  destruct (truthy (dict_get p "full_name" VNone)) eqn:Ht; [|reflexivity].
  rewrite (getitem_after_get _ _ Ht), Hl. cbn [bind].
  destruct l as [|c l]; [reflexivity|].
  pose proof (join_list_strs " • " (c :: l) Hstr) as Hj.
  now destruct (join_list " • " (c :: l)).
Qed.

Lemma docx_header_total (personal : value) :
  conforms_personal personal = true -> is_ok (Docx.header personal) = true.
Proof.
  destruct personal as [| | | | |p]; try discriminate. intros H.
  destruct (conforms_personal_contact p H) as (l & Hl & Hstr).
  unfold Docx.header. rewrite get_VDict. cbn [bind].
  destruct (truthy (dict_get p "full_name" VNone)) eqn:Ht; [|reflexivity].
  rewrite (getitem_after_get _ _ Ht), Hl. cbn [bind].
  destruct l as [|c l]; [reflexivity|].
  pose proof (join_list_strs " • " (c :: l) Hstr) as Hj.
  now destruct (join_list " • " (c :: l)).
Qed.

Lemma summary_total (fields : list (string * value)) :
  is_ok (Pdf.summary (VDict fields)) = true
  /\ is_ok (Docx.summary (VDict fields)) = true
  /\ is_ok (Html.summary (VDict fields)) = true.
Proof.
  unfold Pdf.summary, Docx.summary, Html.summary. rewrite !get_VDict. cbn [bind].
  destruct (truthy (dict_get fields "summary" VNone)) eqn:Ht; [|now repeat split].
  rewrite (getitem_after_get _ _ Ht). now repeat split.
Qed.

Lemma is_ok_for_each {A B : Type} (f : A -> result (list B)) (l : list A) :
  is_ok (for_each f l) = forallb (fun x => is_ok (f x)) l.
Proof.
  induction l as [|x l IH]; [reflexivity|]. simpl. rewrite <- IH.
  destruct (f x); [|reflexivity]. simpl. now destruct (for_each f l).
Qed.

Lemma forallb_impl {A : Type} (P Q : A -> bool) (l : list A) :
  (forall x, P x = true -> Q x = true) -> forallb P l = true -> forallb Q l = true.
Proof.
  intros HPQ. induction l as [|x l IH]; [reflexivity|]. simpl. intros H.
  apply andb_true_iff in H as [Hx Hl]. now rewrite (HPQ x Hx), (IH Hl).
Qed.

Lemma is_list_of_inv (ok : value -> bool) (v : value) :
  is_list_of ok v = true -> exists l, v = VList l /\ forallb ok l = true.
Proof. destruct v; try discriminate. eauto. Qed.

Lemma pdf_experience_total (exp : value) :
  conforms_experience exp = true -> is_ok (Pdf.experience exp) = true.
Proof.
  destruct exp as [| | | | |f]; try discriminate. intros H.
  simpl in H. apply andb_true_iff in H as [_ Hb].
  rewrite pdf_experience_dict, pdf_job_header_dict. cbn [bind].
  pose proof (optional_dict_get is_str_list "bullets" f (VList []) Hb eq_refl) as Hl.
  destruct (dict_get f "bullets" (VList [])); try discriminate. reflexivity.
Qed.

Lemma pdf_education_entry_total (edu : value) :
  conforms_education edu = true -> is_ok (Pdf.education_entry edu) = true.
Proof.
  destruct edu as [| | | | |f]; try discriminate. intros _.
  unfold Pdf.education_entry. now rewrite pdf_edu_text_dict.
Qed.

Lemma pdf_skill_category_total (item : string * value) :
  is_str_list (snd item) = true -> is_ok (Pdf.skill_category item) = true.
Proof.
  destruct item as [category skill_list]. simpl. intros H.
  destruct skill_list as [| | | |l|]; try discriminate.
  destruct l as [|x l]; [reflexivity|]. cbn [truthy]. unfold join. cbn [iter bind].
  pose proof (join_list_strs ", " (x :: l) H) as Hj.
  now destruct (join_list ", " (x :: l)).
Qed.

(** The three loops over a document of the data model. *)
Lemma work_experience_total (fields : list (string * value)) :
  optional (is_list_of conforms_experience) "work_experience" fields = true ->
  is_ok (for_each Pdf.experience
           (value_of [] (iter (dict_get fields "work_experience" (VList []))))) = true
  /\ exists exps, dict_get fields "work_experience" (VList []) = VList exps.
Proof.
  intros H.
  apply (fun H => optional_dict_get _ _ _ (VList []) H eq_refl) in H.
  apply is_list_of_inv in H as (exps & -> & Hall). split; [|eauto].
  simpl. rewrite is_ok_for_each.
  exact (forallb_impl _ _ _ pdf_experience_total Hall).
Qed.

Lemma education_total (fields : list (string * value)) :
  optional (is_list_of conforms_education) "education" fields = true ->
  is_ok (for_each Pdf.education_entry
           (value_of [] (iter (dict_get fields "education" (VList []))))) = true
  /\ exists edus, dict_get fields "education" (VList []) = VList edus.
Proof.
  intros H.
  apply (fun H => optional_dict_get _ _ _ (VList []) H eq_refl) in H.
  apply is_list_of_inv in H as (edus & -> & Hall). split; [|eauto].
  simpl. rewrite is_ok_for_each.
  exact (forallb_impl _ _ _ pdf_education_entry_total Hall).
Qed.

Lemma skills_total (fields : list (string * value)) :
  optional conforms_skills "skills" fields = true ->
  exists mapping,
    dict_get fields "skills" (VDict []) = VDict mapping
    /\ is_ok (for_each Pdf.skill_category mapping) = true.
Proof.
  intros H.
  apply (fun H => optional_dict_get _ _ _ (VDict []) H eq_refl) in H.
  destruct (dict_get fields "skills" (VDict [])) as [| | | | |m]; try discriminate.
  exists m. split; [reflexivity|]. rewrite is_ok_for_each.
  exact (forallb_impl _ _ _ pdf_skill_category_total H).
Qed.

Lemma is_ok_then {A B : Type} (m : result A) (f : A -> B) :
  is_ok (x <- m ;; Ok (f x)) = is_ok m.
Proof. now destruct m. Qed.

Lemma experience_block_total (fields : list (string * value)) :
  optional (is_list_of conforms_experience) "work_experience" fields = true ->
  is_ok (Pdf.work_experience (VDict fields)) = true
  /\ is_ok (Docx.work_experience (VDict fields)) = true
  /\ is_ok (Html.work_experience (VDict fields)) = true.
Proof.
  intros H. destruct (work_experience_total fields H) as (Hok & exps & Hw).
  unfold Pdf.work_experience, Docx.work_experience, Html.work_experience.
  rewrite !get_VDict, Hw. rewrite Hw in Hok. cbn [bind]. simpl in Hok.
  destruct (truthy (VList exps)); [|now repeat split]. cbn [iter bind].
  rewrite !is_ok_then.
  rewrite <- (is_ok_for_each_ext _ _ exps experience_ok_docx).
  rewrite <- (is_ok_for_each_text_ext _ _ exps experience_ok_html).
  now repeat split.
Qed.

Lemma education_block_total (fields : list (string * value)) :
  optional (is_list_of conforms_education) "education" fields = true ->
  is_ok (Pdf.education (VDict fields)) = true
  /\ is_ok (Docx.education (VDict fields)) = true
  /\ is_ok (Html.education (VDict fields)) = true.
Proof.
  intros H. destruct (education_total fields H) as (Hok & edus & Hw).
  unfold Pdf.education, Docx.education, Html.education.
  rewrite !get_VDict, Hw. rewrite Hw in Hok. cbn [bind]. simpl in Hok.
  destruct (truthy (VList edus)); [|now repeat split]. cbn [iter bind].
  rewrite !is_ok_then.
  rewrite <- (is_ok_for_each_ext _ _ edus education_ok_docx).
  rewrite <- (is_ok_for_each_text_ext _ _ edus education_ok_html).
  now repeat split.
Qed.

Lemma skills_block_total (fields : list (string * value)) :
  optional conforms_skills "skills" fields = true ->
  is_ok (Pdf.skills (VDict fields)) = true
  /\ is_ok (Docx.skills (VDict fields)) = true
  /\ is_ok (Html.skills (VDict fields)) = true.
Proof.
  intros H. destruct (skills_total fields H) as (mapping & Hw & Hok).
  unfold Pdf.skills, Docx.skills, Html.skills.
  rewrite !get_VDict, Hw. cbn [bind].
  unfold Pdf.skills_block, Docx.skills_block, Html.skills_block.
  destruct (truthy (VDict mapping)); [|now repeat split]. cbn [items bind].
  rewrite !is_ok_then.
  rewrite <- (is_ok_for_each_ext _ _ mapping skill_category_ok_docx).
  rewrite <- (is_ok_for_each_text_ext _ _ mapping skill_category_ok_html).
  now repeat split.
Qed.

Lemma is_ok_inv {A : Type} (m : result A) : is_ok m = true -> exists a, m = Ok a.
Proof. destruct m; [eauto|discriminate]. Qed.

Lemma try_wrap_raise {A : Type} (prefix : string) (body : result A) (e : exn) :
  try_wrap prefix body = Raise e -> exists cause, e = Exception prefix cause.
Proof. destruct body; simpl; [discriminate|]. intros [= <-]. eauto. Qed.

(** For a document of the shape of the data model no statement of the
    exporters raises: the story and the paragraphs are built, and the HTML
    text is returned. *)
Lemma conforming_document_built (d : value) :
  schema_conforming d = true ->
  is_ok (Pdf.story d) = true
  /\ is_ok (Docx.document d) = true
  /\ is_ok (export_to_html d) = true.
Proof.
  destruct d as [| | | | |fields]; try discriminate. intros H. simpl in H.
  repeat (apply andb_true_iff in H as [H ?]).
  match goal with Hp : optional conforms_personal _ _ = true |- _ =>
    pose proof (optional_dict_get _ _ _ (VDict []) Hp eq_refl) as Hpers end.
  destruct (summary_total fields) as (Hs1 & Hs2 & Hs3).
  destruct (experience_block_total fields) as (Hw1 & Hw2 & Hw3); [assumption|].
  destruct (education_block_total fields) as (He1 & He2 & He3); [assumption|].
  destruct (skills_block_total fields) as (Hk1 & Hk2 & Hk3); [assumption|].
  pose proof (pdf_header_total _ Hpers) as Hh1.
  pose proof (docx_header_total _ Hpers) as Hh2.
  assert (Hh3 : is_ok (Html.header (dict_get fields "personal" (VDict []))) = true).
  { destruct (dict_get fields "personal" (VDict [])); try discriminate.
    apply html_header_total. }
  unfold export_to_html, Pdf.story, Docx.document.
  rewrite !get_VDict. cbn [bind].
  apply is_ok_inv in Hh1 as (? & ->), Hh2 as (? & ->), Hh3 as (? & ->).
  apply is_ok_inv in Hs1 as (? & ->), Hs2 as (? & ->), Hs3 as (? & ->).
  apply is_ok_inv in Hw1 as (? & ->), Hw2 as (? & ->), Hw3 as (? & ->).
  apply is_ok_inv in He1 as (? & ->), He2 as (? & ->), He3 as (? & ->).
  apply is_ok_inv in Hk1 as (? & ->), Hk2 as (? & ->), Hk3 as (? & ->).
  now repeat split.
Qed.

(** C8 (as amended) — for every document of the shape of the data model
    [export_to_html] returns its text, and no statement of [export_to_pdf]
    or [export_to_docx] raises: there is a story, and there are paragraphs,
    such that the export returns them when the layout library accepts them
    and fails when it does not.  No input is checked before rendering:
    whatever the document, a PDF or DOCX export that does not return raises
    the generic [Exception] whose message starts with "PDF export failed: "
    or "DOCX export failed: ". *)
Theorem export_total_on_schema (d : value) :
  (schema_conforming d = true ->
   (exists html, export_to_html d = Ok html)
   /\ (exists story, forall reportlab,
         SimpleExportManager.export_to_pdf reportlab d =
           if reportlab story then SimpleExportManager.Returned story
           else SimpleExportManager.Failed "PDF export failed: ")
   /\ (exists doc, forall python_docx,
         SimpleExportManager.export_to_docx python_docx d =
           if python_docx doc then SimpleExportManager.Returned doc
           else SimpleExportManager.Failed "DOCX export failed: "))
  /\ (forall reportlab,
        (exists story,
           SimpleExportManager.export_to_pdf reportlab d
           = SimpleExportManager.Returned story)
        \/ SimpleExportManager.export_to_pdf reportlab d
           = SimpleExportManager.Failed "PDF export failed: ")
  /\ (forall python_docx,
        (exists doc,
           SimpleExportManager.export_to_docx python_docx d
           = SimpleExportManager.Returned doc)
        \/ SimpleExportManager.export_to_docx python_docx d
           = SimpleExportManager.Failed "DOCX export failed: ").
Proof.
  split; [|split].
  - intros H. destruct (conforming_document_built d H) as (Hp & Hd & Hh).
    apply is_ok_inv in Hp as (story & Hp), Hd as (doc & Hd), Hh as (html & Hh).
    split; [now exists html|]. split.
    + exists story. intros reportlab. now apply export_to_pdf_library.
    + exists doc. intros python_docx. now apply export_to_docx_library.
  - intros reportlab. unfold SimpleExportManager.export_to_pdf.
    destruct (Pdf.story d) as [story|e]; [|now right].
    destruct (reportlab story); [left; now exists story|now right].
  - intros python_docx. unfold SimpleExportManager.export_to_docx.
    destruct (Docx.document d) as [doc|e]; [|now right].
    destruct (python_docx doc); [left; now exists doc|now right].
Qed.

Lemma export_total_on_schema_witness :
  schema_conforming jane = true
  /\ (exists html, export_to_html jane = Ok html)
  /\ (exists story, forall reportlab,
        SimpleExportManager.export_to_pdf reportlab jane =
          if reportlab story then SimpleExportManager.Returned story
          else SimpleExportManager.Failed "PDF export failed: ")
  /\ (exists doc, forall python_docx,
        SimpleExportManager.export_to_docx python_docx jane =
          if python_docx doc then SimpleExportManager.Returned doc
          else SimpleExportManager.Failed "DOCX export failed: ").
Proof.
  assert (H : schema_conforming jane = true) by reflexivity.
  split; [exact H|]. exact (proj1 (export_total_on_schema jane) H).
Defined.

(** A document whose ["work_experience"] is [None] is not of the shape of
    the data model, and yet it is rendered by the three exporters, as if the
    field were absent.  One whose ["work_experience"] is a number makes them
    raise while rendering: a [TypeError] from the loop, wrapped by the PDF
    and DOCX exporters and as it is from the HTML one. *)
Lemma malformed_document_rendered :
  schema_conforming null_experience = false
  /\ export_to_pdf null_experience
     = Ok [Pdf.Paragraph (VStr "Jane Doe") Pdf.title_style; Pdf.Spacer 1 12]
  /\ is_ok (export_to_docx null_experience) = true
  /\ is_ok (export_to_html null_experience) = true
  /\ export_to_pdf numeric_experience
     = Raise (Exception "PDF export failed: " (Builtin TypeError))
  /\ export_to_docx numeric_experience
     = Raise (Exception "DOCX export failed: " (Builtin TypeError))
  /\ export_to_html numeric_experience = Raise (Builtin TypeError).
Proof. repeat split; vm_compute; reflexivity. Qed.

(** ** The exporters leave the objects of the document as they are *)

Module Frame.

Import Store.

Section Keeps.

Context (n : nat).

Lemma keeps_ret {A : Type} (post : A -> Prop) (x : A) : post x -> keeps n post (ret x).
Proof. intros Hx h Hn. simpl. repeat split; auto. now intros y [= <-]. Qed.

Lemma keeps_raise {A : Type} (post : A -> Prop) (e : exn) : keeps n post (raise e).
Proof. intros h Hn. simpl. repeat split; auto. discriminate. Qed.

Lemma keeps_bind {A B : Type} (P : A -> Prop) (Q : B -> Prop) (m : M A) (f : A -> M B) :
  keeps n P m -> (forall x, P x -> keeps n Q (f x)) -> keeps n Q (x <~ m ;; f x).
Proof.
  intros Hm Hf h Hn. unfold bind.
  destruct (Hm h Hn) as (Hlen & Hsame & Hpost).
  destruct (m h) as [[x|e] h']; simpl in *.
  - assert (Hn' : (n <= length h')%nat) by lia.
    destruct (Hf x (Hpost x eq_refl) h' Hn') as (Hlen' & Hsame' & Hpost').
    split; [lia|]. split; [|assumption].
    intros a Ha. now rewrite Hsame', Hsame.
  - repeat split; auto. discriminate.
Qed.

Lemma keeps_weaken {A : Type} (P Q : A -> Prop) (m : M A) :
  keeps n P m -> (forall x, P x -> Q x) -> keeps n Q m.
Proof.
  intros Hm HPQ h Hn. destruct (Hm h Hn) as (Hlen & Hsame & Hpost).
  repeat split; auto.
Qed.

Lemma keeps_try_wrap {A : Type} (post : A -> Prop) (prefix : string) (m : M A) :
  keeps n post m -> keeps n post (try_wrap prefix m).
Proof.
  intros Hm h Hn. destruct (Hm h Hn) as (Hlen & Hsame & Hpost). unfold try_wrap.
  destruct (m h) as [[x|e] h']; simpl in *; repeat split; auto. discriminate.
Qed.

(** A new object is put above the objects that were there. *)
Lemma keeps_alloc (o : object) : keeps n (fun a => (n <= a)%nat) (alloc o).
Proof.
  intros h Hn. unfold alloc. simpl. rewrite length_app. simpl.
  split; [lia|]. split.
  - intros a Ha. apply lookup_app_l. lia.
  - now intros x [= <-].
Qed.

Lemma keeps_read (a : addr) : keeps n (fun _ => True) (read a).
Proof.
  intros h Hn. unfold read. destruct (h !! a); simpl; repeat split; auto.
Qed.

(** A write at an address that is not below [n]. *)
Lemma keeps_write (a : addr) (o : object) :
  (n <= a)%nat -> keeps n (fun _ => True) (write a o).
Proof.
  intros Ha h Hn. unfold write. simpl. rewrite length_insert.
  split; [lia|]. split; [|auto].
  intros b Hb. apply list_lookup_insert_ne. lia.
Qed.

End Keeps.

Create HintDb keeps.

#[local] Hint Resolve keeps_raise keeps_read : keeps.
#[local] Hint Extern 1 (keeps _ _ (ret _)) => (apply keeps_ret; exact I) : keeps.
#[local] Hint Extern 1 (keeps _ _ (write _ _)) => (apply keeps_write; lia) : keeps.

(** One step through a computation: a bind, a branch, or a solved leaf. *)
Ltac keeps_go :=
  cbv beta zeta;
  lazymatch goal with
  | |- keeps _ _ (bind (alloc _) _) =>
      eapply keeps_bind; [apply keeps_alloc | intros ? ?; keeps_go]
  | |- keeps _ _ (bind (contact_info _) _) =>
      eapply keeps_bind; [solve [eauto with keeps] | intros ? ?; keeps_go]
  | |- keeps _ _ (bind _ _) =>
      apply keeps_bind with (P := fun _ => True); [keeps_go | intros ? _; keeps_go]
  | |- keeps _ _ (if ?b then _ else _) => destruct b; keeps_go
  | |- keeps _ _ (match ?x with _ => _ end) => destruct x; keeps_go
  | |- _ => first [ solve [eauto with keeps] | idtac ]
  end.

Section Operations.

Context (n : nat).

Lemma keeps_get (v : ref) (k : string) (dflt : ref) :
  keeps n (fun _ => True) (get v k dflt).
Proof. unfold get. keeps_go. Qed.

Lemma keeps_getitem (v : ref) (k : string) : keeps n (fun _ => True) (getitem v k).
Proof. unfold getitem. keeps_go. Qed.

Lemma keeps_truthy (v : ref) : keeps n (fun _ => True) (truthy v).
Proof. unfold truthy. keeps_go. Qed.

Lemma keeps_iter (v : ref) : keeps n (fun _ => True) (iter v).
Proof. unfold iter. keeps_go. Qed.

Lemma keeps_items (v : ref) : keeps n (fun _ => True) (items v).
Proof. unfold items. keeps_go. Qed.

Lemma keeps_str (v : ref) : keeps n (fun _ => True) (str v).
Proof. intros h Hn. unfold str. simpl. repeat split; auto. Qed.

Hint Resolve keeps_get keeps_getitem keeps_truthy keeps_iter keeps_items keeps_str : keeps.

Lemma keeps_join (sep : string) (v : ref) : keeps n (fun _ => True) (join sep v).
Proof. unfold join. keeps_go. Qed.

Lemma keeps_field (d : ref) (key : string) (dflt : ref) :
  keeps n (fun _ => True) (field d key dflt).
Proof. unfold field. keeps_go. Qed.

(** The three operations that change an object change one that is not
    below [n]. *)
Lemma keeps_append (l : addr) (x : ref) :
  (n <= l)%nat -> keeps n (fun _ => True) (append l x).
Proof. intros Hl. unfold append. keeps_go. Qed.

Lemma keeps_story_append (story : addr) (f : flowable) :
  (n <= story)%nat -> keeps n (fun _ => True) (story_append story f).
Proof. intros Hl. unfold story_append. keeps_go. Qed.

Lemma keeps_add_paragraph (doc : addr) (p : paragraph) :
  (n <= doc)%nat -> keeps n (fun _ => True) (add_paragraph doc p).
Proof. intros Hl. unfold add_paragraph. keeps_go. Qed.

Hint Resolve keeps_join keeps_field : keeps.
Hint Extern 1 (keeps _ _ (append _ _)) => (apply keeps_append; lia) : keeps.
Hint Extern 1 (keeps _ _ (story_append _ _)) => (apply keeps_story_append; lia) : keeps.
Hint Extern 1 (keeps _ _ (add_paragraph _ _)) => (apply keeps_add_paragraph; lia) : keeps.

Lemma keeps_for_each {A : Type} (body : A -> M unit) (l : list A) :
  (forall x, keeps n (fun _ => True) (body x)) ->
  keeps n (fun _ => True) (for_each body l).
Proof. intros Hbody. induction l as [|x l IH]; simpl; keeps_go. Qed.

Lemma keeps_for_each_text {A : Type} (body : A -> string -> M string) (l : list A)
    (html : string) :
  (forall x t, keeps n (fun _ => True) (body x t)) ->
  keeps n (fun _ => True) (for_each_text body l html).
Proof.
  intros Hbody. revert html. induction l as [|x l IH]; intros html; simpl; keeps_go.
Qed.

Lemma keeps_append_if_set (d : ref) (key : string) (contact_info : addr) :
  (n <= contact_info)%nat -> keeps n (fun _ => True) (append_if_set d key contact_info).
Proof. intros Hl. unfold append_if_set. keeps_go. Qed.

(** [contact_info] is a new list. *)
Lemma keeps_contact_info (personal : ref) :
  keeps n (fun a => (n <= a)%nat) (contact_info personal).
Proof.
  unfold contact_info. eapply keeps_bind; [apply keeps_alloc|]. intros a Ha.
  repeat (apply keeps_bind with (P := fun _ => True);
          [now apply keeps_append_if_set | intros _ _]).
  now apply keeps_ret.
Qed.

Lemma keeps_date_range (exp : ref) : keeps n (fun _ => True) (date_range exp).
Proof. unfold date_range. keeps_go. Qed.

Hint Resolve keeps_contact_info keeps_date_range : keeps.

Lemma keeps_add_text_paragraph (doc : addr) (text : ref) (style : option string)
    (alignment : option Docx.Alignment) :
  (n <= doc)%nat -> keeps n (fun _ => True) (add_text_paragraph doc text style alignment).
Proof. intros Hl. unfold add_text_paragraph. keeps_go. Qed.

Lemma keeps__add_section_heading (doc : addr) (title : string) :
  (n <= doc)%nat -> keeps n (fun _ => True) (_add_section_heading doc title).
Proof. intros Hl. unfold _add_section_heading. keeps_go. Qed.

Hint Extern 1 (keeps _ _ (add_text_paragraph _ _ _ _)) =>
  (apply keeps_add_text_paragraph; lia) : keeps.
Hint Extern 1 (keeps _ _ (_add_section_heading _ _)) =>
  (apply keeps__add_section_heading; lia) : keeps.

(** The same, with the loops: the body is gone through as well. *)
Ltac keeps_all :=
  keeps_go;
  repeat lazymatch goal with
    | |- keeps _ _ (for_each _ _) => apply keeps_for_each; intros; keeps_go
    | |- keeps _ _ (for_each_text _ _ _) => apply keeps_for_each_text; intros; keeps_go
    end.

(** The blocks of the PDF exporter write to [story] only. *)
Lemma keeps_pdf_header (story : addr) (personal : ref) :
  (n <= story)%nat -> keeps n (fun _ => True) (pdf_header story personal).
Proof. intros Hs. unfold pdf_header. keeps_all. Qed.

Lemma keeps_pdf_summary (story : addr) (resume_data : ref) :
  (n <= story)%nat -> keeps n (fun _ => True) (pdf_summary story resume_data).
Proof. intros Hs. unfold pdf_summary. keeps_all. Qed.

Lemma keeps_pdf_experience (story : addr) (exp : ref) :
  (n <= story)%nat -> keeps n (fun _ => True) (pdf_experience story exp).
Proof. intros Hs. unfold pdf_experience. keeps_all. Qed.

Lemma keeps_pdf_work_experience (story : addr) (resume_data : ref) :
  (n <= story)%nat -> keeps n (fun _ => True) (pdf_work_experience story resume_data).
Proof.
  intros Hs. unfold pdf_work_experience. keeps_all. now apply keeps_pdf_experience.
Qed.

Lemma keeps_pdf_education_entry (story : addr) (edu : ref) :
  (n <= story)%nat -> keeps n (fun _ => True) (pdf_education_entry story edu).
Proof. intros Hs. unfold pdf_education_entry. keeps_all. Qed.

Lemma keeps_pdf_education (story : addr) (resume_data : ref) :
  (n <= story)%nat -> keeps n (fun _ => True) (pdf_education story resume_data).
Proof.
  intros Hs. unfold pdf_education. keeps_all. now apply keeps_pdf_education_entry.
Qed.

Lemma keeps_pdf_skill_category (story : addr) (item : string * ref) :
  (n <= story)%nat -> keeps n (fun _ => True) (pdf_skill_category story item).
Proof. intros Hs. unfold pdf_skill_category. keeps_all. Qed.

Lemma keeps_pdf_skills (story : addr) (resume_data : ref) :
  (n <= story)%nat -> keeps n (fun _ => True) (pdf_skills story resume_data).
Proof.
  intros Hs. unfold pdf_skills. keeps_all. now apply keeps_pdf_skill_category.
Qed.

Lemma keeps_export_to_pdf (resume_data : ref) :
  keeps n (fun _ => True) (Store.export_to_pdf resume_data).
Proof.
  unfold Store.export_to_pdf. apply keeps_try_wrap.
  eapply keeps_bind; [apply keeps_alloc|]. intros story Hs.
  eapply keeps_bind; [apply keeps_alloc|]. intros dflt _.
  apply keeps_bind with (P := fun _ => True); [apply keeps_get|]. intros personal _.
  apply keeps_bind with (P := fun _ => True); [now apply keeps_pdf_header|]. intros _ _.
  apply keeps_bind with (P := fun _ => True); [now apply keeps_pdf_summary|]. intros _ _.
  apply keeps_bind with (P := fun _ => True); [now apply keeps_pdf_work_experience|].
  intros _ _.
  apply keeps_bind with (P := fun _ => True); [now apply keeps_pdf_education|]. intros _ _.
  apply keeps_bind with (P := fun _ => True); [now apply keeps_pdf_skills|]. intros _ _.
  keeps_all.
Qed.

(** The blocks of the DOCX exporter write to [doc] only. *)
Lemma keeps_docx_header (doc : addr) (personal : ref) :
  (n <= doc)%nat -> keeps n (fun _ => True) (docx_header doc personal).
Proof. intros Hs. unfold docx_header. keeps_all. Qed.

Lemma keeps_docx_summary (doc : addr) (resume_data : ref) :
  (n <= doc)%nat -> keeps n (fun _ => True) (docx_summary doc resume_data).
Proof. intros Hs. unfold docx_summary. keeps_all. Qed.

Lemma keeps_docx_experience (doc : addr) (exp : ref) :
  (n <= doc)%nat -> keeps n (fun _ => True) (docx_experience doc exp).
Proof. intros Hs. unfold docx_experience. keeps_all. Qed.

Lemma keeps_docx_work_experience (doc : addr) (resume_data : ref) :
  (n <= doc)%nat -> keeps n (fun _ => True) (docx_work_experience doc resume_data).
Proof.
  intros Hs. unfold docx_work_experience. keeps_all. now apply keeps_docx_experience.
Qed.

Lemma keeps_docx_education_entry (doc : addr) (edu : ref) :
  (n <= doc)%nat -> keeps n (fun _ => True) (docx_education_entry doc edu).
Proof. intros Hs. unfold docx_education_entry. keeps_all. Qed.

Lemma keeps_docx_education (doc : addr) (resume_data : ref) :
  (n <= doc)%nat -> keeps n (fun _ => True) (docx_education doc resume_data).
Proof.
  intros Hs. unfold docx_education. keeps_all. now apply keeps_docx_education_entry.
Qed.

Lemma keeps_docx_skill_category (doc : addr) (item : string * ref) :
  (n <= doc)%nat -> keeps n (fun _ => True) (docx_skill_category doc item).
Proof. intros Hs. unfold docx_skill_category. keeps_all. Qed.

Lemma keeps_docx_skills (doc : addr) (resume_data : ref) :
  (n <= doc)%nat -> keeps n (fun _ => True) (docx_skills doc resume_data).
Proof.
  intros Hs. unfold docx_skills. keeps_all. now apply keeps_docx_skill_category.
Qed.

Lemma keeps_export_to_docx (resume_data : ref) :
  keeps n (fun _ => True) (Store.export_to_docx resume_data).
Proof.
  unfold Store.export_to_docx. apply keeps_try_wrap.
  eapply keeps_bind; [apply keeps_alloc|]. intros doc Hs.
  eapply keeps_bind; [apply keeps_alloc|]. intros dflt _.
  apply keeps_bind with (P := fun _ => True); [apply keeps_get|]. intros personal _.
  apply keeps_bind with (P := fun _ => True); [now apply keeps_docx_header|]. intros _ _.
  apply keeps_bind with (P := fun _ => True); [now apply keeps_docx_summary|]. intros _ _.
  apply keeps_bind with (P := fun _ => True); [now apply keeps_docx_work_experience|].
  intros _ _.
  apply keeps_bind with (P := fun _ => True); [now apply keeps_docx_education|]. intros _ _.
  apply keeps_bind with (P := fun _ => True); [now apply keeps_docx_skills|]. intros _ _.
  keeps_all.
Qed.

(** The HTML exporter changes no object at all below [n]. *)
Lemma keeps_html_page_top (personal : ref) :
  keeps n (fun _ => True) (html_page_top personal).
Proof. unfold html_page_top. keeps_all. Qed.

Lemma keeps_html_links (personal : ref) (html : string) :
  keeps n (fun _ => True) (html_links personal html).
Proof. unfold html_links. keeps_all. Qed.

Lemma keeps_html_summary (resume_data : ref) (html : string) :
  keeps n (fun _ => True) (html_summary resume_data html).
Proof. unfold html_summary. keeps_all. Qed.

Lemma keeps_html_experience (exp : ref) (html : string) :
  keeps n (fun _ => True) (html_experience exp html).
Proof. unfold html_experience. keeps_all. Qed.

Lemma keeps_html_work_experience (resume_data : ref) (html : string) :
  keeps n (fun _ => True) (html_work_experience resume_data html).
Proof. unfold html_work_experience. keeps_all. apply keeps_html_experience. Qed.

Lemma keeps_html_education_entry (edu : ref) (html : string) :
  keeps n (fun _ => True) (html_education_entry edu html).
Proof. unfold html_education_entry. keeps_all. Qed.

Lemma keeps_html_education (resume_data : ref) (html : string) :
  keeps n (fun _ => True) (html_education resume_data html).
Proof. unfold html_education. keeps_all. apply keeps_html_education_entry. Qed.

Lemma keeps_html_skill_category (item : string * ref) (html : string) :
  keeps n (fun _ => True) (html_skill_category item html).
Proof. unfold html_skill_category. keeps_all. Qed.

Lemma keeps_html_skills (resume_data : ref) (html : string) :
  keeps n (fun _ => True) (html_skills resume_data html).
Proof. unfold html_skills. keeps_all. apply keeps_html_skill_category. Qed.

Lemma keeps_export_to_html (resume_data : ref) :
  keeps n (fun _ => True) (Store.export_to_html resume_data).
Proof.
  unfold Store.export_to_html.
  eapply keeps_bind; [apply keeps_alloc|]. intros dflt _.
  apply keeps_bind with (P := fun _ => True); [apply keeps_get|]. intros personal _.
  apply keeps_bind with (P := fun _ => True); [apply keeps_html_page_top|]. intros html _.
  apply keeps_bind with (P := fun _ => True); [apply keeps_html_links|]. intros html1 _.
  cbv zeta.
  apply keeps_bind with (P := fun _ => True); [apply keeps_html_summary|]. intros html2 _.
  apply keeps_bind with (P := fun _ => True); [apply keeps_html_work_experience|].
  intros html3 _.
  apply keeps_bind with (P := fun _ => True); [apply keeps_html_education|]. intros html4 _.
  apply keeps_bind with (P := fun _ => True); [apply keeps_html_skills|]. intros html5 _.
  now apply keeps_ret.
Qed.

End Operations.

End Frame.

(** C9 — none of the three exporters changes the document: every object
    that is in the store when the exporter is called (the dicts and lists of
    the document among them) is the same object, at the same address, when
    the exporter has returned or raised. *)
Theorem exporters_leave_document_unchanged
    (resume_data : Store.ref) (h : list Store.object) (a : Store.addr) (o : Store.object) :
  h !! a = Some o ->
  snd (Store.export_to_pdf resume_data h) !! a = Some o
  /\ snd (Store.export_to_docx resume_data h) !! a = Some o
  /\ snd (Store.export_to_html resume_data h) !! a = Some o.
Proof.
  intros Ha. assert (Hlt : (a < length h)%nat) by (now apply lookup_lt_Some in Ha).
  destruct (Frame.keeps_export_to_pdf (length h) resume_data h (Nat.le_refl _))
    as (_ & Hpdf & _).
  destruct (Frame.keeps_export_to_docx (length h) resume_data h (Nat.le_refl _))
    as (_ & Hdocx & _).
  destruct (Frame.keeps_export_to_html (length h) resume_data h (Nat.le_refl _))
    as (_ & Hhtml & _).
  now rewrite Hpdf, Hdocx, Hhtml.
Qed.

Lemma exporters_leave_document_unchanged_witness :
  let resume_data := fst (Store.load jane []) in
  let h := snd (Store.load jane []) in
  let o := Store.ODict [("full_name", Store.RStr "Jane Doe"); ("email", Store.RStr "jane@x.com")] in
  h !! 0%nat = Some o
  /\ snd (Store.export_to_pdf resume_data h) !! 0%nat = Some o
  /\ snd (Store.export_to_docx resume_data h) !! 0%nat = Some o
  /\ snd (Store.export_to_html resume_data h) !! 0%nat = Some o.
Proof.
  intros resume_data h o.
  assert (H0 : h !! 0%nat = Some o) by reflexivity.
  split; [exact H0|].
  exact (exporters_leave_document_unchanged resume_data h 0%nat o H0).
Defined.

(** The value of the document, read through the store, is the same after
    the call as before, the store being closed. *)
Lemma snapshot_unchanged (h h' : list Store.object) :
  Store.closed h ->
  (forall a, (a < length h)%nat -> h' !! a = h !! a) ->
  forall depth v, Store.ref_in h v -> Store.snapshot depth h' v = Store.snapshot depth h v.
Proof.
  intros Hclosed Hsame depth. induction depth as [|depth IH]; intros v Hv.
  - now destruct v.
  - destruct v as [| | | |a]; try reflexivity. simpl in Hv. cbn [Store.snapshot].
    rewrite (Hsame a Hv). destruct (h !! a) as [o|] eqn:Ho; [|reflexivity].
    pose proof (Forall_lookup_1 _ _ _ _ Hclosed Ho) as Hin.
    destruct o as [l|d| |]; try reflexivity; simpl in Hin.
    + f_equal. apply map_ext_in. intros x Hx. apply IH.
      rewrite List.Forall_forall in Hin. now apply Hin.
    + f_equal. apply map_ext_in. intros [k x] Hx. simpl. f_equal. apply IH.
      rewrite List.Forall_forall in Hin. now apply (Hin (k, x)).
Qed.

Lemma document_value_unchanged
    (resume_data : Store.ref) (h : list Store.object) (depth : nat) :
  Store.closed h -> Store.ref_in h resume_data ->
  Store.snapshot depth (snd (Store.export_to_pdf resume_data h)) resume_data
    = Store.snapshot depth h resume_data
  /\ Store.snapshot depth (snd (Store.export_to_docx resume_data h)) resume_data
    = Store.snapshot depth h resume_data
  /\ Store.snapshot depth (snd (Store.export_to_html resume_data h)) resume_data
    = Store.snapshot depth h resume_data.
Proof.
  intros Hclosed Hin.
  destruct (Frame.keeps_export_to_pdf (length h) resume_data h (Nat.le_refl _))
    as (_ & Hpdf & _).
  destruct (Frame.keeps_export_to_docx (length h) resume_data h (Nat.le_refl _))
    as (_ & Hdocx & _).
  destruct (Frame.keeps_export_to_html (length h) resume_data h (Nat.le_refl _))
    as (_ & Hhtml & _).
  repeat split; now apply snapshot_unchanged.
Qed.

(** On the example documents the exporters over the store give what the
    exporters over values give. *)
Lemma store_agrees_on_examples :
  Forall (fun d => Store.run_pdf d = export_to_pdf d
                   /\ Store.run_docx d = export_to_docx d
                   /\ Store.run_html d = export_to_html d)
    [jane; jane_current; name_only; email_only; script_name; located; degree_only;
     VDict tools_fields; VDict empty_categories_fields; null_experience;
     numeric_experience].
Proof. repeat constructor; vm_compute; reflexivity. Qed.

(** ** The operations over the store and over values agree *)

Module Agreement.

Import Store.

Lemma value_ind' (P : value -> Prop) :
  P VNone -> (forall b, P (VBool b)) -> (forall z, P (VInt z)) -> (forall s, P (VStr s)) ->
  (forall l, Forall P l -> P (VList l)) ->
  (forall d, Forall (fun kv => P (snd kv)) d -> P (VDict d)) ->
  forall v, P v.
Proof.
  intros Hnone Hbool Hint Hstr Hlist Hdict. fix IH 1.
  intros [|b|z|s|l|d]; [exact Hnone|apply Hbool|apply Hint|apply Hstr| |].
  - apply Hlist. induction l as [|x l IHl]; constructor; [apply IH|exact IHl].
  - apply Hdict. induction d as [|[k x] d IHd]; constructor; [apply IH|exact IHd].
Qed.

Lemma Forall2_impl_Forall {A B : Type} (P : A -> Prop) (R S : A -> B -> Prop)
    (l : list A) (k : list B) :
  Forall P l -> Forall2 R l k -> (forall x y, P x -> R x y -> S x y) -> Forall2 S l k.
Proof.
  intros HP HR Himp. induction HR as [|x y l k Hxy _ IH]; constructor.
  - inversion HP; subst. auto.
  - inversion HP; subst. auto.
Qed.

Section Operations.

Context (h : list object).

Lemma lookup_entry_rep (a : addr) (d : list (string * value)) (es : list (string * ref))
    (k : string) :
  Forall2 (fun kv e => fst kv = fst e /\ rep h (snd kv) (snd e) /\ below a (snd e)) d es ->
  match dict_lookup k d, lookup_entry k es with
  | Some v, Some r => rep h v r
  | None, None => True
  | _, _ => False
  end.
Proof.
  induction 1 as [|[k1 v] [k2 r] d es (Hk & Hr & _) _ IH]; simpl; [exact I|].
  simpl in Hk. subst k2. now destruct (String.eqb k k1).
Qed.

(** [get] *)
Lemma get_agrees (v dv : value) (r dr : ref) (k : string) :
  rep h v r -> rep h dv dr ->
  exists res, get r k dr h = (res, h) /\ agree (rep h) (Py.get v k dv) res.
Proof.
  intros Hv Hd. destruct Hv as [| | | |a rs vs Ha Hall|a es d Ha Hall];
    try (eexists; split; reflexivity).
  - eexists. split; [unfold get, bind, read; rewrite Ha; reflexivity|reflexivity].
  - eexists. split; [unfold get, bind, read; rewrite Ha; reflexivity|].
    unfold Py.get, dict_get. simpl.
    pose proof (lookup_entry_rep a d es k Hall) as Hk.
    destruct (dict_lookup k d), (lookup_entry k es); try contradiction; assumption.
Qed.

(** [v[k]] *)
Lemma getitem_agrees (v : value) (r : ref) (k : string) :
  rep h v r ->
  exists res, getitem r k h = (res, h) /\ agree (rep h) (Py.getitem v k) res.
Proof.
  intros Hv. destruct Hv as [| | | |a rs vs Ha Hall|a es d Ha Hall];
    try (eexists; split; reflexivity).
  - eexists. split; [unfold getitem, bind, read; rewrite Ha; reflexivity|reflexivity].
  - pose proof (lookup_entry_rep a d es k Hall) as Hk.
    unfold getitem, Py.getitem, bind, read. rewrite Ha.
    destruct (dict_lookup k d), (lookup_entry k es); try contradiction;
      eexists; (split; [reflexivity|]); simpl; auto.
Qed.

(** [bool(v)] *)
Lemma truthy_agrees (v : value) (r : ref) :
  rep h v r -> truthy r h = (Ok (Py.truthy v), h).
Proof.
  intros Hv. destruct Hv as [| | | |a rs vs Ha Hall|a es d Ha Hall]; try reflexivity.
  - unfold truthy, bind, read. rewrite Ha. now destruct Hall.
  - unfold truthy, bind, read. rewrite Ha. now destruct Hall.
Qed.

(** [for x in v] *)
Lemma iter_agrees (v : value) (r : ref) :
  rep h v r ->
  exists res, iter r h = (res, h) /\ agree (Forall2 (rep h)) (Py.iter v) res.
Proof.
  intros Hv. destruct Hv as [| | |s|a rs vs Ha Hall|a es d Ha Hall];
    try (eexists; split; reflexivity).
  - eexists. split; [reflexivity|]. simpl.
    induction (chars s); constructor; [constructor|assumption].
  - eexists. split; [unfold iter, bind, read; rewrite Ha; reflexivity|]. simpl.
    clear Ha. induction Hall as [|x y vs rs (Hx & _) _ IH]; constructor; assumption.
  - eexists. split; [unfold iter, bind, read; rewrite Ha; reflexivity|]. simpl.
    clear Ha. induction Hall as [|[k1 x] [k2 y] d es (Hk & _) _ IH]; constructor;
      [|assumption].
    simpl in *. subst k2. constructor.
Qed.

(** [v.items()] *)
Lemma items_agrees (v : value) (r : ref) :
  rep h v r ->
  exists res,
    items r h = (res, h) /\
    agree (Forall2 (fun kv e => fst kv = fst e /\ rep h (snd kv) (snd e))) (Py.items v) res.
Proof.
  intros Hv. destruct Hv as [| | |s|a rs vs Ha Hall|a es d Ha Hall];
    try (eexists; split; reflexivity).
  - eexists. split; [unfold items, bind, read; rewrite Ha; reflexivity|reflexivity].
  - eexists. split; [unfold items, bind, read; rewrite Ha; reflexivity|]. simpl.
    clear Ha. induction Hall as [|kv e d es (Hk & Hr & _) _ IH]; constructor; auto.
Qed.

(** Reading a reference through the store gives the value it stands for. *)
Lemma snapshot_rep (v : value) :
  forall (r : ref) (depth : nat),
    rep h v r -> below depth r -> snapshot depth h r = v.
Proof.
  induction v as [|b|z|s|l IH|d IH] using value_ind'; intros r depth Hr Hd;
    inversion Hr; subst; try (destruct depth; reflexivity).
  - simpl in Hd. destruct depth as [|depth]; [lia|]. cbn [snapshot].
    match goal with H : h !! _ = Some _ |- _ => rewrite H; clear H end. f_equal.
    match goal with H : Forall2 _ l _ |- _ => rename H into Hall end.
    clear Hr. induction Hall as [|x y vs rs (Hx & Hy) _ IHall]; [reflexivity|].
    inversion IH; subst. simpl. f_equal; [|now apply IHall].
    match goal with H : forall r depth, _ -> _ -> snapshot depth h r = x |- _ =>
      apply H; [assumption|] end.
    destruct y; simpl in *; auto; lia.
  - simpl in Hd. destruct depth as [|depth]; [lia|]. cbn [snapshot].
    match goal with H : h !! _ = Some _ |- _ => rewrite H; clear H end. f_equal.
    match goal with H : Forall2 _ d _ |- _ => rename H into Hall end.
    clear Hr. induction Hall as [|[k1 x] [k2 y] vs rs (Hk & Hx & Hy) _ IHall]; [reflexivity|].
    inversion IH; subst. simpl in *. subst k2. f_equal; [|now apply IHall].
    f_equal.
    match goal with H : forall r depth, _ -> _ -> snapshot depth h r = x |- _ =>
      apply H; [assumption|] end.
    destruct y; simpl in *; auto; lia.
Qed.

Lemma rep_in_store (v : value) (r : ref) : rep h v r -> below (length h) r.
Proof.
  intros Hr. destruct Hr; simpl; auto;
    match goal with H : h !! _ = Some _ |- _ => now apply lookup_lt_Some in H end.
Qed.

(** [str(v)] *)
Lemma str_agrees (v : value) (r : ref) :
  rep h v r -> str r h = (Ok (Py.str v), h).
Proof.
  intros Hr. unfold str. now rewrite (snapshot_rep v r (length h) Hr (rep_in_store v r Hr)).
Qed.

Lemma join_items_agrees (sep : string) (vs : list value) (rs : list ref) :
  Forall2 (rep h) vs rs -> agree eq (join_list sep vs) (join_items sep rs).
Proof.
  induction 1 as [|v r vs rs Hr Hall IH]; [reflexivity|].
  destruct Hr; simpl; try reflexivity.
  destruct Hall as [|v' r' vs rs Hr' Hall]; [reflexivity|].
  destruct (join_list sep (v' :: vs)), (join_items sep (r' :: rs)); simpl in *;
    try contradiction; congruence.
Qed.

(** [sep.join(v)] *)
Lemma join_agrees (sep : string) (v : value) (r : ref) :
  rep h v r ->
  exists res, join sep r h = (res, h) /\ agree eq (Py.join sep v) res.
Proof.
  intros Hr. destruct (iter_agrees v r Hr) as (res & Hres & Hag).
  unfold join, Py.join, bind. rewrite Hres.
  destruct (Py.iter v) as [vs|e], res as [rs|e']; simpl in Hag; try contradiction.
  - pose proof (join_items_agrees sep vs rs Hag) as Hj. cbn [Py.bind].
    destruct (join_list sep vs), (join_items sep rs); simpl in Hj; try contradiction;
      eexists; (split; [reflexivity|]); simpl; auto.
  - eexists. split; [reflexivity|]. simpl. assumption.
Qed.

End Operations.

(** What a reference stands for is the same in a store that keeps the
    objects of the first one. *)
Lemma rep_extends (h h' : list object) (v : value) :
  (forall a o, h !! a = Some o -> h' !! a = Some o) ->
  forall r, rep h v r -> rep h' v r.
Proof.
  intros Hext. induction v as [|b|z|s|l IH|d IH] using value_ind'; intros r Hr;
    inversion Hr; subst; try constructor.
  - econstructor; [eauto|].
    eapply Forall2_impl_Forall; [exact IH|eassumption|].
    intros x y Hx (Hxy & Hy). auto.
  - econstructor; [eauto|].
    eapply Forall2_impl_Forall; [exact IH|eassumption|].
    intros x y Hx (Hk & Hxy & Hy). auto.
Qed.

Lemma extends_refl (h : list object) : extends h h.
Proof. intros a o H. exact H. Qed.

Lemma extends_trans (h1 h2 h3 : list object) :
  extends h1 h2 -> extends h2 h3 -> extends h1 h3.
Proof. intros H12 H23 a o H. auto. Qed.

Lemma extends_app (h : list object) (o : list object) : extends h (h ++ o).
Proof. intros a x H. now apply lookup_app_l_Some. Qed.

Lemma extends_length (h h' : list object) : extends h h' -> (length h <= length h')%nat.
Proof.
  intros Hext. destruct (Nat.le_gt_cases (length h) (length h')) as [|Hlt]; [assumption|].
  destruct (lookup_lt_is_Some_2 h (length h')) as [o Ho]; [lia|].
  apply Hext, lookup_lt_Some in Ho. lia.
Qed.

Lemma below_le (a b : addr) (r : ref) : below a r -> (a <= b)%nat -> below b r.
Proof. destruct r; simpl; auto. lia. Qed.

Lemma Forall2_rep_below (h h' : list object) (n : nat)
    (vs : list value) (rs : list ref) :
  extends h h' -> Forall2 (rep h) vs rs -> Forall (below n) rs ->
  Forall2 (fun v r => rep h' v r /\ below n r) vs rs.
Proof.
  intros Hext Hr. induction Hr as [|x y vs rs Hxy _ IH]; intros Hb; constructor.
  - inversion Hb; subst. split; [|assumption]. now apply (rep_extends h h').
  - inversion Hb; subst. auto.
Qed.

Lemma Forall2_rep_entries_below (h h' : list object) (n : nat)
    (d : list (string * value)) (es : list (string * ref)) :
  extends h h' ->
  Forall2 (fun kv e => fst kv = fst e /\ rep h (snd kv) (snd e)) d es ->
  Forall (fun e => below n (snd e)) es ->
  Forall2 (fun kv e => fst kv = fst e /\ rep h' (snd kv) (snd e) /\ below n (snd e)) d es.
Proof.
  intros Hext Hr. induction Hr as [|x y vs rs (Hk & Hxy) _ IH]; intros Hb; constructor.
  - inversion Hb; subst. split; [assumption|]. split; [|assumption].
    now apply (rep_extends h h').
  - inversion Hb; subst. auto.
Qed.

(** [load] gives a reference that stands for the value loaded, and keeps
    the objects that were in the store. *)
Lemma load_rep (v : value) :
  forall h : list object,
    rep (snd (load v h)) v (fst (load v h))
    /\ extends h (snd (load v h))
    /\ below (length (snd (load v h))) (fst (load v h)).
Proof.
  induction v as [|b|z|s|l IH|d IH] using value_ind'; intros h;
    try (split; [constructor|split; [apply extends_refl|exact I]]).
  - assert (Hall : forall h, Forall2 (rep (snd (load_all load l h))) l (fst (load_all load l h))
                     /\ extends h (snd (load_all load l h))
                     /\ Forall (below (length (snd (load_all load l h))))
                          (fst (load_all load l h))).
    { clear h. induction l as [|x l IHl]; intros h.
      - simpl. split; [constructor|]. split; [apply extends_refl|constructor].
      - inversion IH as [|? ? Hx Hl]; subst. specialize (IHl Hl).
        simpl. destruct (Hx h) as (Hrx & Hex & Hbx).
        destruct (load x h) as [r h1]. simpl in *.
        destruct (IHl h1) as (Hrl & Hel & Hbl).
        destruct (load_all load l h1) as [rs h2]. simpl in *.
        split; [|split].
        + constructor; [|assumption]. now apply (rep_extends h1 h2).
        + now apply (extends_trans h h1 h2).
        + constructor; [|assumption].
          apply (below_le (length h1)); [assumption|]. now apply extends_length. }
    specialize (Hall h). cbn [load].
    destruct (load_all load l h) as [rs h1]. simpl in *.
    destruct Hall as (Hr & He & Hb). rewrite length_app. simpl.
    split; [|split; [|lia]].
    + apply (rep_list _ (length h1) rs); [now apply list_lookup_middle|].
      eapply Forall2_rep_below; [apply extends_app|eassumption|assumption].
    + eapply extends_trans; [eassumption|apply extends_app].
  - assert (Hall : forall h,
              Forall2 (fun kv e => fst kv = fst e /\
                                   rep (snd (load_entries load d h)) (snd kv) (snd e))
                d (fst (load_entries load d h))
              /\ extends h (snd (load_entries load d h))
              /\ Forall (fun e => below (length (snd (load_entries load d h))) (snd e))
                   (fst (load_entries load d h))).
    { clear h. induction d as [|[k x] d IHd]; intros h.
      - simpl. split; [constructor|]. split; [apply extends_refl|constructor].
      - inversion IH as [|? ? Hx Hl]; subst. specialize (IHd Hl).
        simpl in Hx. simpl. destruct (Hx h) as (Hrx & Hex & Hbx).
        destruct (load x h) as [r h1]. simpl in *.
        destruct (IHd h1) as (Hrl & Hel & Hbl).
        destruct (load_entries load d h1) as [rs h2]. simpl in *.
        split; [|split].
        + constructor; [|assumption]. split; [reflexivity|].
          now apply (rep_extends h1 h2).
        + now apply (extends_trans h h1 h2).
        + constructor; [|assumption]. simpl.
          apply (below_le (length h1)); [assumption|]. now apply extends_length. }
    specialize (Hall h). cbn [load].
    destruct (load_entries load d h) as [es h1]. simpl in *.
    destruct Hall as (Hr & He & Hb). rewrite length_app. simpl.
    split; [|split; [|lia]].
    + apply (rep_dict _ (length h1) es); [now apply list_lookup_middle|].
      eapply Forall2_rep_entries_below; [apply extends_app|eassumption|assumption].
    + eapply extends_trans; [eassumption|apply extends_app].
Qed.

(** The store image of a value, read back, is the value. *)
Lemma load_snapshot (v : value) :
  snapshot (length (snd (load v []))) (snd (load v [])) (fst (load v [])) = v.
Proof.
  destruct (load_rep v []) as (Hrep & _ & Hbelow). now apply snapshot_rep.
Qed.

End Agreement.

(** * The accounts of [UserManager] *)

Lemma getitem_dict (d : list (string * value)) (k : string) (v : value) :
  dict_lookup k d = Some v -> getitem (VDict d) k = Ok v.
Proof. intros H. unfold getitem. now rewrite H. Qed.

Lemma dict_set_set (k : string) (x y : value) (d : list (string * value)) :
  dict_set k x (dict_set k y d) = dict_set k x d.
Proof.
  induction d as [|[k' z] d IH]; simpl.
  - now rewrite String.eqb_refl.
  - destruct (String.eqb k k') eqn:E; simpl; rewrite E; [reflexivity|now rewrite IH].
Qed.

Lemma keys_dict_set (k : string) (x : value) (d : list (string * value)) :
  map fst (dict_set k x d)
  = if existsb (String.eqb k) (map fst d) then map fst d else map fst d ++ [k].
Proof.
  induction d as [|[k' z] d IH]; simpl; [reflexivity|].
  destruct (String.eqb k k') eqn:E; simpl; [reflexivity|].
  rewrite IH. now destruct (existsb (String.eqb k) (map fst d)).
Qed.

Lemma lookup_some_ne (k k' : string) (d : list (string * value)) (v : value) :
  dict_lookup k d = None -> dict_lookup k' d = Some v -> String.eqb k' k = false.
Proof.
  intros Hk Hk'. destruct (String.eqb k' k) eqn:E; [|reflexivity].
  apply String.eqb_eq in E. subst k'. congruence.
Qed.

Section Accounts.

Import Builtins UserManager.

Variable sha256_hexdigest : string -> string.

(** X1 — register_user followed by login_user: when the users file can be
    written and the name is not taken, the registration succeeds, and a
    login with that name then succeeds exactly for the passwords whose
    digest is that of the registered password (the registered password
    among them). *)
Theorem login_after_register (username password email now attempt : string)
    (s : state) (users : list (string * value)) :
  writable s = true ->
  load_users s = VDict users ->
  dict_lookup username users = None ->
  exists s',
    register_user sha256_hexdigest username password email now s
      = (Ok (true, "Registration successful"), s') /\
    (fst (login_user sha256_hexdigest username attempt s')
       = Ok (true, "Login successful")
     <-> sha256_hexdigest attempt = sha256_hexdigest password).
Proof.
  intros Hw Hload Hfree. unfold register_user. rewrite Hload. cbn [is_in setitem].
  rewrite Hfree. eexists. split; [reflexivity|].
  unfold login_user, save_users. rewrite Hw. cbn [load_users users_json is_in].
  rewrite dict_lookup_set_eq. cbn [bind].
  rewrite (getitem_dict _ _ _ (dict_lookup_set_eq _ _ _)). cbn [bind].
  rewrite (getitem_dict _ "password" (VStr (hash_password sha256_hexdigest password)))
    by reflexivity.
  cbn [bind eq_str]. unfold hash_password.
  destruct (String.eqb (sha256_hexdigest password) (sha256_hexdigest attempt)) eqn:E.
  - apply String.eqb_eq in E. now split.
  - apply String.eqb_neq in E. split; [discriminate|congruence].
Qed.

(** X2 — register_user never changes or removes an account that exists: the
    entry of every name already in the users file is the same afterwards,
    whether the registration succeeds, is refused or raises. *)
Theorem register_keeps_accounts (username password email now other : string)
    (s : state) (entry : value) :
  account other s = Some entry ->
  account other (snd (register_user sha256_hexdigest username password email now s))
    = Some entry.
Proof.
  unfold account, register_user. intros H.
  destruct (load_users s) as [| | | | |users] eqn:Hload; try discriminate.
  cbn [is_in setitem]. destruct (dict_lookup username users) eqn:Hname.
  - cbn [snd]. now rewrite Hload.
  - cbn [snd]. unfold save_users. destruct (writable s).
    + cbn [load_users users_json].
      rewrite dict_lookup_set_ne; [assumption|]. eapply lookup_some_ne; eassumption.
    + now rewrite Hload.
Qed.

(** X3 — when the users file cannot be written, register_user still answers
    "Registration successful", nothing is stored, and the account cannot
    log in. *)
Theorem register_unwritable (username password email now : string)
    (s : state) (users : list (string * value)) :
  writable s = false ->
  load_users s = VDict users ->
  dict_lookup username users = None ->
  register_user sha256_hexdigest username password email now s
    = (Ok (true, "Registration successful"), s) /\
  login_user sha256_hexdigest username password s
    = (Ok (false, "Invalid credentials"), s).
Proof.
  intros Hw Hload Hfree. unfold register_user, login_user, save_users.
  rewrite Hload, Hw. cbn [is_in setitem]. now rewrite Hfree.
Qed.

(** X4 — a users file that holds JSON which is not an object (an array, a
    text, a number, null): no method of the manager succeeds and none
    writes the file; each one answers with its refusal or raises. *)
Theorem users_file_not_an_object (username password email now resume_name : string)
    (resume_data content : value) (s : state) :
  users_json s = Some content ->
  (forall users, content <> VDict users) ->
  (snd (register_user sha256_hexdigest username password email now s) = s /\
   fst (register_user sha256_hexdigest username password email now s)
     <> Ok (true, "Registration successful")) /\
  (snd (login_user sha256_hexdigest username password s) = s /\
   fst (login_user sha256_hexdigest username password s)
     <> Ok (true, "Login successful")) /\
  (snd (save_user_resume username resume_data resume_name now s) = s /\
   fst (save_user_resume username resume_data resume_name now s) <> Ok true).
Proof.
  intros Hfile Hshape.
  unfold register_user, login_user, save_user_resume, load_users. rewrite Hfile.
  destruct content as [| | |t|l|users]; cbn [is_in bind setitem];
    try (repeat split; discriminate).
  - destruct (contains username t); cbn [bind];
      repeat split; try reflexivity; discriminate.
  - destruct (existsb (eq_str username) l); cbn [bind];
      repeat split; try reflexivity; discriminate.
  - now destruct (Hshape users).
Qed.

End Accounts.

Section Resumes.

Import Builtins UserManager.

Variables (username resume_name now : string) (resume_data : value).
Variables (s : state) (users user : list (string * value)).

Hypothesis Hload : load_users s = VDict users.
Hypothesis Huser : dict_lookup username users = Some (VDict user).
Hypothesis Hresumes : resumes_ok user.

Lemma resumes_of_read :
  (has <- is_in "resumes" (VDict user) ;;
   user' <- (if has then Ok (VDict user)
             else setitem (VDict user) "resumes" (VDict [])) ;;
   getitem user' "resumes")
  = Ok (VDict (resumes_of user)).
Proof.
  unfold resumes_of. destruct Hresumes as [H|[saved H]]; cbn [is_in bind]; rewrite H.
  - cbn [setitem bind]. apply getitem_dict. apply dict_lookup_set_eq.
  - cbn [bind]. now apply getitem_dict.
Qed.

Lemma save_user_resume_users :
  save_user_resume username resume_data resume_name now s
  = (Ok true,
     save_users
       (VDict (dict_set username
                 (VDict (dict_set "resumes"
                           (VDict (dict_set resume_name
                                     (VDict [("data", resume_data);
                                             ("last_updated", VStr now)])
                                     (resumes_of user)))
                           user))
                 users)) s).
Proof.
  unfold save_user_resume. rewrite Hload. cbn [is_in]. rewrite Huser. cbn [bind].
  rewrite (getitem_dict _ _ _ Huser). cbn [bind].
  unfold resumes_of. destruct Hresumes as [H|[saved H]]; cbn [is_in bind]; rewrite H.
  - cbn [setitem bind]. rewrite (getitem_dict _ _ _ (dict_lookup_set_eq _ _ _)).
    cbn [bind setitem]. now rewrite dict_set_set.
  - cbn [bind]. rewrite (getitem_dict _ _ _ H). reflexivity.
Qed.

End Resumes.

Section SavedResumes.

Import Builtins UserManager.

(** X5 — save_user_resume followed by load_user_resume: for a registered
    account and a writable users file the résumé is saved, and loading it
    under the same name gives back the data that was saved. *)
Theorem save_then_load_resume (username resume_name now : string) (resume_data : value)
    (s : state) (users user : list (string * value)) :
  writable s = true ->
  load_users s = VDict users ->
  dict_lookup username users = Some (VDict user) ->
  resumes_ok user ->
  exists s',
    save_user_resume username resume_data resume_name now s = (Ok true, s') /\
    load_user_resume username resume_name s' = Ok resume_data.
Proof.
  intros Hw Hload Huser Hres. eexists. split.
  - apply save_user_resume_users; eassumption.
  - unfold load_user_resume, save_users. rewrite Hw.
    cbn [load_users users_json is_in]. rewrite dict_lookup_set_eq. cbn [bind].
    rewrite (getitem_dict _ _ _ (dict_lookup_set_eq _ _ _)). cbn [bind is_in].
    rewrite dict_lookup_set_eq. cbn [bind].
    rewrite (getitem_dict _ _ _ (dict_lookup_set_eq _ _ _)). cbn [bind is_in].
    rewrite dict_lookup_set_eq. cbn [bind].
    rewrite (getitem_dict _ _ _ (dict_lookup_set_eq _ _ _)). cbn [bind].
    now apply getitem_dict.
Qed.

(** X6 — save_user_resume changes one résumé of one account: the résumés
    saved under other names load as before, the entries of the other
    accounts are the same, and every login answers as before. *)
Theorem save_resume_keeps_the_rest (sha256_hexdigest : string -> string)
    (username resume_name now : string) (resume_data : value)
    (s : state) (users user : list (string * value)) :
  load_users s = VDict users ->
  dict_lookup username users = Some (VDict user) ->
  resumes_ok user ->
  let s' := snd (save_user_resume username resume_data resume_name now s) in
  (forall name, name <> resume_name ->
     load_user_resume username name s' = load_user_resume username name s) /\
  (forall other, other <> username -> account other s' = account other s) /\
  (forall name password,
     fst (login_user sha256_hexdigest name password s')
     = fst (login_user sha256_hexdigest name password s)).
Proof.
  intros Hload Huser Hres s'. subst s'.
  rewrite (save_user_resume_users username resume_name now resume_data s users user)
    by assumption.
  cbn [snd]. unfold save_users. destruct (writable s); [|now repeat split].
  set (entry := VDict [("data", resume_data); ("last_updated", VStr now)]).
  split; [|split].
  - intros name Hname. apply String.eqb_neq in Hname.
    unfold load_user_resume. rewrite Hload.
    cbn [load_users users_json is_in]. rewrite dict_lookup_set_eq, Huser. cbn [bind].
    rewrite (getitem_dict _ _ _ (dict_lookup_set_eq _ _ _)), (getitem_dict _ _ _ Huser).
    cbn [bind is_in]. rewrite dict_lookup_set_eq. cbn [bind].
    rewrite (getitem_dict _ _ _ (dict_lookup_set_eq _ _ _)). cbn [bind is_in].
    rewrite dict_lookup_set_ne by assumption.
    unfold resumes_of. destruct Hres as [H|[saved H]]; rewrite H; cbn [bind].
    + reflexivity.
    + rewrite (getitem_dict _ _ _ H). cbn [bind is_in].
      destruct (dict_lookup name saved) eqn:Hsaved; cbn [bind]; [|reflexivity].
      unfold getitem at 1. rewrite dict_lookup_set_ne by assumption.
      unfold getitem at 2. now rewrite Hsaved.
  - intros other Hother. apply String.eqb_neq in Hother.
    unfold account. rewrite Hload. cbn [load_users users_json].
    now apply dict_lookup_set_ne.
  - intros name password. unfold login_user. rewrite Hload.
    cbn [load_users users_json is_in].
    destruct (String.eqb name username) eqn:E.
    + apply String.eqb_eq in E. subst name.
      rewrite dict_lookup_set_eq, Huser. cbn [bind].
      rewrite (getitem_dict _ _ _ (dict_lookup_set_eq _ _ _)), (getitem_dict _ _ _ Huser).
      cbn [bind]. unfold getitem.
      rewrite (dict_lookup_set_ne "resumes" "password") by reflexivity.
      destruct (dict_lookup "password" user); cbn [bind]; [|reflexivity].
      now destruct (eq_str _ _).
    + rewrite dict_lookup_set_ne by assumption.
      destruct (dict_lookup name users) eqn:Hn; cbn [bind]; [|reflexivity].
      unfold getitem at 1 3. rewrite dict_lookup_set_ne by assumption. rewrite Hn.
      cbn [bind]. destruct (getitem v "password"); cbn [bind]; [|reflexivity].
      now destruct (eq_str _ _).
Qed.

(** X7 — the names listed by get_user_resumes after save_user_resume: a
    name that was listed keeps its place and is not listed twice, a new
    name comes last. *)
Theorem resume_names_after_save (username resume_name now : string) (resume_data : value)
    (s : state) (users user : list (string * value)) :
  writable s = true ->
  load_users s = VDict users ->
  dict_lookup username users = Some (VDict user) ->
  resumes_ok user ->
  exists names,
    get_user_resumes username s = Ok names /\
    get_user_resumes username
      (snd (save_user_resume username resume_data resume_name now s))
    = Ok (if existsb (String.eqb resume_name) names then names
          else names ++ [resume_name]).
Proof.
  intros Hw Hload Huser Hres. exists (map fst (resumes_of user)). split.
  - unfold get_user_resumes. rewrite Hload. cbn [is_in]. rewrite Huser. cbn [bind].
    rewrite (getitem_dict _ _ _ Huser). cbn [bind is_in].
    unfold resumes_of. destruct Hres as [H|[saved H]]; rewrite H; cbn [bind].
    + reflexivity.
    + now rewrite (getitem_dict _ _ _ H).
  - rewrite (save_user_resume_users username resume_name now resume_data s users user)
      by assumption.
    cbn [snd]. unfold save_users. rewrite Hw.
    unfold get_user_resumes.
    cbn [load_users users_json is_in]. rewrite dict_lookup_set_eq. cbn [bind].
    rewrite (getitem_dict _ _ _ (dict_lookup_set_eq _ _ _)). cbn [bind is_in].
    rewrite dict_lookup_set_eq. cbn [bind].
    rewrite (getitem_dict _ _ _ (dict_lookup_set_eq _ _ _)). cbn [bind keys].
    now rewrite keys_dict_set.
Qed.

End SavedResumes.

Lemma login_after_register_witness :
  UserManager.writable UserManager.no_file = true /\
  exists s',
    UserManager.register_user UserManager.example_digest
      "ann" "secret" "ann@x.org" "2024-01-01T00:00:00" UserManager.no_file
    = (Ok (true, "Registration successful"), s') /\
    (fst (UserManager.login_user UserManager.example_digest "ann" "secret" s')
       = Ok (true, "Login successful")
     <-> UserManager.example_digest "secret" = UserManager.example_digest "secret").
Proof.
  split; [reflexivity|].
  exact (login_after_register UserManager.example_digest
           "ann" "secret" "ann@x.org" "2024-01-01T00:00:00" "secret"
           UserManager.no_file [] eq_refl eq_refl eq_refl).
Defined.

Lemma register_keeps_accounts_witness :
  UserManager.account "ann" UserManager.ann_file = Some (VDict UserManager.ann_entry) /\
  UserManager.register_user UserManager.example_digest
    "eve" "other" "eve@x.org" "2024-02-01T00:00:00" UserManager.ann_file
  = (Ok (true, "Registration successful"),
     UserManager.mkState
       (Some (VDict [("ann", VDict UserManager.ann_entry);
                     ("eve", VDict [("password", VStr "#other"); ("email", VStr "eve@x.org");
                                    ("created_at", VStr "2024-02-01T00:00:00");
                                    ("resumes", VDict [])])]))
       true None) /\
  UserManager.account "ann"
    (snd (UserManager.register_user UserManager.example_digest
            "eve" "other" "eve@x.org" "2024-02-01T00:00:00" UserManager.ann_file))
  = Some (VDict UserManager.ann_entry).
Proof.
  split; [reflexivity|]. split; [reflexivity|].
  exact (register_keeps_accounts UserManager.example_digest
           "eve" "other" "eve@x.org" "2024-02-01T00:00:00" "ann"
           UserManager.ann_file (VDict UserManager.ann_entry) eq_refl).
Defined.

Lemma register_unwritable_witness :
  UserManager.writable UserManager.read_only = false /\
  UserManager.register_user UserManager.example_digest
    "ann" "secret" "ann@x.org" "2024-01-01T00:00:00" UserManager.read_only
  = (Ok (true, "Registration successful"), UserManager.read_only) /\
  UserManager.login_user UserManager.example_digest "ann" "secret" UserManager.read_only
  = (Ok (false, "Invalid credentials"), UserManager.read_only).
Proof.
  split; [reflexivity|].
  exact (register_unwritable UserManager.example_digest
           "ann" "secret" "ann@x.org" "2024-01-01T00:00:00"
           UserManager.read_only [] eq_refl eq_refl eq_refl).
Defined.

Lemma users_file_not_an_object_witness :
  UserManager.users_json UserManager.array_file = Some (VList [VStr "ann"]) /\
  snd (UserManager.login_user UserManager.example_digest "ann" "secret"
         UserManager.array_file) = UserManager.array_file /\
  fst (UserManager.login_user UserManager.example_digest "ann" "secret"
         UserManager.array_file) <> Ok (true, "Login successful").
Proof.
  split; [reflexivity|].
  assert (Hshape : forall users, VList [VStr "ann"] <> VDict users) by discriminate.
  exact (proj1 (proj2 (users_file_not_an_object UserManager.example_digest
                         "ann" "secret" "ann@x.org" "2024-01-01T00:00:00" "default"
                         (VDict []) (VList [VStr "ann"]) UserManager.array_file
                         eq_refl Hshape))).
Defined.

Lemma save_then_load_resume_witness :
  UserManager.writable UserManager.ann_file = true /\
  exists s',
    UserManager.save_user_resume "ann" jane "default" "2024-03-01T00:00:00"
      UserManager.ann_file = (Ok true, s') /\
    UserManager.load_user_resume "ann" "default" s' = Ok jane.
Proof.
  split; [reflexivity|].
  assert (Hres : UserManager.resumes_ok UserManager.ann_entry).
  { right. eexists. reflexivity. }
  exact (save_then_load_resume "ann" "default" "2024-03-01T00:00:00" jane
           UserManager.ann_file _ UserManager.ann_entry eq_refl eq_refl eq_refl Hres).
Defined.

Lemma save_resume_keeps_the_rest_witness :
  UserManager.load_users UserManager.ann_file = VDict [("ann", VDict UserManager.ann_entry)] /\
  UserManager.load_user_resume "ann" "default"
    (snd (UserManager.save_user_resume "ann" jane "second" "2024-03-01T00:00:00"
            UserManager.ann_file))
  = UserManager.load_user_resume "ann" "default" UserManager.ann_file.
Proof.
  split; [reflexivity|].
  assert (Hres : UserManager.resumes_ok UserManager.ann_entry).
  { right. eexists. reflexivity. }
  assert (Hname : "default" <> "second") by discriminate.
  exact (proj1 (save_resume_keeps_the_rest UserManager.example_digest
                  "ann" "second" "2024-03-01T00:00:00" jane
                  UserManager.ann_file _ UserManager.ann_entry eq_refl eq_refl Hres)
           "default" Hname).
Defined.

Lemma resume_names_after_save_witness :
  UserManager.writable UserManager.ann_file = true /\
  exists names,
    UserManager.get_user_resumes "ann" UserManager.ann_file = Ok names /\
    UserManager.get_user_resumes "ann"
      (snd (UserManager.save_user_resume "ann" jane "second" "2024-03-01T00:00:00"
              UserManager.ann_file))
    = Ok (if existsb (String.eqb "second") names then names else names ++ ["second"]).
Proof.
  split; [reflexivity|].
  assert (Hres : UserManager.resumes_ok UserManager.ann_entry).
  { right. eexists. reflexivity. }
  exact (resume_names_after_save "ann" "second" "2024-03-01T00:00:00" jane
           UserManager.ann_file _ UserManager.ann_entry eq_refl eq_refl eq_refl Hres).
Defined.

(** * Texts: characters, [strip] and [split] *)

Section Texts.

Import Builtins.

Lemma chars_cons (a : ascii) (r : string) :
  chars (String a r)
  = match chars r with
    | c :: cs =>
        if starts_with_continuation r then String a c :: cs
        else String a EmptyString :: c :: cs
    | [] => [String a EmptyString]
    end.
Proof. reflexivity. Qed.

Lemma chars_empty (s : string) : chars s = [] -> s = EmptyString.
Proof.
  destruct s as [|a r]; [reflexivity|]. rewrite chars_cons.
  destruct (chars r); [discriminate|]. now destruct (starts_with_continuation r).
Qed.

Lemma chars_join (rest t : string) :
  all_continuation rest = true -> starts_with_continuation t = false ->
  forall a, chars (String a (rest +:+ t)) = String a rest :: chars t.
Proof.
  intros Hrest Ht. induction rest as [|b rest IH]; intros a.
  - change (EmptyString +:+ t) with t. rewrite chars_cons.
    destruct (chars t) as [|c cs] eqn:E; [reflexivity|]. now rewrite Ht.
  - cbn [all_continuation] in Hrest. apply andb_true_iff in Hrest as [Hb Hrest].
    change (String b rest +:+ t) with (String b (rest +:+ t)).
    rewrite chars_cons, (IH Hrest b).
    cbn [starts_with_continuation]. now rewrite Hb.
Qed.

Lemma chars_shape (s : string) :
  char_list (chars s) = true
  /\ match chars s, s with
     | c :: _, String a _ => exists c', c = String a c'
     | [], EmptyString => True
     | _, _ => False
     end.
Proof.
  induction s as [|a r [IH Hhd]]; [now split|]. rewrite chars_cons.
  destruct (chars r) as [|c cs] eqn:E.
  - split; [reflexivity|eauto].
  - destruct r as [|b r']; [destruct Hhd|]. destruct Hhd as (c' & ->).
    cbn [char_list] in IH. apply andb_true_iff in IH as [Hc Hcs].
    cbn [starts_with_continuation]. destruct (is_continuation b) eqn:Hb.
    + split; [|eauto]. cbn [char_list is_char all_continuation].
      cbn [is_char] in Hc. now rewrite Hb, Hc, Hcs.
    + split; [|eauto]. cbn [char_list is_char all_continuation forallb].
      unfold leads at 1. cbn [is_char starts_with_continuation]. cbn [is_char] in Hc.
      now rewrite Hc, Hb, Hcs.
Qed.

Lemma chars_char_list (s : string) : char_list (chars s) = true.
Proof. apply chars_shape. Qed.

Lemma chars_text_of_leads (l : list string) :
  forallb leads l = true ->
  chars (text_of l) = l /\ starts_with_continuation (text_of l) = false.
Proof.
  induction l as [|c l IH]; [now split|]. cbn [forallb]. intros H.
  apply andb_true_iff in H as [Hc Hl]. destruct (IH Hl) as [IHc IHs].
  unfold leads in Hc. apply andb_true_iff in Hc as [Hchar Hlead].
  destruct c as [|a rest]; [discriminate|]. cbn [is_char] in Hchar.
  cbn [text_of fold_right]. fold (text_of l).
  change (String a rest +:+ text_of l) with (String a (rest +:+ text_of l)).
  split.
  - now rewrite (chars_join rest (text_of l) Hchar IHs a), IHc.
  - cbn [starts_with_continuation] in *. now apply negb_true_iff in Hlead.
Qed.

Lemma chars_text_of (l : list string) :
  char_list l = true -> chars (text_of l) = l.
Proof.
  destruct l as [|c l]; [reflexivity|]. cbn [char_list]. intros H.
  apply andb_true_iff in H as [Hchar Hl].
  destruct (chars_text_of_leads l Hl) as [IHc IHs].
  destruct c as [|a rest]; [discriminate|]. cbn [is_char] in Hchar.
  cbn [text_of fold_right]. fold (text_of l).
  change (String a rest +:+ text_of l) with (String a (rest +:+ text_of l)).
  now rewrite (chars_join rest (text_of l) Hchar IHs a), IHc.
Qed.

Lemma leads_char_list (l : list string) : forallb leads l = true -> char_list l = true.
Proof.
  destruct l as [|c l]; [reflexivity|]. cbn [forallb char_list]. intros H.
  apply andb_true_iff in H as [Hc Hl]. unfold leads in Hc.
  apply andb_true_iff in Hc as [Hc _]. now rewrite Hc, Hl.
Qed.

Lemma char_list_suffix (p l : list string) :
  char_list (p ++ l) = true -> char_list l = true.
Proof.
  destruct p as [|c p]; [tauto|]. cbn [app char_list]. intros H.
  apply andb_true_iff in H as [_ H]. rewrite forallb_app in H.
  apply andb_true_iff in H as [_ H]. now apply leads_char_list.
Qed.

Lemma char_list_prefix (l q : list string) :
  char_list (l ++ q) = true -> char_list l = true.
Proof.
  destruct l as [|c l]; [reflexivity|]. cbn [app char_list]. intros H.
  apply andb_true_iff in H as [Hc H]. rewrite forallb_app in H.
  apply andb_true_iff in H as [H _]. now rewrite Hc, H.
Qed.

Lemma lstrip_chars_suffix (drop : string -> bool) (l : list string) :
  exists p, l = p ++ lstrip_chars drop l.
Proof.
  induction l as [|c l (p & IH)]; [now exists []|]. cbn [lstrip_chars].
  destruct (drop c).
  - exists (c :: p). cbn [app]. now rewrite <- IH.
  - now exists [].
Qed.

Lemma rstrip_chars_prefix (drop : string -> bool) (l : list string) :
  exists q, l = rstrip_chars drop l ++ q.
Proof.
  unfold rstrip_chars. destruct (lstrip_chars_suffix drop (rev l)) as (p & Hp).
  exists (rev p). rewrite <- rev_app_distr, <- Hp. now rewrite rev_involutive.
Qed.

Lemma lstrip_chars_kept (drop : string -> bool) (l : list string) :
  kept_first drop (lstrip_chars drop l) = true.
Proof.
  induction l as [|c l IH]; [reflexivity|]. cbn [lstrip_chars].
  destruct (drop c) eqn:E; [assumption|]. cbn [kept_first]. now rewrite E.
Qed.

Lemma lstrip_chars_fixed (drop : string -> bool) (l : list string) :
  kept_first drop l = true -> lstrip_chars drop l = l.
Proof.
  destruct l as [|c l]; [reflexivity|]. cbn [kept_first lstrip_chars].
  intros H. apply negb_true_iff in H. now rewrite H.
Qed.

Lemma rstrip_chars_twice (drop : string -> bool) (l : list string) :
  rstrip_chars drop (rstrip_chars drop l) = rstrip_chars drop l.
Proof.
  unfold rstrip_chars. rewrite rev_involutive.
  now rewrite (lstrip_chars_fixed drop _ (lstrip_chars_kept drop (rev l))).
Qed.

Lemma rstrip_chars_kept (drop : string -> bool) (l : list string) :
  kept_first drop l = true -> kept_first drop (rstrip_chars drop l) = true.
Proof.
  intros H. destruct (rstrip_chars_prefix drop l) as (q & Hq).
  destruct (rstrip_chars drop l) as [|c r]; [reflexivity|].
  rewrite Hq in H. exact H.
Qed.

Lemma strip_chars_twice (drop : string -> bool) (l : list string) :
  rstrip_chars drop (lstrip_chars drop (rstrip_chars drop (lstrip_chars drop l)))
  = rstrip_chars drop (lstrip_chars drop l).
Proof.
  rewrite (lstrip_chars_fixed drop (rstrip_chars drop (lstrip_chars drop l))).
  - apply rstrip_chars_twice.
  - apply rstrip_chars_kept, lstrip_chars_kept.
Qed.

Lemma strip_char_list (s : string) :
  char_list (rstrip_chars isspace (lstrip_chars isspace (chars s))) = true.
Proof.
  destruct (lstrip_chars_suffix isspace (chars s)) as (p & Hp).
  destruct (rstrip_chars_prefix isspace (lstrip_chars isspace (chars s))) as (q & Hq).
  pose proof (chars_char_list s) as H. rewrite Hp in H.
  apply char_list_suffix in H. rewrite Hq in H. now apply char_list_prefix in H.
Qed.

Lemma strip_twice (s : string) : strip (strip s) = strip s.
Proof.
  unfold strip at 1 3. unfold strip. rewrite (chars_text_of _ (strip_char_list s)).
  now rewrite strip_chars_twice.
Qed.

Lemma split_nonempty (sep : ascii) (s : string) : split sep s <> [].
Proof.
  destruct s as [|a s]; [discriminate|]. cbn [split].
  destruct (Ascii.eqb a sep); [discriminate|]. now destruct (split sep s).
Qed.

(** X20 — the texts that the form pages store.  Every bullet of an added
    work-experience entry is a line of the text area with the white space
    at its two ends taken off, and no bullet is empty.  The skills added
    are the parts of the text between the commas, stripped in the same way;
    there is at least one, and an empty one is not left out. *)
Theorem form_texts_stripped (text : string) :
  (forall bullet, In bullet (Forms.bullets_of text) ->
     bullet <> EmptyString /\ strip bullet = bullet)
  /\ (forall skill, In skill (Forms.skills_of text) -> strip skill = skill)
  /\ Forms.skills_of text <> []
  /\ Forms.skills_of (String Forms.comma text) = EmptyString :: Forms.skills_of text.
Proof.
  split; [|split; [|split]].
  - intros bullet Hin. unfold Forms.bullets_of in Hin.
    apply in_map_iff in Hin as (line & <- & Hline).
    apply filter_In in Hline as [_ Hne]. split.
    + unfold nonempty in Hne. apply negb_true_iff in Hne.
      now apply String.eqb_neq in Hne.
    + apply strip_twice.
  - intros skill Hin. unfold Forms.skills_of in Hin.
    apply in_map_iff in Hin as (part & <- & _). apply strip_twice.
  - unfold Forms.skills_of. intros H. apply map_eq_nil in H.
    now apply split_nonempty in H.
  - reflexivity.
Qed.

End Texts.

(** * The form pages *)

Section FormPages.

Import Builtins Forms.

Lemma optional_set_eq (ok : value -> bool) (key : string) (v : value)
    (d : list (string * value)) :
  optional ok key (dict_set key v d) = ok v.
Proof. unfold optional. now rewrite dict_lookup_set_eq. Qed.

Lemma optional_set_ne (ok : value -> bool) (key key' : string) (v : value)
    (d : list (string * value)) :
  String.eqb key' key = false ->
  optional ok key' (dict_set key v d) = optional ok key' d.
Proof. intros H. unfold optional. now rewrite dict_lookup_set_ne. Qed.

Lemma required_set_eq (ok : value -> bool) (key : string) (v : value)
    (d : list (string * value)) :
  required ok key (dict_set key v d) = ok v.
Proof. unfold required. now rewrite dict_lookup_set_eq. Qed.

Lemma required_set_ne (ok : value -> bool) (key key' : string) (v : value)
    (d : list (string * value)) :
  String.eqb key' key = false ->
  required ok key' (dict_set key v d) = required ok key' d.
Proof. intros H. unfold required. now rewrite dict_lookup_set_ne. Qed.

Lemma required_optional (ok : value -> bool) (key : string) (d : list (string * value)) :
  required ok key d = true -> optional ok key d = true.
Proof. unfold required, optional. now destruct (dict_lookup key d). Qed.

Lemma required_lookup (ok : value -> bool) (key : string) (d : list (string * value)) :
  required ok key d = true -> exists v, dict_lookup key d = Some v /\ ok v = true.
Proof. unfold required. destruct (dict_lookup key d); [eauto|discriminate]. Qed.

Ltac set_field :=
  let H := fresh "H" in
  let Hv := fresh "Hv" in
  intros H Hv; cbn [form_built] in *;
  rewrite ?required_set_eq, ?optional_set_eq;
  rewrite ?required_set_ne, ?optional_set_ne by reflexivity;
  repeat (apply andb_true_iff in H as [H ?]);
  repeat (apply andb_true_iff; split); assumption.

Lemma form_built_set_personal (d : list (string * value)) (v : value) :
  form_built (VDict d) = true -> conforms_personal v = true ->
  form_built (VDict (dict_set "personal" v d)) = true.
Proof. set_field. Qed.

Lemma form_built_set_summary (d : list (string * value)) (v : value) :
  form_built (VDict d) = true -> is_str v = true ->
  form_built (VDict (dict_set "summary" v d)) = true.
Proof. set_field. Qed.

Lemma form_built_set_work_experience (d : list (string * value)) (v : value) :
  form_built (VDict d) = true -> is_list_of full_experience v = true ->
  form_built (VDict (dict_set "work_experience" v d)) = true.
Proof. set_field. Qed.

Lemma form_built_set_education (d : list (string * value)) (v : value) :
  form_built (VDict d) = true -> is_list_of full_education v = true ->
  form_built (VDict (dict_set "education" v d)) = true.
Proof. set_field. Qed.

Lemma form_built_set_skills (d : list (string * value)) (v : value) :
  form_built (VDict d) = true -> conforms_skills v = true ->
  form_built (VDict (dict_set "skills" v d)) = true.
Proof. set_field. Qed.

Lemma form_built_personal (d : list (string * value)) :
  form_built (VDict d) = true ->
  exists p, dict_lookup "personal" d = Some (VDict p) /\ conforms_personal (VDict p) = true.
Proof.
  intros H. cbn [form_built] in H. repeat (apply andb_true_iff in H as [H ?]).
  apply required_lookup in H as (v & Hv & Hok).
  destruct v as [| | | | |p]; try discriminate. eauto.
Qed.

Lemma conforms_personal_set (p : list (string * value)) (key text : string) :
  conforms_personal (VDict p) = true ->
  conforms_personal (VDict (dict_set key (VStr text) p)) = true.
Proof.
  unfold conforms_personal. intros H. apply forallb_forall. intros k Hk.
  rewrite forallb_forall in H. specialize (H k Hk).
  destruct (String.eqb k key) eqn:E.
  - apply String.eqb_eq in E. subst k. now rewrite optional_set_eq.
  - now rewrite optional_set_ne.
Qed.

Lemma set_personal_built (key text : string) (d : list (string * value)) :
  form_built (VDict d) = true ->
  exists d', set_personal key text (VDict d) = Ok (VDict d')
             /\ form_built (VDict d') = true.
Proof.
  intros H. destruct (form_built_personal d H) as (p & Hp & Hok).
  unfold set_personal. rewrite (getitem_dict _ _ _ Hp). cbn [bind].
  rewrite get_VDict. cbn [bind setitem]. eexists. split; [reflexivity|].
  apply form_built_set_personal; [assumption|]. now apply conforms_personal_set.
Qed.

Lemma render_personal_info_built
    (full_name email phone location linkedin website : string)
    (d : list (string * value)) :
  form_built (VDict d) = true ->
  exists d',
    render_personal_info full_name email phone location linkedin website (VDict d)
      = Ok (VDict d')
    /\ form_built (VDict d') = true.
Proof.
  intros H. unfold render_personal_info.
  destruct (set_personal_built "full_name" full_name d H) as (d1 & -> & H1). cbn [bind].
  destruct (set_personal_built "email" email d1 H1) as (d2 & -> & H2). cbn [bind].
  destruct (set_personal_built "phone" phone d2 H2) as (d3 & -> & H3). cbn [bind].
  destruct (set_personal_built "location" location d3 H3) as (d4 & -> & H4). cbn [bind].
  destruct (set_personal_built "linkedin" linkedin d4 H4) as (d5 & -> & H5). cbn [bind].
  exact (set_personal_built "website" website d5 H5).
Qed.

Lemma render_professional_summary_built (job_title : string) (years_experience : Z)
    (industry : string) (generate : bool) (api_key : option string)
    (reply : SimpleAIGenerator.completion) (text : string) (d : list (string * value)) :
  form_built (VDict d) = true ->
  exists d',
    render_professional_summary job_title years_experience industry generate
      api_key reply text (VDict d) = Ok (VDict d')
    /\ form_built (VDict d') = true.
Proof.
  intros H. unfold render_professional_summary.
  destruct (generate && nonempty job_title); rewrite ?get_VDict; cbn [bind setitem];
    (eexists; split; [reflexivity|]); now apply form_built_set_summary.
Qed.

Lemma listing_built (show : value -> result unit) (ok : value -> bool) (c : click) :
  (forall x, ok x = true -> show x = Ok tt) ->
  forall (l : list value) (i : nat),
    forallb ok l = true ->
    exists l', listing show c i l = Ok l' /\ forallb ok l' = true.
Proof.
  intros Hshow. induction l as [|x l IH]; intros i H.
  - exists []. now split.
  - cbn [forallb] in H. apply andb_true_iff in H as [Hx Hl].
    cbn [listing]. rewrite (Hshow x Hx). cbn [bind].
    destruct (deletes c i).
    + exists l. now split.
    + destruct (IH (S i) Hl) as (l' & -> & Hl'). cbn [bind].
      exists (x :: l'). split; [reflexivity|]. cbn [forallb]. now rewrite Hx, Hl'.
Qed.

Ltac split_andb :=
  repeat match goal with
         | H : _ && _ = true |- _ => apply andb_true_iff in H as [? ?]
         end.

Lemma show_experience_full (exp : value) :
  full_experience exp = true -> show_experience exp = Ok tt.
Proof.
  destruct exp as [| | | | |f]; try discriminate. cbn [full_experience forallb].
  intros H. split_andb.
  repeat match goal with
         | Hr : required _ _ _ = true |- _ =>
             apply required_lookup in Hr as (? & ? & ?)
         end.
  unfold show_experience.
  repeat (erewrite getitem_dict by eassumption; cbn [bind]).
  match goal with
  | Hb : is_str_list ?b = true |- _ => destruct b; try discriminate
  end.
  now destruct (truthy _).
Qed.

Lemma show_education_full (edu : value) :
  full_education edu = true -> show_education edu = Ok tt.
Proof.
  destruct edu as [| | | | |f]; try discriminate. cbn [full_education forallb].
  intros H. split_andb.
  repeat match goal with
         | Hr : required _ _ _ = true |- _ =>
             apply required_lookup in Hr as (? & ? & ?)
         end.
  unfold show_education.
  repeat (erewrite getitem_dict by eassumption; cbn [bind]).
  repeat match goal with
         | |- context [truthy ?v] => destruct (truthy v); cbn [bind]
         end;
    repeat (erewrite getitem_dict by eassumption; cbn [bind]); reflexivity.
Qed.

Lemma ensure_present (key : string) (empty v : value) (d : list (string * value)) :
  dict_lookup key d = Some v -> ensure key empty (VDict d) = Ok (VDict d).
Proof. intros H. unfold ensure. cbn [is_in]. now rewrite H. Qed.

Lemma ensure_absent (key : string) (empty : value) (d : list (string * value)) :
  dict_lookup key d = None ->
  ensure key empty (VDict d) = Ok (VDict (dict_set key empty d)).
Proof. intros H. unfold ensure. cbn [is_in]. now rewrite H. Qed.

Lemma forallb_map_VStr (l : list string) : forallb is_str (map VStr l) = true.
Proof. induction l; [reflexivity|assumption]. Qed.

Lemma full_experience_of (f : experience_form) : full_experience (experience_of f) = true.
Proof. unfold experience_of. cbn. apply forallb_map_VStr. Qed.

Lemma full_education_of (f : education_form) : full_education (education_of f) = true.
Proof. reflexivity. Qed.

Lemma list_entries_built (key : string) (ok : value -> bool)
    (show : value -> result unit) (c : click)
    (d : list (string * value)) (l : list value) :
  (forall x, ok x = true -> show x = Ok tt) ->
  dict_lookup key d = Some (VList l) ->
  forallb ok l = true ->
  exists l',
    list_entries key show c (VDict d) = Ok (VDict (dict_set key (VList l') d))
    /\ forallb ok l' = true.
Proof.
  intros Hshow Hkey Hl. unfold list_entries.
  rewrite (getitem_dict _ _ _ Hkey). cbn [bind iter].
  destruct (listing_built show ok c Hshow l 0%nat Hl) as (l' & -> & Hl').
  cbn [bind setitem]. eauto.
Qed.

Lemma ensure_list_built (key : string) (ok : value -> bool) (d : list (string * value)) :
  optional (is_list_of ok) key d = true ->
  exists l,
    ensure key (VList []) (VDict d)
      = Ok (VDict (match dict_lookup key d with
                   | Some _ => d
                   | None => dict_set key (VList []) d
                   end))
    /\ dict_lookup key (match dict_lookup key d with
                        | Some _ => d
                        | None => dict_set key (VList []) d
                        end) = Some (VList l)
    /\ forallb ok l = true.
Proof.
  unfold optional. intros H. destruct (dict_lookup key d) as [v|] eqn:Hkey.
  - apply is_list_of_inv in H as (l & -> & Hl). exists l.
    rewrite (ensure_present _ _ _ _ Hkey). now repeat split.
  - exists []. rewrite (ensure_absent _ _ _ Hkey), dict_lookup_set_eq. now repeat split.
Qed.

Lemma forallb_app_one {A : Type} (ok : A -> bool) (l : list A) (x : A) :
  forallb ok l = true -> ok x = true -> forallb ok (l ++ [x]) = true.
Proof. intros Hl Hx. rewrite forallb_app, Hl. cbn. now rewrite Hx. Qed.

Lemma render_work_experience_built (f : experience_form) (c : click)
    (d : list (string * value)) :
  form_built (VDict d) = true ->
  exists d', render_work_experience f c (VDict d) = Ok (VDict d')
             /\ form_built (VDict d') = true.
Proof.
  intros H.
  assert (Hopt : optional (is_list_of full_experience) "work_experience" d = true).
  { cbn [form_built] in H. now split_andb. }
  destruct (ensure_list_built "work_experience" full_experience d Hopt)
    as (l & Hens & Hkey & Hl).
  set (d1 := match dict_lookup "work_experience" d with
             | Some _ => d
             | None => dict_set "work_experience" (VList []) d
             end) in *.
  assert (H1 : form_built (VDict d1) = true).
  { subst d1. destruct (dict_lookup "work_experience" d); [assumption|].
    now apply form_built_set_work_experience. }
  unfold render_work_experience. rewrite Hens. cbn [bind].
  rewrite (getitem_dict _ _ _ Hkey). cbn [bind len].
  destruct (is_add c && nonempty (job_title f) && nonempty (company f)).
  - cbn [bind append setitem]. eexists. split; [reflexivity|].
    apply form_built_set_work_experience; [assumption|].
    cbn [is_list_of]. apply forallb_app_one; [assumption|apply full_experience_of].
  - destruct (list_entries_built "work_experience" full_experience show_experience c
                d1 l show_experience_full Hkey Hl) as (l' & -> & Hl').
    eexists. split; [reflexivity|].
    now apply form_built_set_work_experience.
Qed.

Lemma render_education_built (f : education_form) (c : click)
    (d : list (string * value)) :
  form_built (VDict d) = true ->
  exists d', render_education f c (VDict d) = Ok (VDict d')
             /\ form_built (VDict d') = true.
Proof.
  intros H.
  assert (Hopt : optional (is_list_of full_education) "education" d = true).
  { cbn [form_built] in H. now split_andb. }
  destruct (ensure_list_built "education" full_education d Hopt)
    as (l & Hens & Hkey & Hl).
  set (d1 := match dict_lookup "education" d with
             | Some _ => d
             | None => dict_set "education" (VList []) d
             end) in *.
  assert (H1 : form_built (VDict d1) = true).
  { subst d1. destruct (dict_lookup "education" d); [assumption|].
    now apply form_built_set_education. }
  unfold render_education. rewrite Hens. cbn [bind].
  rewrite (getitem_dict _ _ _ Hkey). cbn [bind len].
  destruct (is_add c && nonempty (degree f) && nonempty (school f)).
  - cbn [bind append setitem]. eexists. split; [reflexivity|].
    apply form_built_set_education; [assumption|].
    cbn [is_list_of]. apply forallb_app_one; [assumption|apply full_education_of].
  - destruct (list_entries_built "education" full_education show_education c
                d1 l show_education_full Hkey Hl) as (l' & -> & Hl').
    eexists. split; [reflexivity|].
    now apply form_built_set_education.
Qed.

Lemma conforms_skills_lookup (sk : list (string * value)) (k : string) (v : value) :
  conforms_skills (VDict sk) = true -> dict_lookup k sk = Some v ->
  is_str_list v = true.
Proof.
  cbn [conforms_skills]. induction sk as [|[k' x] sk IH]; [discriminate|].
  cbn [forallb dict_lookup snd]. intros H Hk. apply andb_true_iff in H as [Hx Hsk].
  destruct (String.eqb k k'); [now injection Hk as <-|now apply IH].
Qed.

Lemma conforms_skills_set (sk : list (string * value)) (k : string) (v : value) :
  conforms_skills (VDict sk) = true -> is_str_list v = true ->
  conforms_skills (VDict (dict_set k v sk)) = true.
Proof.
  cbn [conforms_skills]. intros H Hv. induction sk as [|[k' x] sk IH].
  - cbn. now rewrite Hv.
  - cbn [forallb snd] in H. apply andb_true_iff in H as [Hx Hsk].
    cbn [dict_set]. destruct (String.eqb k k'); cbn [forallb snd].
    + now rewrite Hv, Hsk.
    + now rewrite Hx, (IH Hsk).
Qed.

Lemma conforms_skills_del (sk : list (string * value)) (k : string) :
  conforms_skills (VDict sk) = true ->
  conforms_skills (VDict (dict_del k sk)) = true.
Proof.
  cbn [conforms_skills]. intros H. induction sk as [|[k' x] sk IH]; [reflexivity|].
  cbn [forallb snd] in H. apply andb_true_iff in H as [Hx Hsk].
  cbn [dict_del]. destruct (String.eqb k k'); [assumption|].
  cbn [forallb snd]. now rewrite Hx, (IH Hsk).
Qed.

Lemma join_strs (sep : string) (v : value) :
  is_str_list v = true -> is_ok (join sep v) = true.
Proof.
  destruct v; try discriminate. cbn [is_str_list]. intros H.
  unfold join. cbn [iter bind]. now apply join_list_strs.
Qed.

Lemma skills_listing_built (c : skills_click) (sk : list (string * value)) :
  conforms_skills (VDict sk) = true ->
  exists r, skills_listing c sk = Ok r
            /\ forall k, r = Some k -> exists v, dict_lookup k sk = Some v.
Proof.
  cbn [conforms_skills]. induction sk as [|[k' x] sk IH]; intros H.
  - exists None. split; [reflexivity|discriminate].
  - cbn [forallb snd] in H. apply andb_true_iff in H as [Hx Hsk].
    destruct (IH Hsk) as (r & Hr & Hin).
    assert (Hrest : exists r', skills_listing c sk = Ok r'
              /\ forall k, r' = Some k -> exists v, dict_lookup k ((k', x) :: sk) = Some v).
    { exists r. split; [assumption|]. intros k Hk. cbn [dict_lookup].
      destruct (String.eqb k k'); [eauto|now apply Hin]. }
    cbn [skills_listing]. destruct (truthy x); [|exact Hrest].
    destruct (is_ok_inv _ (join_strs ", " x Hx)) as (joined & ->). cbn [bind].
    destruct c as [| |k]; try exact Hrest.
    destruct (String.eqb k k') eqn:E; [|exact Hrest].
    exists (Some k'). split; [reflexivity|]. intros k0 [= <-].
    cbn [dict_lookup]. rewrite String.eqb_refl. eauto.
Qed.

Lemma render_skills_built (selected_category new_skills : string) (c : skills_click)
    (d : list (string * value)) :
  form_built (VDict d) = true ->
  exists d', render_skills selected_category new_skills c (VDict d) = Ok (VDict d')
             /\ form_built (VDict d') = true.
Proof.
  intros H.
  assert (Hopt : optional conforms_skills "skills" d = true).
  { cbn [form_built] in H. now split_andb. }
  assert (Hens : exists d1 sk,
             ensure "skills" (VDict []) (VDict d) = Ok (VDict d1)
             /\ form_built (VDict d1) = true
             /\ dict_lookup "skills" d1 = Some (VDict sk)
             /\ conforms_skills (VDict sk) = true).
  { unfold optional in Hopt. destruct (dict_lookup "skills" d) as [v|] eqn:Hkey.
    - destruct v as [| | | | |sk]; try discriminate.
      exists d, sk. rewrite (ensure_present _ _ _ _ Hkey). now repeat split.
    - exists (dict_set "skills" (VDict []) d), [].
      rewrite (ensure_absent _ _ _ Hkey), dict_lookup_set_eq.
      repeat split. now apply form_built_set_skills. }
  destruct Hens as (d1 & sk & Hens & H1 & Hkey & Hsk).
  unfold render_skills. rewrite Hens. cbn [bind].
  destruct (match c with AddSkills => true | _ => false end && nonempty new_skills).
  - rewrite (getitem_dict _ _ _ Hkey). cbn [bind is_in].
    assert (Hnew : is_str_list (VList (map VStr (skills_of new_skills))) = true)
      by apply forallb_map_VStr.
    destruct (dict_lookup selected_category sk) as [v|] eqn:Hcat; cbn [bind setitem].
    + pose proof (conforms_skills_lookup _ _ _ Hsk Hcat) as Hv.
      destruct v as [| | | |cur|]; try discriminate.
      rewrite (getitem_dict _ _ _ Hcat). cbn [bind extend setitem].
      eexists. split; [reflexivity|].
      apply form_built_set_skills; [assumption|].
      apply conforms_skills_set; [assumption|].
      cbn [is_str_list] in *. now rewrite forallb_app, Hv, Hnew.
    + rewrite (getitem_dict _ _ _ (dict_lookup_set_eq _ _ _)). cbn [bind extend setitem].
      eexists. split; [reflexivity|].
      apply form_built_set_skills; [assumption|].
      apply conforms_skills_set; [|exact Hnew].
      now apply conforms_skills_set.
  - rewrite (getitem_dict _ _ _ Hkey). cbn [bind].
    destruct (truthy (VDict sk)); [|eauto].
    cbn [items bind].
    destruct (skills_listing_built c sk Hsk) as (r & -> & Hin). cbn [bind].
    destruct r as [k|]; [|eauto].
    destruct (Hin k eq_refl) as (v & Hv). cbn [delitem]. rewrite Hv. cbn [bind setitem].
    eexists. split; [reflexivity|].
    apply form_built_set_skills; [assumption|]. now apply conforms_skills_del.
Qed.

Lemma run_built (p : page_run) (d : value) :
  form_built d = true ->
  exists d', run p d = Ok d' /\ form_built d' = true.
Proof.
  destruct d as [| | | | |fields]; try discriminate. intros H.
  destruct p as [name email phone place linkedin website
                |title years industry generate key reply text
                |f c|f c|category new c]; cbn [run].
  - destruct (render_personal_info_built name email phone place linkedin
                website fields H) as (d' & ? & ?); eauto.
  - destruct (render_professional_summary_built title years industry
                generate key reply text fields H) as (d' & ? & ?); eauto.
  - destruct (render_work_experience_built f c fields H) as (d' & ? & ?); eauto.
  - destruct (render_education_built f c fields H) as (d' & ? & ?); eauto.
  - destruct (render_skills_built category new c fields H) as (d' & ? & ?); eauto.
Qed.

Lemma run_all_built (runs : list page_run) (d : value) :
  form_built d = true ->
  exists d', run_all runs d = Ok d' /\ form_built d' = true.
Proof.
  revert d. induction runs as [|p runs IH]; intros d H; [eauto|].
  cbn [run_all]. destruct (run_built p d H) as (d1 & -> & H1). cbn [bind].
  now apply IH.
Qed.

Lemma full_experience_conforms (v : value) :
  full_experience v = true -> conforms_experience v = true.
Proof.
  destruct v as [| | | | |f]; try discriminate.
  cbn [full_experience conforms_experience forallb]. intros H. split_andb.
  repeat match goal with
         | Hr : required _ _ _ = true |- _ => apply required_optional in Hr; rewrite Hr
         end.
  reflexivity.
Qed.

Lemma full_education_conforms (v : value) :
  full_education v = true -> conforms_education v = true.
Proof.
  destruct v as [| | | | |f]; try discriminate.
  cbn [full_education conforms_education forallb]. intros H. split_andb.
  repeat match goal with
         | Hr : required _ _ _ = true |- _ => apply required_optional in Hr; rewrite Hr
         end.
  reflexivity.
Qed.

Lemma optional_impl (P Q : value -> bool) (key : string) (d : list (string * value)) :
  (forall v, P v = true -> Q v = true) ->
  optional P key d = true -> optional Q key d = true.
Proof. intros HPQ. unfold optional. destruct (dict_lookup key d); [apply HPQ|reflexivity]. Qed.

Lemma is_list_of_impl (P Q : value -> bool) (v : value) :
  (forall x, P x = true -> Q x = true) ->
  is_list_of P v = true -> is_list_of Q v = true.
Proof. intros HPQ. destruct v; try discriminate. cbn. now apply forallb_impl. Qed.

Lemma form_built_conforming (d : value) :
  form_built d = true -> schema_conforming d = true.
Proof.
  destruct d as [| | | | |fields]; try discriminate.
  cbn [form_built schema_conforming]. intros H. split_andb.
  repeat (apply andb_true_iff; split); try assumption.
  - now apply required_optional.
  - eapply optional_impl; [|eassumption].
    intros v. apply is_list_of_impl. exact full_experience_conforms.
  - eapply optional_impl; [|eassumption].
    intros v. apply is_list_of_impl. exact full_education_conforms.
Qed.

Lemma listing_shown (show : value -> result unit) (ok : value -> bool) (c : click) :
  (forall x, ok x = true -> show x = Ok tt) ->
  forall (l : list value) (i : nat),
    forallb ok l = true ->
    listing show c i l
    = Ok (match c with
          | Delete j =>
              if Nat.leb i j then firstn (j - i) l ++ skipn (S (j - i)) l else l
          | _ => l
          end).
Proof.
  intros Hshow. induction l as [|x l IH]; intros i H.
  - cbn [listing]. destruct c as [| |j]; try reflexivity.
    destruct (Nat.leb i j); [|reflexivity]. now rewrite firstn_nil, skipn_nil.
  - cbn [forallb] in H. apply andb_true_iff in H as [Hx Hl].
    cbn [listing]. rewrite (Hshow x Hx). cbn [bind]. rewrite (IH (S i) Hl).
    destruct c as [| |j]; cbn [deletes bind]; try reflexivity.
    destruct (Nat.eqb j i) eqn:E.
    + apply Nat.eqb_eq in E. subst j. rewrite Nat.leb_refl, Nat.sub_diag. reflexivity.
    + apply Nat.eqb_neq in E. cbn [bind].
      destruct (Nat.leb i j) eqn:Hij.
      * apply Nat.leb_le in Hij.
        assert (Hs : Nat.leb (S i) j = true) by (apply Nat.leb_le; lia).
        rewrite Hs. replace (j - i)%nat with (S (j - S i)) by lia. reflexivity.
      * apply Nat.leb_gt in Hij.
        assert (Hs : Nat.leb (S i) j = false) by (apply Nat.leb_gt; lia).
        now rewrite Hs.
Qed.

Lemma render_work_experience_run (f : experience_form) (c : click)
    (d : list (string * value)) (l : list value) :
  form_built (VDict d) = true ->
  dict_get d "work_experience" (VList []) = VList l ->
  render_work_experience f c (VDict d)
  = Ok (VDict (dict_set "work_experience"
                 (VList (match c with
                         | Add =>
                             if nonempty (job_title f) && nonempty (company f)
                             then l ++ [experience_of f] else l
                         | Delete i => firstn i l ++ skipn (S i) l
                         | NoClick => l
                         end)) d)).
Proof.
  intros H Hget.
  assert (Hopt : optional (is_list_of full_experience) "work_experience" d = true).
  { cbn [form_built] in H. now split_andb. }
  assert (Hl : forallb full_experience l = true).
  { unfold optional in Hopt. unfold dict_get in Hget.
    destruct (dict_lookup "work_experience" d) as [v|].
    - subst v. exact Hopt.
    - now injection Hget as <-. }
  assert (Hens : exists d1,
             ensure "work_experience" (VList []) (VDict d) = Ok (VDict d1)
             /\ dict_lookup "work_experience" d1 = Some (VList l)
             /\ forall v, dict_set "work_experience" v d1
                          = dict_set "work_experience" v d).
  { unfold dict_get in Hget. destruct (dict_lookup "work_experience" d) as [v|] eqn:Hkey.
    - subst v. exists d. rewrite (ensure_present _ _ _ _ Hkey). now repeat split.
    - injection Hget as <-. exists (dict_set "work_experience" (VList []) d).
      rewrite (ensure_absent _ _ _ Hkey), dict_lookup_set_eq.
      repeat split. intros v. apply dict_set_set. }
  destruct Hens as (d1 & Hens & Hkey & Hset).
  unfold render_work_experience. rewrite Hens. cbn [bind].
  rewrite (getitem_dict _ _ _ Hkey). cbn [bind len].
  destruct (is_add c && nonempty (job_title f) && nonempty (company f)) eqn:Hadd.
  - apply andb_true_iff in Hadd as [Hadd Hcompany].
    apply andb_true_iff in Hadd as [Hadd Htitle].
    destruct c; try discriminate. rewrite Htitle, Hcompany.
    cbn [bind append setitem andb]. now rewrite Hset.
  - unfold list_entries. rewrite (getitem_dict _ _ _ Hkey). cbn [bind iter].
    rewrite (listing_shown show_experience full_experience c show_experience_full l 0%nat Hl).
    cbn [bind setitem]. rewrite Hset. do 3 f_equal.
    destruct c as [| |j].
    + reflexivity.
    + cbn [is_add andb] in Hadd. now rewrite Hadd.
    + cbn [Nat.leb]. now rewrite Nat.sub_0_r.
Qed.

(** X14 — a run of the work-experience page on a résumé made with the
    forms.  "Add Experience" with a job title and a company puts the entry
    made from the form after the entries there are; without one of the two
    it adds nothing.  "Delete" on the entry of index [i] takes that entry
    out and keeps the others in their order.  Nothing else of the résumé
    changes. *)
Theorem work_experience_page (f : experience_form) (c : click)
    (d : list (string * value)) (l : list value) :
  form_built (VDict d) = true ->
  dict_get d "work_experience" (VList []) = VList l ->
  render_work_experience f c (VDict d)
  = Ok (VDict (dict_set "work_experience"
                 (VList (match c with
                         | Add =>
                             if nonempty (job_title f) && nonempty (company f)
                             then l ++ [experience_of f] else l
                         | Delete i => firstn i l ++ skipn (S i) l
                         | NoClick => l
                         end)) d)).
Proof. exact (render_work_experience_run f c d l). Qed.

Lemma form_built_entries (d : list (string * value)) :
  form_built (VDict d) = true ->
  exists l, dict_get d "work_experience" (VList []) = VList l.
Proof.
  intros H. cbn [form_built] in H. split_andb.
  match goal with
  | Ho : optional (is_list_of full_experience) _ _ = true |- _ =>
      unfold optional in Ho; unfold dict_get;
      destruct (dict_lookup "work_experience" d) as [v|]; [|eauto];
      apply is_list_of_inv in Ho as (l & -> & _); eauto
  end.
Qed.

Lemma render_education_run (f : education_form) (c : click)
    (d : list (string * value)) (l : list value) :
  form_built (VDict d) = true ->
  dict_get d "education" (VList []) = VList l ->
  render_education f c (VDict d)
  = Ok (VDict (dict_set "education"
                 (VList (match c with
                         | Add =>
                             if nonempty (degree f) && nonempty (school f)
                             then l ++ [education_of f] else l
                         | Delete i => firstn i l ++ skipn (S i) l
                         | NoClick => l
                         end)) d)).
Proof.
  intros H Hget.
  assert (Hopt : optional (is_list_of full_education) "education" d = true).
  { cbn [form_built] in H. now split_andb. }
  assert (Hl : forallb full_education l = true).
  { unfold optional in Hopt. unfold dict_get in Hget.
    destruct (dict_lookup "education" d) as [v|].
    - subst v. exact Hopt.
    - now injection Hget as <-. }
  assert (Hens : exists d1,
             ensure "education" (VList []) (VDict d) = Ok (VDict d1)
             /\ dict_lookup "education" d1 = Some (VList l)
             /\ forall v, dict_set "education" v d1 = dict_set "education" v d).
  { unfold dict_get in Hget. destruct (dict_lookup "education" d) as [v|] eqn:Hkey.
    - subst v. exists d. rewrite (ensure_present _ _ _ _ Hkey). now repeat split.
    - injection Hget as <-. exists (dict_set "education" (VList []) d).
      rewrite (ensure_absent _ _ _ Hkey), dict_lookup_set_eq.
      repeat split. intros v. apply dict_set_set. }
  destruct Hens as (d1 & Hens & Hkey & Hset).
  unfold render_education. rewrite Hens. cbn [bind].
  rewrite (getitem_dict _ _ _ Hkey). cbn [bind len].
  destruct (is_add c && nonempty (degree f) && nonempty (school f)) eqn:Hadd.
  - apply andb_true_iff in Hadd as [Hadd Hschool].
    apply andb_true_iff in Hadd as [Hadd Hdegree].
    destruct c; try discriminate. rewrite Hdegree, Hschool.
    cbn [bind append setitem andb]. now rewrite Hset.
  - unfold list_entries. rewrite (getitem_dict _ _ _ Hkey). cbn [bind iter].
    rewrite (listing_shown show_education full_education c show_education_full l 0%nat Hl).
    cbn [bind setitem]. rewrite Hset. do 3 f_equal.
    destruct c as [| |j].
    + reflexivity.
    + cbn [is_add andb] in Hadd. now rewrite Hadd.
    + cbn [Nat.leb]. now rewrite Nat.sub_0_r.
Qed.

(** X17 — a run of the education page on a résumé made with the forms: "Add
    Education" with a degree and a school puts the entry made from the form
    after the entries there are, and adds nothing without one of the two;
    "Delete" on the entry of index [i] takes that entry out and keeps the
    others in their order; nothing else of the résumé changes. *)
Theorem education_page (f : education_form) (c : click)
    (d : list (string * value)) (l : list value) :
  form_built (VDict d) = true ->
  dict_get d "education" (VList []) = VList l ->
  render_education f c (VDict d)
  = Ok (VDict (dict_set "education"
                 (VList (match c with
                         | Add =>
                             if nonempty (degree f) && nonempty (school f)
                             then l ++ [education_of f] else l
                         | Delete i => firstn i l ++ skipn (S i) l
                         | NoClick => l
                         end)) d)).
Proof. exact (render_education_run f c d l). Qed.

Lemma dict_lookup_del_eq (k : string) (d : list (string * value)) :
  List.NoDup (map fst d) -> dict_lookup k (dict_del k d) = None.
Proof.
  induction d as [|[k' x] d IH]; [reflexivity|]. cbn [map fst]. intros Hnd.
  apply List.NoDup_cons_iff in Hnd as [Hk' Hnd]. cbn [dict_del].
  destruct (String.eqb k k') eqn:E.
  - apply String.eqb_eq in E. subst k'.
    clear IH Hnd. induction d as [|[k1 y] d IH]; [reflexivity|].
    cbn [dict_lookup]. cbn [map fst In] in Hk'.
    destruct (String.eqb k k1) eqn:E1.
    + apply String.eqb_eq in E1. subst k1. tauto.
    + apply IH. tauto.
  - cbn [dict_lookup]. rewrite E. now apply IH.
Qed.

Lemma dict_lookup_del_ne (k k' : string) (d : list (string * value)) :
  String.eqb k' k = false -> dict_lookup k' (dict_del k d) = dict_lookup k' d.
Proof.
  intros Hne. induction d as [|[k1 x] d IH]; [reflexivity|]. cbn [dict_del].
  destruct (String.eqb k k1) eqn:E.
  - apply String.eqb_eq in E. subst k1. cbn [dict_lookup]. now rewrite Hne.
  - cbn [dict_lookup]. now rewrite IH.
Qed.

Lemma skills_listing_clicked (k : string) (sk : list (string * value)) :
  conforms_skills (VDict sk) = true ->
  List.NoDup (map fst sk) ->
  skills_listing (DeleteCategory k) sk
  = Ok (if truthy (dict_get sk k VNone) then Some k else None).
Proof.
  cbn [conforms_skills]. unfold dict_get.
  induction sk as [|[k' x] sk IH]; intros H Hnd; [reflexivity|].
  cbn [forallb snd] in H. apply andb_true_iff in H as [Hx Hsk].
  cbn [map fst] in Hnd. apply List.NoDup_cons_iff in Hnd as [Hk' Hnd].
  cbn [skills_listing dict_lookup].
  destruct (String.eqb k k') eqn:E.
  - apply String.eqb_eq in E. subst k'.
    destruct (truthy x) eqn:Hx'.
    + destruct (is_ok_inv _ (join_strs ", " x Hx)) as (joined & ->). reflexivity.
    + rewrite (IH Hsk Hnd).
      assert (Hnone : dict_lookup k sk = None).
      { clear -Hk'. induction sk as [|[k1 y] sk IH]; [reflexivity|].
        cbn [dict_lookup]. cbn [map fst In] in Hk'.
        destruct (String.eqb k k1) eqn:E1.
        - apply String.eqb_eq in E1. subst k1. tauto.
        - apply IH. tauto. }
      now rewrite Hnone.
  - destruct (truthy x).
    + destruct (is_ok_inv _ (join_strs ", " x Hx)) as (joined & ->). cbn [bind].
      now apply IH.
    + now apply IH.
Qed.

(** X19 — the delete button of a skill category, on a résumé whose skills
    are lists of texts: the category of the button (one whose list is not
    empty; the others have no button) is taken out of the skills, and the
    other categories keep their skills. *)
Theorem skills_page_delete (selected_category new_skills category : string)
    (d sk : list (string * value)) :
  dict_lookup "skills" d = Some (VDict sk) ->
  conforms_skills (VDict sk) = true ->
  List.NoDup (map fst sk) ->
  truthy (dict_get sk category VNone) = true ->
  render_skills selected_category new_skills (DeleteCategory category) (VDict d)
  = Ok (VDict (dict_set "skills" (VDict (dict_del category sk)) d))
  /\ dict_lookup category (dict_del category sk) = None
  /\ (forall other, other <> category ->
        dict_lookup other (dict_del category sk) = dict_lookup other sk).
Proof.
  intros Hkey Hsk Hnd Hcat. split; [|split].
  - unfold render_skills. rewrite (ensure_present _ _ _ _ Hkey). cbn [bind andb].
    rewrite (getitem_dict _ _ _ Hkey). cbn [bind].
    assert (Htruthy : truthy (VDict sk) = true).
    { destruct sk; [discriminate Hcat|reflexivity]. }
    rewrite Htruthy. cbn [items bind].
    rewrite (skills_listing_clicked category sk Hsk Hnd), Hcat. cbn [bind delitem].
    unfold dict_get in Hcat. destruct (dict_lookup category sk); [reflexivity|discriminate].
  - now apply dict_lookup_del_eq.
  - intros other Hother. apply dict_lookup_del_ne. now apply String.eqb_neq.
Qed.

(** X15 — the entry that "Add Experience" makes always has an ["end_date"]:
    "Present" when "Current Position" is ticked, and what was typed
    otherwise.  After the entry is added to a résumé made with the forms,
    the date line made of the start date, " to ", and that text is in the
    HTML text, which [export_to_html] returns, in the story of
    [export_to_pdf] (in italics) and in the paragraphs of [export_to_docx]
    (a paragraph of one plain run), and each of these two exports returns
    them when its layout library accepts them: the default "Present" of the
    exporters is not used, and an end date left blank gives a line that
    ends with " to ". *)
Theorem form_entry_date_line (f : experience_form) (d : list (string * value)) :
  form_built (VDict d) = true ->
  nonempty (job_title f) && nonempty (company f) = true ->
  let line := start_date f +:+ " to "
              +:+ (if current_job f then "Present" else end_date_input f) in
  exists d' story doc html,
    render_work_experience f Add (VDict d) = Ok d'
    /\ export_to_html d' = Ok html
    /\ infix line html
    /\ In (Pdf.Paragraph (VStr ("<i>" +:+ line +:+ "</i>")) Pdf.body_style) story
    /\ In (Docx.mkParagraph [Docx.mkRun (VStr line) false None] None None) doc
    /\ (forall reportlab,
          SimpleExportManager.export_to_pdf reportlab d' =
            if reportlab story then SimpleExportManager.Returned story
            else SimpleExportManager.Failed "PDF export failed: ")
    /\ (forall python_docx,
          SimpleExportManager.export_to_docx python_docx d' =
            if python_docx doc then SimpleExportManager.Returned doc
            else SimpleExportManager.Failed "DOCX export failed: ").
Proof.
  intros H Hadd line.
  destruct (form_built_entries d H) as (l & Hl).
  pose proof (render_work_experience_run f Add d l H Hl) as Hrun. rewrite Hadd in Hrun.
  destruct (render_work_experience_built f Add d H) as (d' & Hrun' & Hd').
  rewrite Hrun in Hrun'. injection Hrun' as <-.
  set (d' := VDict (dict_set "work_experience" (VList (l ++ [experience_of f])) d)) in *.
  destruct (conforming_document_built d' (form_built_conforming d' Hd'))
    as (Hpdf & Hdocx & Hhtml).
  apply is_ok_inv in Hpdf as (story & Hpdf), Hdocx as (doc & Hdocx), Hhtml as (html & Hhtml).
  exists d', story, doc, html. repeat (split; [assumption|]).
  assert (Hget : get d' "work_experience" (VList []) = Ok (VList (l ++ [experience_of f]))).
  { subst d'. rewrite get_VDict. unfold dict_get. now rewrite dict_lookup_set_eq. }
  assert (Hin : In (experience_of f) (l ++ [experience_of f])).
  { apply in_or_app. right. now left. }
  unfold experience_of in Hin.
  assert (Hpdf' : export_to_pdf d' = Ok story) by (unfold export_to_pdf; now rewrite Hpdf).
  assert (Hdocx' : export_to_docx d' = Ok doc) by (unfold export_to_docx; now rewrite Hdocx).
  split; [|split; [|split; [|split]]].
  - destruct (html_entry_in_text _ _ _ _ Hget Hin Hhtml) as (t & Ht & Hsub).
    rewrite html_experience_dict in Ht.
    apply bind_ok_inv in Ht as (bullets & _ & Ht).
    apply bind_ok_inv in Ht as (items & _ & Ht). injection Ht as <-.
    refine (infix_trans _ _ _ _ Hsub).
    apply infix_append_l.
    do 5 apply infix_append_r. apply infix_here.
  - destruct (pdf_entry_in_story _ _ _ _ Hget Hin Hpdf') as (blocks & Hb & Hsub).
    rewrite pdf_experience_dict in Hb.
    apply bind_ok_inv in Hb as (header & _ & Hb).
    apply bind_ok_inv in Hb as (bullets & _ & Hb). injection Hb as <-.
    apply Hsub. right. left. reflexivity.
  - destruct (docx_entry_in_document _ _ _ _ Hget Hin Hdocx') as (paras & Hp & Hsub).
    rewrite docx_experience_dict in Hp.
    apply bind_ok_inv in Hp as (bullets & _ & Hp). injection Hp as <-.
    apply Hsub. right. left.
    assert (Hline : Docx.add_paragraph (VStr line) None
                    = Docx.mkParagraph [Docx.mkRun (VStr line) false None] None None).
    { unfold Docx.add_paragraph, Docx.plain_run.
      replace (truthy (VStr line)) with true; [reflexivity|].
      unfold line. now destruct (start_date f). }
    rewrite <- Hline. reflexivity.
  - intros reportlab. now apply export_to_pdf_library.
  - intros python_docx. now apply export_to_docx_library.
Qed.

Lemma show_experience_missing (entry : list (string * value)) (key : string) :
  In key ["job_title"; "company"; "location"; "start_date"; "end_date"; "bullets"] ->
  dict_lookup key entry = None ->
  show_experience (VDict entry) = Raise (Builtin KeyError).
Proof.
  intros Hin Hmiss. unfold show_experience, getitem.
  destruct (dict_lookup "job_title" entry) eqn:H1; [cbn [bind]|reflexivity].
  destruct (dict_lookup "company" entry) eqn:H2; [cbn [bind]|reflexivity].
  destruct (dict_lookup "location" entry) eqn:H3; [cbn [bind]|reflexivity].
  destruct (dict_lookup "start_date" entry) eqn:H4; [cbn [bind]|reflexivity].
  destruct (dict_lookup "end_date" entry) eqn:H5; [cbn [bind]|reflexivity].
  destruct (dict_lookup "bullets" entry) eqn:H6; [cbn [bind]|reflexivity].
  cbn [In] in Hin.
  repeat (destruct Hin as [<-|Hin]; [congruence|]). destruct Hin.
Qed.

(** X16 — the work-experience page reads the keys of an entry with
    [exp[key]]: when the first entry of the résumé has no ["job_title"],
    ["company"], ["location"], ["start_date"], ["end_date"] or ["bullets"]
    (a résumé loaded from a JSON file; the exporters read the same keys with
    [get] and take it), every run of the page that does not add an entry
    raises a [KeyError]. *)
Theorem work_experience_page_needs_keys (f : experience_form) (c : click)
    (d entry : list (string * value)) (l : list value) (key : string) :
  dict_lookup "work_experience" d = Some (VList (VDict entry :: l)) ->
  In key ["job_title"; "company"; "location"; "start_date"; "end_date"; "bullets"] ->
  dict_lookup key entry = None ->
  is_add c && nonempty (job_title f) && nonempty (company f) = false ->
  render_work_experience f c (VDict d) = Raise (Builtin KeyError).
Proof.
  intros Hkey Hin Hmiss Hadd. unfold render_work_experience.
  rewrite (ensure_present _ _ _ _ Hkey). cbn [bind].
  rewrite (getitem_dict _ _ _ Hkey). cbn [bind len]. rewrite Hadd.
  unfold list_entries. rewrite (getitem_dict _ _ _ Hkey). cbn [bind iter listing].
  now rewrite (show_experience_missing entry key Hin Hmiss).
Qed.

(** X18 — "Add" on the skills page with a text that is not empty: the
    items of the text (cut at the commas, each one stripped, the empty
    ones kept) are put after the skills that the category has; a category
    that is new comes last; the other categories are as before. *)
Theorem skills_page_add (selected_category new_skills : string)
    (d sk : list (string * value)) (current : list value) :
  dict_get d "skills" (VDict []) = VDict sk ->
  dict_get sk selected_category (VList []) = VList current ->
  nonempty new_skills = true ->
  render_skills selected_category new_skills AddSkills (VDict d)
  = Ok (VDict (dict_set "skills"
                 (VDict (dict_set selected_category
                           (VList (current
                                   ++ map (fun skill => VStr (strip skill))
                                        (split ","%char new_skills))) sk))
                 d)).
Proof.
  intros Hget Hcur Hnew.
  change (split ","%char new_skills) with (split comma new_skills).
  rewrite <- (map_map strip VStr). fold (skills_of new_skills).
  assert (Hens : exists d1,
             ensure "skills" (VDict []) (VDict d) = Ok (VDict d1)
             /\ dict_lookup "skills" d1 = Some (VDict sk)
             /\ forall v, dict_set "skills" v d1 = dict_set "skills" v d).
  { unfold dict_get in Hget. destruct (dict_lookup "skills" d) as [v|] eqn:Hkey.
    - subst v. exists d. rewrite (ensure_present _ _ _ _ Hkey). now repeat split.
    - injection Hget as <-. exists (dict_set "skills" (VDict []) d).
      rewrite (ensure_absent _ _ _ Hkey), dict_lookup_set_eq.
      repeat split. intros v. apply dict_set_set. }
  destruct Hens as (d1 & Hens & Hkey & Hset).
  unfold render_skills. rewrite Hens, Hnew. cbn [bind andb].
  rewrite (getitem_dict _ _ _ Hkey). cbn [bind is_in].
  unfold dict_get in Hcur.
  destruct (dict_lookup selected_category sk) as [v|] eqn:Hcat; cbn [bind setitem].
  - subst v. rewrite (getitem_dict _ _ _ Hcat). cbn [bind extend setitem].
    now rewrite Hset.
  - injection Hcur as <-.
    rewrite (getitem_dict _ _ _ (dict_lookup_set_eq _ _ _)). cbn [bind extend setitem].
    now rewrite Hset, dict_set_set.
Qed.

End FormPages.

(** X13 — the résumés made with the form pages: from the résumé of a new
    session, no sequence of runs of the five form pages (whatever is typed
    and whichever button is clicked) raises an exception, and the résumé it
    leaves has the shape of the data model.  [export_to_html] returns its
    text for it, and no statement of [export_to_pdf] or [export_to_docx]
    raises on it: each of the two returns the story, or the paragraphs,
    when its layout library accepts them and fails when it does not (the
    typed texts are handed to the libraries as they are). *)
Theorem form_built_resumes_exported (runs : list Forms.page_run) :
  exists d html story doc,
    Forms.run_all runs Session.new_resume_data = Ok d
    /\ schema_conforming d = true
    /\ export_to_html d = Ok html
    /\ (forall reportlab,
          SimpleExportManager.export_to_pdf reportlab d =
            if reportlab story then SimpleExportManager.Returned story
            else SimpleExportManager.Failed "PDF export failed: ")
    /\ (forall python_docx,
          SimpleExportManager.export_to_docx python_docx d =
            if python_docx doc then SimpleExportManager.Returned doc
            else SimpleExportManager.Failed "DOCX export failed: ").
Proof.
  destruct (run_all_built runs Session.new_resume_data eq_refl) as (d & Hrun & Hd).
  pose proof (form_built_conforming d Hd) as Hshape.
  destruct (conforming_document_built d Hshape) as (Hpdf & Hdocx & Hhtml).
  apply is_ok_inv in Hpdf as (story & Hpdf), Hdocx as (doc & Hdocx), Hhtml as (html & Hhtml).
  exists d, html, story, doc. repeat (split; [assumption|]). split.
  - intros reportlab. now apply export_to_pdf_library.
  - intros python_docx. now apply export_to_docx_library.
Qed.

(** * The generated texts *)

Section Generated.

Import Builtins SimpleAIGenerator.

Lemma canned_summary_text (job_title : string) (years_experience : Z) (industry : string) :
  canned_summary job_title years_experience industry <> EmptyString.
Proof. discriminate. Qed.

(** X9 — the texts of SimpleAIGenerator, whatever the key and the reply of
    the completion service are.  generate_bullet_points returns at least
    one bullet and at most six, and the four canned ones without a key or
    after a failed request.  generate_professional_summary returns an empty
    text only when the reply of the service is a text of white space. *)
Theorem generated_texts (api_key : option string) (reply : completion)
    (job_title company job_description industry : string) (years_experience : Z) :
  let bullets := generate_bullet_points api_key reply job_title company job_description in
  (1 <= length bullets <= 6)%nat
  /\ (no_key api_key = true \/ reply = Failed ->
      bullets = canned_bullets job_title company)
  /\ (generate_professional_summary api_key reply job_title years_experience industry
        = EmptyString ->
      exists text, reply = Content (Some text)
                   /\ text <> EmptyString /\ strip text = EmptyString).
Proof.
  cbv zeta. split; [|split].
  - unfold generate_bullet_points.
    destruct (no_key api_key); [cbn; lia|].
    destruct reply as [|[text|]]; [cbn; lia| |cbn; lia].
    destruct (nonempty text); [|cbn; lia].
    destruct (map _ _) as [|b bs]; [cbn; lia|].
    pose proof (firstn_le_length 6 (b :: bs)) as Hle.
    pose proof (length_firstn 6 (b :: bs)) as Hlen.
    cbn [length] in *. lia.
  - unfold generate_bullet_points. intros [Hkey| ->].
    + now rewrite Hkey.
    + now destruct (no_key api_key).
  - unfold generate_professional_summary.
    destruct (no_key api_key); [discriminate|].
    destruct reply as [|[text|]]; [discriminate| |discriminate].
    destruct (nonempty text) eqn:Hne; [|discriminate].
    intros Hstrip. exists text. repeat split; [|assumption].
    unfold nonempty in Hne. apply negb_true_iff in Hne. now apply String.eqb_neq.
Qed.

End Generated.

(** * The session state *)

Section SessionState.

Import Session.

Lemma set_default_keeps (key : string) (dflt : value) (session : list (string * value))
    (k : string) (v : value) :
  dict_lookup k session = Some v ->
  dict_lookup k (set_default key dflt session) = Some v.
Proof.
  intros H. unfold set_default.
  destruct (dict_lookup key session) eqn:Hkey; [assumption|].
  rewrite dict_lookup_set_ne; [assumption|]. eapply lookup_some_ne; eassumption.
Qed.

Lemma set_default_set (key : string) (dflt : value) (session : list (string * value)) :
  exists v, dict_lookup key (set_default key dflt session) = Some v.
Proof.
  unfold set_default. destruct (dict_lookup key session) eqn:Hkey; [eauto|].
  rewrite dict_lookup_set_eq. eauto.
Qed.

Lemma set_default_present (key : string) (dflt v : value) (session : list (string * value)) :
  dict_lookup key session = Some v -> set_default key dflt session = session.
Proof. intros H. unfold set_default. now rewrite H. Qed.

Lemma initialize_session_state_keeps (session : list (string * value))
    (key : string) (v : value) :
  dict_lookup key session = Some v ->
  dict_lookup key (initialize_session_state session) = Some v.
Proof.
  intros H. unfold initialize_session_state. now repeat apply set_default_keeps.
Qed.

Lemma initialize_session_state_sets (session : list (string * value)) (key : string) :
  In key ["resume_data"; "current_page"; "current_step"; "user_authenticated";
          "current_user"; "selected_template"] ->
  exists v, dict_lookup key (initialize_session_state session) = Some v.
Proof.
  intros Hin. unfold initialize_session_state. cbn [In] in Hin.
  repeat (destruct Hin as [<-|Hin];
          [repeat first [ apply set_default_set
                        | match goal with
                          | |- exists v, dict_lookup ?k (set_default ?k' ?d ?s) = Some v =>
                              let H := fresh in
                              assert (H : exists v, dict_lookup k s = Some v);
                              [|destruct H as (? & H); eexists;
                                apply set_default_keeps; exact H]
                          end ]|]).
  destruct Hin.
Qed.

(** X12 — initialize_session_state, which every run of the script calls
    first: a key that the session has keeps its value (the résumé being
    edited is not reset), each of the six keys of the application has a
    value afterwards, and a second call changes nothing. *)
Theorem initialize_session_state_once (session : list (string * value)) :
  (forall key v, dict_lookup key session = Some v ->
     dict_lookup key (initialize_session_state session) = Some v)
  /\ (forall key,
        In key ["resume_data"; "current_page"; "current_step"; "user_authenticated";
                "current_user"; "selected_template"] ->
        dict_lookup key (initialize_session_state session) <> None)
  /\ initialize_session_state (initialize_session_state session)
     = initialize_session_state session.
Proof.
  split; [|split].
  - intros key v. apply initialize_session_state_keeps.
  - intros key Hin. destruct (initialize_session_state_sets session key Hin) as (v & ->).
    discriminate.
  - set (s := initialize_session_state session).
    assert (Hset : forall key,
               In key ["resume_data"; "current_page"; "current_step";
                       "user_authenticated"; "current_user"; "selected_template"] ->
               exists v, dict_lookup key s = Some v)
      by (intros key; apply initialize_session_state_sets).
    unfold initialize_session_state at 1.
    destruct (Hset "resume_data") as (v1 & H1); [cbn; tauto|].
    rewrite (set_default_present _ _ _ _ H1).
    destruct (Hset "current_page") as (v2 & H2); [cbn; tauto|].
    rewrite (set_default_present _ _ _ _ H2).
    destruct (Hset "current_step") as (v3 & H3); [cbn; tauto|].
    rewrite (set_default_present _ _ _ _ H3).
    destruct (Hset "user_authenticated") as (v4 & H4); [cbn; tauto|].
    rewrite (set_default_present _ _ _ _ H4).
    destruct (Hset "current_user") as (v5 & H5); [cbn; tauto|].
    rewrite (set_default_present _ _ _ _ H5).
    destruct (Hset "selected_template") as (v6 & H6); [cbn; tauto|].
    now rewrite (set_default_present _ _ _ _ H6).
Qed.

End SessionState.

(** * The live preview *)

Section LivePreview.

Import Builtins Preview.

Lemma calls_lift_then {A B : Type} (r : result A) (f : A -> shown B) (n : nat) :
  (1 <= n)%nat ->
  (forall a, r = Ok a -> (calls (f a) <= n)%nat) ->
  (calls (then_ (lift r) f) <= n)%nat.
Proof.
  intros Hn Hf. destruct r as [a|e]; unfold then_, lift.
  - specialize (Hf a eq_refl). now destruct (f a).
  - unfold calls. cbn. lia.
Qed.

Lemma calls_then {A B : Type} (m : shown A) (f : A -> shown B) (a b : nat) :
  (calls m <= a)%nat ->
  (forall x, (calls (f x) <= b)%nat) ->
  (calls (then_ m f) <= a + b)%nat.
Proof.
  intros Hm Hf. destruct m as [ws [x|e]]; unfold then_.
  - specialize (Hf x). destruct (f x) as [ws' r]. unfold calls in *.
    cbn [fst snd is_ok] in *. rewrite length_app. lia.
  - unfold calls in *. cbn [fst snd is_ok] in *. lia.
Qed.

Lemma calls_show_then {B : Type} (w : widget) (f : unit -> shown B) (b : nat) :
  (forall x, (calls (f x) <= b)%nat) ->
  (calls (then_ (show w) f) <= S b)%nat.
Proof. intros Hf. now apply (calls_then (show w) f 1 b). Qed.

Lemma calls_done (n : nat) : (calls (lift (Ok tt)) <= n)%nat.
Proof. unfold calls. cbn. lia. Qed.

Lemma calls_show (w : widget) : (calls (show w) <= 1)%nat.
Proof. reflexivity. Qed.

Lemma calls_show_each {A : Type} (body : A -> shown unit) (l : list A) :
  (forall x, (calls (body x) <= 1)%nat) ->
  (calls (show_each body l) <= length l)%nat.
Proof.
  intros Hbody. induction l as [|x l IH]; [apply calls_done|].
  cbn [show_each length]. apply (calls_then (body x) _ 1); [apply Hbody|].
  intros _. exact IH.
Qed.

Lemma slice_to_length (n : nat) (v first : value) (items : list value) :
  slice_to n v = Ok first -> iter first = Ok items -> (length items <= n)%nat.
Proof.
  destruct v as [| | |s|l|]; try discriminate; intros [= <-]; cbn [iter]; intros [= <-].
  - rewrite length_map, chars_text_of.
    + apply firstn_le_length.
    + apply (char_list_prefix _ (skipn n (chars s))).
      rewrite firstn_skipn. apply chars_char_list.
  - apply firstn_le_length.
Qed.

Lemma preview_header_calls (personal : value) : (calls (preview_header personal) <= 2)%nat.
Proof.
  unfold preview_header. apply calls_lift_then; [lia|]. intros full_name _.
  destruct (truthy full_name); [|apply calls_done].
  apply calls_lift_then; [lia|]. intros name _.
  apply calls_show_then. intros _.
  apply calls_lift_then; [lia|]. intros contact _.
  destruct contact; [apply calls_done|].
  apply calls_lift_then; [lia|]. intros joined _. apply calls_show.
Qed.

Lemma preview_summary_calls (resume_data : value) :
  (calls (preview_summary resume_data) <= 2)%nat.
Proof.
  unfold preview_summary. apply calls_lift_then; [lia|]. intros summary _.
  destruct (truthy summary); [|apply calls_done].
  apply calls_show_then. intros _.
  apply calls_lift_then; [lia|]. intros text _. apply calls_show.
Qed.

Lemma preview_experience_calls (exp : value) : (calls (preview_experience exp) <= 1)%nat.
Proof.
  unfold preview_experience. apply calls_lift_then; [lia|]. intros job_title _.
  apply calls_lift_then; [lia|]. intros company _. apply calls_show.
Qed.

Lemma preview_work_experience_calls (resume_data : value) :
  (calls (preview_work_experience resume_data) <= 3)%nat.
Proof.
  unfold preview_work_experience. apply calls_lift_then; [lia|]. intros work_exp _.
  destruct (truthy work_exp); [|apply calls_done].
  apply calls_show_then. intros _.
  apply calls_lift_then; [lia|]. intros first Hfirst.
  apply calls_lift_then; [lia|]. intros exps Hexps.
  pose proof (slice_to_length 2 _ _ _ Hfirst Hexps) as Hlen.
  pose proof (calls_show_each preview_experience exps preview_experience_calls). lia.
Qed.

Lemma preview_category_calls (item : string * value) :
  (calls (preview_category item) <= 1)%nat.
Proof.
  destruct item as [category skill_list]. unfold preview_category.
  destruct (truthy skill_list); [|apply calls_done].
  apply calls_lift_then; [lia|]. intros first _.
  apply calls_lift_then; [lia|]. intros joined _. apply calls_show.
Qed.

Lemma preview_skills_calls (resume_data : value) :
  (calls (preview_skills resume_data) <= 3)%nat.
Proof.
  unfold preview_skills. apply calls_lift_then; [lia|]. intros skills _.
  destruct (truthy skills); [|apply calls_done].
  apply calls_show_then. intros _.
  apply calls_lift_then; [lia|]. intros its _.
  pose proof (calls_show_each preview_category (firstn 2 its) preview_category_calls).
  pose proof (firstn_le_length 2 its). lia.
Qed.

Lemma render_preview_calls (resume_data : value) :
  length (render_preview resume_data) = calls (preview_body resume_data).
Proof.
  unfold render_preview, calls. destruct (preview_body resume_data) as [ws [u|e]];
    cbn [fst snd is_ok]; [lia|]. rewrite length_app. cbn. lia.
Qed.

(** X21 — the live preview is short whatever the résumé holds: it shows at
    most ten things, the line of the handler counted when the function
    raises (the name and the contact line, the summary under its title,
    the first two work-experience entries and the first two skill
    categories under theirs). *)
Theorem preview_is_short (resume_data : value) :
  (length (render_preview resume_data) <= 10)%nat.
Proof.
  rewrite render_preview_calls. unfold preview_body.
  apply calls_lift_then; [lia|]. intros html _.
  apply calls_lift_then; [lia|]. intros personal _.
  apply (calls_then _ _ 2 8); [apply preview_header_calls|]. intros _.
  apply (calls_then _ _ 2 6); [apply preview_summary_calls|]. intros _.
  apply (calls_then _ _ 3 3); [apply preview_work_experience_calls|]. intros _.
  apply preview_skills_calls.
Qed.

Lemma snd_then {A B : Type} (m : shown A) (f : A -> shown B) :
  snd (then_ m f) = match snd m with
                    | Ok a => snd (f a)
                    | Raise e => Raise e
                    end.
Proof. destruct m as [ws [a|e]]; cbn; [|reflexivity]. now destruct (f a). Qed.

Lemma show_each_ends {A : Type} (body : A -> shown unit) (l : list A) :
  (forall x, In x l -> snd (body x) = Ok tt) -> snd (show_each body l) = Ok tt.
Proof.
  induction l as [|x l IH]; intros H; [reflexivity|].
  cbn [show_each]. rewrite snd_then, (H x (or_introl eq_refl)).
  apply IH. intros y Hy. apply H. now right.
Qed.

Lemma firstn_In {A : Type} (n : nat) (l : list A) (x : A) : In x (firstn n l) -> In x l.
Proof. intros H. rewrite <- (firstn_skipn n l). apply in_or_app. now left. Qed.

Lemma preview_header_ends (personal : value) :
  conforms_personal personal = true -> snd (preview_header personal) = Ok tt.
Proof.
  destruct personal as [| | | | |p]; try discriminate. intros H.
  destruct (conforms_personal_contact p H) as (l & Hl & Hstr).
  unfold preview_header. rewrite snd_then, get_VDict. cbn [lift snd].
  destruct (truthy (dict_get p "full_name" VNone)) eqn:Ht; [|reflexivity].
  rewrite snd_then, (getitem_after_get _ _ Ht). cbn [lift snd].
  rewrite snd_then. cbn [show snd]. rewrite snd_then, Hl. cbn [lift snd].
  destruct l as [|c l]; [reflexivity|].
  destruct (is_ok_inv _ (join_list_strs " | " (c :: l) Hstr)) as (joined & Hj).
  rewrite snd_then, Hj. reflexivity.
Qed.

Lemma preview_summary_ends (fields : list (string * value)) :
  snd (preview_summary (VDict fields)) = Ok tt.
Proof.
  unfold preview_summary. rewrite snd_then, get_VDict. cbn [lift snd].
  destruct (truthy (dict_get fields "summary" VNone)) eqn:Ht; [|reflexivity].
  rewrite snd_then. cbn [show snd]. rewrite snd_then, (getitem_after_get _ _ Ht).
  reflexivity.
Qed.

Lemma preview_work_experience_ends (fields : list (string * value)) :
  optional (is_list_of conforms_experience) "work_experience" fields = true ->
  snd (preview_work_experience (VDict fields)) = Ok tt.
Proof.
  intros H. apply (fun H => optional_dict_get _ _ _ (VList []) H eq_refl) in H.
  apply is_list_of_inv in H as (exps & Hget & Hall).
  unfold preview_work_experience. rewrite snd_then, get_VDict, Hget. cbn [lift snd].
  destruct (truthy (VList exps)); [|reflexivity].
  rewrite snd_then. cbn [show snd]. rewrite snd_then. cbn [slice_to lift snd].
  rewrite snd_then. cbn [iter lift snd].
  apply show_each_ends. intros exp Hin. apply firstn_In in Hin.
  rewrite forallb_forall in Hall. specialize (Hall exp Hin).
  destruct exp as [| | | | |f]; try discriminate.
  unfold preview_experience. rewrite snd_then, get_VDict. cbn [lift snd].
  now rewrite snd_then, get_VDict.
Qed.

Lemma preview_skills_ends (fields : list (string * value)) :
  optional conforms_skills "skills" fields = true ->
  snd (preview_skills (VDict fields)) = Ok tt.
Proof.
  intros H. apply (fun H => optional_dict_get _ _ _ (VDict []) H eq_refl) in H.
  destruct (dict_get fields "skills" (VDict [])) as [| | | | |sk] eqn:Hget;
    try discriminate.
  unfold preview_skills. rewrite snd_then, get_VDict, Hget. cbn [lift snd].
  destruct (truthy (VDict sk)); [|reflexivity].
  rewrite snd_then. cbn [show snd]. rewrite snd_then. cbn [items lift snd].
  apply show_each_ends. intros [category skill_list] Hin. apply firstn_In in Hin.
  cbn [conforms_skills] in H. rewrite forallb_forall in H. specialize (H _ Hin).
  cbn [snd] in H. destruct skill_list as [| | | |l|]; try discriminate.
  unfold preview_category. destruct (truthy (VList l)); [|reflexivity].
  rewrite snd_then. cbn [slice_to lift snd]. rewrite snd_then.
  assert (Hstr : forallb is_str (firstn 3 l) = true).
  { apply forallb_forall. intros x Hx. apply firstn_In in Hx.
    cbn [is_str_list] in H. rewrite forallb_forall in H. now apply H. }
  unfold join. cbn [iter bind].
  destruct (is_ok_inv _ (join_list_strs ", " _ Hstr)) as (joined & ->). reflexivity.
Qed.

(** X22 — the live preview and the HTML export, which it calls first.  For a
    résumé of the shape of the data model the [try] block of render_preview
    ends without an exception, so the preview is what the block shows; when
    export_to_html raises, the preview is the one line of the handler. *)
Theorem preview_of_document (resume_data : value) :
  (schema_conforming resume_data = true ->
   preview_body resume_data = (render_preview resume_data, Ok tt))
  /\ (forall e, export_to_html resume_data = Raise e ->
        render_preview resume_data = [placeholder]).
Proof.
  split.
  - intros H.
    assert (Hend : snd (preview_body resume_data) = Ok tt).
    { destruct (conforming_document_built resume_data H) as (_ & _ & Hhtml).
      apply is_ok_inv in Hhtml as (html & Hhtml).
      destruct resume_data as [| | | | |fields]; try discriminate.
      cbn [schema_conforming] in H. repeat (apply andb_true_iff in H as [H ?]).
      unfold preview_body. rewrite snd_then, Hhtml. cbn [lift snd].
      rewrite snd_then, get_VDict. cbn [lift snd].
      rewrite snd_then, preview_header_ends
        by (now apply (optional_dict_get _ _ _ (VDict []))).
      rewrite snd_then, preview_summary_ends.
      rewrite snd_then, preview_work_experience_ends by assumption.
      now apply preview_skills_ends. }
    unfold render_preview. destruct (preview_body resume_data) as [ws r].
    cbn [snd] in Hend. now subst r.
  - intros e He. unfold render_preview, preview_body. now rewrite He.
Qed.

End LivePreview.

(** * The models on examples *)

Lemma form_pages_example :
  Forms.bullets_of ("  Shipped X " +:+ String Builtins.newline
                      (String Builtins.newline " • Led Y"))
    = ["Shipped X"; "• Led Y"]
  /\ Forms.skills_of "Python,  Go ,,Rust" = ["Python"; "Go"; EmptyString; "Rust"]
  /\ Builtins.strip (Builtins.utf8 [226%nat; 128%nat; 131%nat] +:+ "é ") = "é"
  /\ SimpleAIGenerator.generate_bullet_points (Some "key")
       (SimpleAIGenerator.Content
          (Some ("- Built A" +:+ String Builtins.newline "•" +:+ String Builtins.newline "* Ran B")))
       "Engineer" "Acme" "Backend"
     = ["Built A"; EmptyString; "Ran B"]
  /\ Preview.render_preview jane
     = [Preview.Markdown "**Jane Doe**"; Preview.Caption "jane@x.com";
        Preview.Markdown "**Experience**"; Preview.Write (VStr "• Engineer at Acme")].
Proof. repeat split; vm_compute; reflexivity. Qed.

Lemma work_experience_page_witness :
  Forms.form_built Session.new_resume_data = true /\
  Forms.render_work_experience Forms.engineer_form Forms.Add Session.new_resume_data
  = Ok (VDict [("personal",
                 VDict [("full_name", VStr EmptyString); ("email", VStr EmptyString);
                        ("phone", VStr EmptyString); ("location", VStr EmptyString);
                        ("linkedin", VStr EmptyString); ("website", VStr EmptyString)]);
               ("summary", VStr EmptyString);
               ("work_experience",
                 VList [VDict [("job_title", VStr "Engineer"); ("company", VStr "Acme");
                               ("location", VStr "Remote"); ("start_date", VStr "01/2020");
                               ("end_date", VStr EmptyString); ("current", VBool false);
                               ("bullets", VList [VStr "Shipped X"])]]);
               ("education", VList []);
               ("skills", VDict []);
               ("projects", VList []);
               ("certifications", VList [])]).
Proof.
  split; [reflexivity|].
  exact (work_experience_page Forms.engineer_form Forms.Add _ []
           (eq_refl : Forms.form_built Session.new_resume_data = true) eq_refl).
Defined.

Lemma form_entry_date_line_witness :
  Forms.form_built Session.new_resume_data = true /\
  exists d' story doc html,
    Forms.render_work_experience Forms.engineer_form Forms.Add Session.new_resume_data
      = Ok d'
    /\ export_to_html d' = Ok html
    /\ infix ("01/2020" +:+ " to " +:+ EmptyString) html
    /\ In (Pdf.Paragraph (VStr ("<i>" +:+ ("01/2020" +:+ " to " +:+ EmptyString) +:+ "</i>"))
            Pdf.body_style) story
    /\ In (Docx.mkParagraph
             [Docx.mkRun (VStr ("01/2020" +:+ " to " +:+ EmptyString)) false None]
             None None) doc
    /\ (forall reportlab,
          SimpleExportManager.export_to_pdf reportlab d' =
            if reportlab story then SimpleExportManager.Returned story
            else SimpleExportManager.Failed "PDF export failed: ")
    /\ (forall python_docx,
          SimpleExportManager.export_to_docx python_docx d' =
            if python_docx doc then SimpleExportManager.Returned doc
            else SimpleExportManager.Failed "DOCX export failed: ").
Proof.
  split; [reflexivity|].
  exact (form_entry_date_line Forms.engineer_form _
           (eq_refl : Forms.form_built Session.new_resume_data = true) eq_refl).
Defined.

Lemma work_experience_page_needs_keys_witness :
  In "location" ["job_title"; "company"; "location"; "start_date"; "end_date"; "bullets"] /\
  schema_conforming Forms.no_location = true /\
  is_ok (export_to_html Forms.no_location) = true /\
  Forms.render_work_experience Forms.engineer_form Forms.NoClick Forms.no_location
  = Raise (Builtin KeyError).
Proof.
  assert (Hin : In "location"
                  ["job_title"; "company"; "location"; "start_date"; "end_date"; "bullets"])
    by (cbn; tauto).
  split; [exact Hin|]. split; [reflexivity|]. split; [reflexivity|].
  exact (work_experience_page_needs_keys Forms.engineer_form Forms.NoClick
           [("personal", VDict []);
            ("work_experience",
              VList [VDict [("job_title", VStr "Engineer"); ("company", VStr "Acme");
                            ("start_date", VStr "01/2020"); ("end_date", VStr "Present");
                            ("bullets", VList [])]])]
           _ [] "location" eq_refl Hin eq_refl eq_refl).
Defined.

Lemma skills_page_add_witness :
  Builtins.nonempty "Go,  Rust , ,SQL" = true /\
  Forms.render_skills "Languages" "Go,  Rust , ,SQL" Forms.AddSkills
    (VDict [("skills", VDict [("Tools", VList [VStr "git"]);
                              ("Languages", VList [VStr "Python"])])])
  = Ok (VDict [("skills",
                 VDict [("Tools", VList [VStr "git"]);
                        ("Languages",
                          VList [VStr "Python"; VStr "Go"; VStr "Rust"; VStr EmptyString;
                                 VStr "SQL"])])]).
Proof.
  split; [reflexivity|].
  exact (skills_page_add "Languages" "Go,  Rust , ,SQL"
           [("skills", VDict [("Tools", VList [VStr "git"]);
                              ("Languages", VList [VStr "Python"])])]
           _ [VStr "Python"] eq_refl eq_refl eq_refl).
Defined.

(** * The progress shown in the sidebar *)

Section ProgressBar.

Import Builtins Progress.

Lemma percent_values :
  map percent [0; 1; 2; 3; 4; 5] = map Some [0; 20; 40; 60; 80; 100]
  /\ map caption [0; 3] = [Some "0% Complete"; Some "60% Complete"]
  /\ int_of (PrimFloat.mul (PrimFloat.div (float_of 29) (float_of 100)) (float_of 100))
     = Some 28.
Proof. repeat split; vm_compute; reflexivity. Qed.

(** X23 — the percentage under the progress bar: when the five tests of
    [main] succeed on the résumé and [completed] of them hold, the caption
    shows 20 times [completed] per cent; the quotient and the product of
    binary64 numbers lose nothing for the six values there are. *)
Theorem progress_percent (resume_data : value) (done : Z) :
  completed resume_data = Ok done ->
  0 <= done <= 5 /\ percent done = Some (20 * done)
  /\ caption done = Some (str (VInt (20 * done)) +:+ "% Complete").
Proof.
  unfold completed. intros H.
  apply bind_ok_inv in H as (p & _ & H). apply bind_ok_inv in H as (s & _ & H).
  apply bind_ok_inv in H as (w & _ & H). apply bind_ok_inv in H as (e & _ & H).
  apply bind_ok_inv in H as (k & _ & H). injection H as <-.
  destruct p, s, w, e, k; vm_compute; repeat split; congruence.
Qed.

Lemma present_personal (fields p : list (string * value)) :
  dict_lookup "personal" fields = Some (VDict p) ->
  conforms_personal (VDict p) = true ->
  present_blocks (Pdf.block PERSONAL (VDict fields))
  = truthy (dict_get p "full_name" VNone).
Proof.
  intros Hp Hok. cbn [Pdf.block]. rewrite (get_dict _ _ _ _ Hp). cbn [bind].
  destruct (conforms_personal_contact p Hok) as (l & Hl & Hstr).
  unfold Pdf.header. rewrite get_VDict. cbn [bind].
  destruct (truthy (dict_get p "full_name" VNone)) eqn:Ht; [|reflexivity].
  rewrite (getitem_after_get _ _ Ht), Hl. cbn [bind].
  destruct l as [|c l]; [reflexivity|].
  destruct (is_ok_inv _ (join_list_strs " • " (c :: l) Hstr)) as (joined & ->).
  reflexivity.
Qed.

Lemma present_summary (fields : list (string * value)) :
  present_blocks (Pdf.block SUMMARY (VDict fields))
  = truthy (dict_get fields "summary" VNone).
Proof.
  cbn [Pdf.block]. unfold Pdf.summary. rewrite get_VDict. cbn [bind].
  destruct (truthy (dict_get fields "summary" VNone)) eqn:Ht; [|reflexivity].
  now rewrite (getitem_after_get _ _ Ht).
Qed.

Lemma present_work_experience (fields : list (string * value)) :
  optional (is_list_of conforms_experience) "work_experience" fields = true ->
  exists exps,
    dict_get fields "work_experience" (VList []) = VList exps
    /\ present_blocks (Pdf.block EXPERIENCE (VDict fields)) = Nat.ltb 0 (length exps).
Proof.
  intros H. destruct (work_experience_total fields H) as (Hok & exps & Hw).
  exists exps. split; [assumption|].
  cbn [Pdf.block]. unfold Pdf.work_experience. rewrite get_VDict, Hw. cbn [bind].
  rewrite Hw in Hok. destruct exps as [|x exps]; [reflexivity|].
  cbn [truthy iter bind]. cbn [iter value_of] in Hok.
  now rewrite present_blocks_heading.
Qed.

Lemma present_education (fields : list (string * value)) :
  optional (is_list_of conforms_education) "education" fields = true ->
  exists edus,
    dict_get fields "education" (VList []) = VList edus
    /\ present_blocks (Pdf.block EDUCATION (VDict fields)) = Nat.ltb 0 (length edus).
Proof.
  intros H. destruct (education_total fields H) as (Hok & edus & Hw).
  exists edus. split; [assumption|].
  cbn [Pdf.block]. unfold Pdf.education. rewrite get_VDict, Hw. cbn [bind].
  rewrite Hw in Hok. destruct edus as [|x edus]; [reflexivity|].
  cbn [truthy iter bind]. cbn [iter value_of] in Hok.
  now rewrite present_blocks_heading.
Qed.

Lemma present_skills (fields : list (string * value)) :
  optional conforms_skills "skills" fields = true ->
  exists mapping,
    dict_get fields "skills" (VDict []) = VDict mapping
    /\ present_blocks (Pdf.block SKILLS (VDict fields)) = Nat.ltb 0 (length mapping).
Proof.
  intros H. destruct (skills_total fields H) as (mapping & Hget & Hok).
  exists mapping. split; [assumption|].
  cbn [Pdf.block]. unfold Pdf.skills, Pdf.skills_block. rewrite get_VDict, Hget.
  cbn [bind]. destruct mapping as [|x mapping]; [reflexivity|].
  cbn [truthy items bind]. now rewrite present_blocks_heading.
Qed.

(** X24 — what the progress bar counts: for a résumé of the shape of the
    data model that has a ["personal"] record, the five tests of [main]
    succeed, and the number of those that hold is the number of sections
    that export_to_pdf puts into the story (a header, and the four titled
    sections). *)
Theorem progress_counts_rendered_sections (fields : list (string * value)) (personal : value) :
  schema_conforming (VDict fields) = true ->
  dict_lookup "personal" fields = Some personal ->
  completed (VDict fields) = Ok (Z.of_nat (length (rendered (VDict fields)))).
Proof.
  intros H Hp. cbn [schema_conforming] in H. repeat (apply andb_true_iff in H as [H ?]).
  assert (Hpers : conforms_personal personal = true).
  { unfold optional in H. now rewrite Hp in H. }
  destruct personal as [| | | | |p]; try discriminate.
  destruct (present_work_experience fields) as (exps & Hw & Pw); [assumption|].
  destruct (present_education fields) as (edus & He & Pe); [assumption|].
  destruct (present_skills fields) as (mapping & Hk & Pk); [assumption|].
  pose proof (present_personal fields p Hp Hpers) as Pp.
  pose proof (present_summary fields) as Ps.
  unfold completed, personal_complete, summary_complete, experience_complete,
    education_complete, skills_complete.
  rewrite (getitem_dict _ _ _ Hp). cbn [bind]. rewrite !get_VDict. cbn [bind].
  rewrite Hw, He, Hk. cbn [bind len].
  unfold rendered. cbn [List.filter]. rewrite Pp, Ps, Pw, Pe, Pk.
  destruct (truthy (dict_get p "full_name" VNone)),
    (truthy (dict_get fields "summary" VNone)),
    (Nat.ltb 0 (length exps)), (Nat.ltb 0 (length edus)),
    (Nat.ltb 0 (length mapping)); reflexivity.
Qed.

End ProgressBar.

(** * The fields that the exporters read *)

Lemma not_in_ne (key k : string) (l : list string) :
  ~ In key l -> In k l -> String.eqb k key = false.
Proof.
  intros Hnot Hin. apply String.eqb_neq. intros ->. contradiction.
Qed.

(** X10 — the exporters read five fields of the résumé.  A key other than
    ["personal"], ["summary"], ["work_experience"], ["education"] and
    ["skills"] (the ["projects"] and ["certifications"] of a new session
    among them) has no part in any of the three outputs: setting it to any
    value leaves them as they are. *)
Theorem exporters_read_five_fields (fields : list (string * value))
    (key : string) (v : value) :
  ~ In key ["personal"; "summary"; "work_experience"; "education"; "skills"] ->
  export_to_pdf (VDict (dict_set key v fields)) = export_to_pdf (VDict fields)
  /\ export_to_docx (VDict (dict_set key v fields)) = export_to_docx (VDict fields)
  /\ export_to_html (VDict (dict_set key v fields)) = export_to_html (VDict fields).
Proof.
  intros Hkey.
  assert (Hne : forall k,
            In k ["personal"; "summary"; "work_experience"; "education"; "skills"] ->
            dict_lookup k (dict_set key v fields) = dict_lookup k fields).
  { intros k Hk. apply dict_lookup_set_ne. now apply (not_in_ne key k _ Hkey). }
  assert (H1 := Hne "personal"). assert (H2 := Hne "summary").
  assert (H3 := Hne "work_experience"). assert (H4 := Hne "education").
  assert (H5 := Hne "skills").
  cbn [In] in H1, H2, H3, H4, H5.
  unfold export_to_pdf, export_to_docx, export_to_html, Pdf.story, Docx.document,
    Pdf.summary, Docx.summary, Html.summary,
    Pdf.work_experience, Docx.work_experience, Html.work_experience,
    Pdf.education, Docx.education, Html.education,
    Pdf.skills, Docx.skills, Html.skills.
  rewrite !get_VDict. unfold getitem, dict_get.
  rewrite H1, H2, H3, H4, H5 by tauto. repeat split.
Qed.

Lemma exporters_read_five_fields_witness :
  ~ In "projects" ["personal"; "summary"; "work_experience"; "education"; "skills"] /\
  export_to_html
    (VDict (dict_set "projects" (VList [VStr "Compiler"])
              [("personal", VDict [("full_name", VStr "Jane Doe")])]))
  = export_to_html (VDict [("personal", VDict [("full_name", VStr "Jane Doe")])]).
Proof.
  assert (Hkey : ~ In "projects"
                   ["personal"; "summary"; "work_experience"; "education"; "skills"]).
  { cbn [In]. intros H. repeat (destruct H as [H|H]; [discriminate|]). exact H. }
  split; [exact Hkey|].
  exact (proj2 (proj2 (exporters_read_five_fields
                         [("personal", VDict [("full_name", VStr "Jane Doe")])]
                         "projects" (VList [VStr "Compiler"]) Hkey))).
Defined.

Lemma progress_percent_witness :
  Progress.completed jane = Ok 2 /\
  0 <= 2 <= 5 /\ Progress.percent 2 = Some (20 * 2)
  /\ Progress.caption 2 = Some (str (VInt (20 * 2)) +:+ "% Complete").
Proof.
  split; [reflexivity|].
  exact (progress_percent jane 2 eq_refl).
Defined.

Lemma progress_counts_rendered_sections_witness :
  schema_conforming jane = true /\
  Progress.completed jane = Ok (Z.of_nat (length (Progress.rendered jane))).
Proof.
  split; [reflexivity|].
  exact (progress_counts_rendered_sections _ _
           (eq_refl : schema_conforming jane = true) eq_refl).
Defined.

(** * The account sidebar *)

Section AccountSidebar.

Import Builtins UserManager Sidebar.

Variable sha256_hexdigest : string -> string.

Lemma no_resumes_after_register (username password email now : string)
    (s : state) (users : list (string * value)) :
  load_users s = VDict users ->
  dict_lookup username users = None ->
  get_user_resumes username
    (snd (register_user sha256_hexdigest username password email now s)) = Ok [].
Proof.
  intros Hload Hfree. unfold register_user. rewrite Hload. cbn [is_in setitem].
  rewrite Hfree. cbn [snd]. unfold save_users. destruct (writable s).
  - unfold get_user_resumes. cbn [load_users users_json is_in].
    rewrite dict_lookup_set_eq. cbn [bind].
    rewrite (getitem_dict _ _ _ (dict_lookup_set_eq _ _ _)). reflexivity.
  - unfold get_user_resumes. rewrite Hload. cbn [is_in]. now rewrite Hfree.
Qed.

(** X8 — the sidebar shows "Save as" and "Save Current Resume" only under
    [if saved_resumes:].  So for an account that has no saved résumé, as
    every account is after register_user, no run of the sidebar calls
    save_user_resume: whatever is typed and clicked, the users file and the
    résumé of the session are as before, and the only notice is the
    welcome.  The first résumé of an account cannot be saved there. *)
Theorem first_resume_is_never_saved (username password email now : string)
    (s : state) (users : list (string * value)) :
  load_users s = VDict users ->
  dict_lookup username users = None ->
  let s' := snd (register_user sha256_hexdigest username password email now s) in
  forall (selected_resume resume_name later : string) (c : sidebar_click) (data : value),
    account_sidebar username selected_resume resume_name c later data s'
    = (Ok (mkOutcome data (is_logout c) [Success ("Welcome, " +:+ username +:+ "!")]), s').
Proof.
  intros Hload Hfree s' selected_resume resume_name later c data.
  unfold account_sidebar. subst s'.
  now rewrite (no_resumes_after_register username password email now s users Hload Hfree).
Qed.

End AccountSidebar.

Lemma education_page_witness :
  Forms.form_built Session.new_resume_data = true /\
  Forms.render_education Forms.bsc_form Forms.Add Session.new_resume_data
  = Ok (VDict (dict_set "education"
                 (VList [VDict [("degree", VStr "BSc"); ("school", VStr "MIT");
                                ("major", VStr "Physics");
                                ("graduation_date", VStr "06/2019");
                                ("gpa", VStr EmptyString); ("honors", VStr EmptyString)]])
                 [("personal",
                    VDict [("full_name", VStr EmptyString); ("email", VStr EmptyString);
                           ("phone", VStr EmptyString); ("location", VStr EmptyString);
                           ("linkedin", VStr EmptyString); ("website", VStr EmptyString)]);
                  ("summary", VStr EmptyString);
                  ("work_experience", VList []);
                  ("education", VList []);
                  ("skills", VDict []);
                  ("projects", VList []);
                  ("certifications", VList [])])).
Proof.
  split; [reflexivity|].
  exact (education_page Forms.bsc_form Forms.Add _ []
           (eq_refl : Forms.form_built Session.new_resume_data = true) eq_refl).
Defined.

Lemma skills_page_delete_witness :
  truthy (dict_get [("Languages", VList [VStr "Python"]); ("Tools", VList [])]
            "Languages" VNone) = true /\
  Forms.render_skills "Tools" EmptyString (Forms.DeleteCategory "Languages")
    (VDict [("skills", VDict [("Languages", VList [VStr "Python"]); ("Tools", VList [])])])
  = Ok (VDict [("skills", VDict [("Tools", VList [])])]).
Proof.
  split; [reflexivity|].
  assert (Hnd : List.NoDup (map fst [("Languages", VList [VStr "Python"]); ("Tools", VList [])])).
  { cbn [map fst]. repeat constructor; cbn [In]; intros H;
      repeat (destruct H as [H|H]; [discriminate|]); exact H. }
  exact (proj1 (skills_page_delete "Tools" EmptyString "Languages"
                  [("skills", VDict [("Languages", VList [VStr "Python"]);
                                     ("Tools", VList [])])]
                  _ eq_refl eq_refl Hnd eq_refl)).
Defined.

Lemma first_resume_is_never_saved_witness :
  UserManager.load_users UserManager.no_file = VDict [] /\
  Sidebar.account_sidebar "ann" EmptyString "My Resume" Sidebar.SaveCurrent
    "2024-03-01T00:00:00" jane
    (snd (UserManager.register_user UserManager.example_digest
            "ann" "secret" "ann@x.org" "2024-01-01T00:00:00" UserManager.no_file))
  = (Ok (Sidebar.mkOutcome jane false [Sidebar.Success ("Welcome, " +:+ "ann" +:+ "!")]),
     snd (UserManager.register_user UserManager.example_digest
            "ann" "secret" "ann@x.org" "2024-01-01T00:00:00" UserManager.no_file)).
Proof.
  split; [reflexivity|].
  exact (first_resume_is_never_saved UserManager.example_digest
           "ann" "secret" "ann@x.org" "2024-01-01T00:00:00" UserManager.no_file []
           eq_refl eq_refl EmptyString "My Resume" "2024-03-01T00:00:00"
           Sidebar.SaveCurrent jane).
Defined.

(** * The links of the header *)

Lemma dict_get_set_eq (k : string) (v dflt : value) (d : list (string * value)) :
  dict_get (dict_set k v d) k dflt = v.
Proof. unfold dict_get. now rewrite dict_lookup_set_eq. Qed.

Lemma dict_get_set_ne (k k' : string) (v dflt : value) (d : list (string * value)) :
  String.eqb k' k = false -> dict_get (dict_set k v d) k' dflt = dict_get d k' dflt.
Proof. intros H. unfold dict_get. now rewrite dict_lookup_set_ne. Qed.

Lemma getitem_set_ne (k k' : string) (v : value) (d : list (string * value)) :
  String.eqb k' k = false -> getitem (VDict (dict_set k v d)) k' = getitem (VDict d) k'.
Proof. intros H. unfold getitem. now rewrite dict_lookup_set_ne. Qed.

Lemma header_ignores_links (p : list (string * value)) (key : string) (v : value) :
  key = "linkedin" \/ key = "website" ->
  Pdf.header (VDict (dict_set key v p)) = Pdf.header (VDict p)
  /\ Docx.header (VDict (dict_set key v p)) = Docx.header (VDict p).
Proof.
  intros Hkey.
  assert (Hne : forall k, In k ["full_name"; "email"; "phone"; "location"] ->
            dict_lookup k (dict_set key v p) = dict_lookup k p).
  { intros k Hk. apply dict_lookup_set_ne. cbn [In] in Hk.
    destruct Hkey as [-> | ->];
      repeat (destruct Hk as [<-|Hk]; [reflexivity|]); destruct Hk. }
  assert (H1 := Hne "full_name"). assert (H2 := Hne "email").
  assert (H3 := Hne "phone"). assert (H4 := Hne "location").
  cbn [In] in H1, H2, H3, H4.
  unfold Pdf.header, Docx.header, contact_info, append_if_set.
  rewrite !get_VDict. unfold getitem, dict_get.
  rewrite H1, H2, H3, H4 by tauto. now split.
Qed.

(** X11 — the LinkedIn and the website address of the personal record are
    exported by export_to_html only.  Setting one of the two leaves the PDF
    story and the DOCX document as they are, whatever the value; set to a
    text that is not empty, it is in the HTML header, after "LinkedIn: "
    or after " | Website: " (the separator is there without a LinkedIn
    address, too). *)
Theorem links_only_in_html (fields p : list (string * value)) (key text : string) :
  dict_lookup "personal" fields = Some (VDict p) ->
  key = "linkedin" \/ key = "website" ->
  text <> EmptyString ->
  let personal := VDict (dict_set key (VStr text) p) in
  let d' := VDict (dict_set "personal" personal fields) in
  export_to_pdf d' = export_to_pdf (VDict fields)
  /\ export_to_docx d' = export_to_docx (VDict fields)
  /\ exists header,
       Html.header personal = Ok header
       /\ infix ((if String.eqb key "linkedin" then "LinkedIn: " else " | Website: ")
                 +:+ text) header.
Proof.
  intros Hp Hkey Htext personal d'.
  assert (Htruthy : truthy (VStr text) = true).
  { cbn [truthy]. apply negb_true_iff. now apply String.eqb_neq. }
  destruct (header_ignores_links p key (VStr text) Hkey) as [Hpdf Hdocx].
  assert (Hgp : dict_get fields "personal" (VDict []) = VDict p).
  { unfold dict_get. now rewrite Hp. }
  split; [|split].
  - subst d'. unfold export_to_pdf, Pdf.story, Pdf.summary, Pdf.work_experience,
      Pdf.education, Pdf.skills.
    rewrite !get_VDict, dict_get_set_eq, Hgp.
    rewrite !dict_get_set_ne, !getitem_set_ne by reflexivity. cbn [bind].
    fold personal in Hpdf. now rewrite Hpdf.
  - subst d'. unfold export_to_docx, Docx.document, Docx.summary, Docx.work_experience,
      Docx.education, Docx.skills.
    rewrite !get_VDict, dict_get_set_eq, Hgp.
    rewrite !dict_get_set_ne, !getitem_set_ne by reflexivity. cbn [bind].
    fold personal in Hdocx. now rewrite Hdocx.
  - subst personal. unfold Html.header, Html.page_top, Html.links.
    rewrite !get_VDict. cbn [bind].
    destruct Hkey as [-> | ->].
    + rewrite !dict_get_set_eq, Htruthy. cbn [bind].
      rewrite (getitem_dict _ _ _ (dict_lookup_set_eq _ _ _)). cbn [bind str].
      destruct (truthy (dict_get (dict_set "linkedin" (VStr text) p) "website" VNone))
        eqn:Hw; cbn [bind].
      * rewrite (getitem_after_get _ _ Hw). cbn [bind].
        eexists. split; [reflexivity|].
        apply infix_append_r, infix_append_l, infix_append_l, infix_append_l.
        apply infix_append_r, infix_refl.
      * eexists. split; [reflexivity|].
        apply infix_append_r, infix_append_l, infix_append_l.
        apply infix_append_r, infix_refl.
    + rewrite !dict_get_set_eq, Htruthy.
      rewrite (getitem_dict _ "website" _ (dict_lookup_set_eq _ _ _)).
      destruct (truthy (dict_get (dict_set "website" (VStr text) p) "linkedin" VNone))
        eqn:Hl; cbn [bind].
      * rewrite (getitem_after_get _ _ Hl). cbn [bind str].
        eexists. split; [reflexivity|].
        apply infix_append_r, infix_append_l, infix_append_l.
        apply infix_append_r, infix_refl.
      * cbn [bind str].
        eexists. split; [reflexivity|].
        apply infix_append_r, infix_append_l, infix_append_l.
        apply infix_append_r, infix_refl.
Qed.

Lemma links_only_in_html_witness :
  "www.jane.dev" <> EmptyString /\
  export_to_pdf
    (VDict (dict_set "personal"
              (VDict (dict_set "website" (VStr "www.jane.dev") [("full_name", VStr "Jane Doe")]))
              [("personal", VDict [("full_name", VStr "Jane Doe")])]))
  = export_to_pdf (VDict [("personal", VDict [("full_name", VStr "Jane Doe")])]) /\
  exists header,
    Html.header (VDict (dict_set "website" (VStr "www.jane.dev") [("full_name", VStr "Jane Doe")]))
    = Ok header
    /\ infix (" | Website: " +:+ "www.jane.dev") header.
Proof.
  assert (Htext : "www.jane.dev" <> EmptyString) by discriminate.
  split; [exact Htext|].
  pose proof (links_only_in_html
                [("personal", VDict [("full_name", VStr "Jane Doe")])]
                [("full_name", VStr "Jane Doe")] "website" "www.jane.dev"
                eq_refl (or_intror eq_refl) Htext) as (Hpdf & _ & Hhtml).
  split; [exact Hpdf|exact Hhtml].
Defined.

(** * Saving and loading from the sidebar *)

Section SidebarRoundTrip.

Import Builtins UserManager Sidebar.

Lemma get_user_resumes_names (username : string) (s : state)
    (users user : list (string * value)) :
  load_users s = VDict users ->
  dict_lookup username users = Some (VDict user) ->
  resumes_ok user ->
  get_user_resumes username s = Ok (map fst (resumes_of user)).
Proof.
  intros Hload Huser Hres. unfold get_user_resumes. rewrite Hload. cbn [is_in].
  rewrite Huser. cbn [bind]. rewrite (getitem_dict _ _ _ Huser). cbn [bind is_in].
  unfold resumes_of. destruct Hres as [H|[saved H]]; rewrite H; cbn [bind].
  - reflexivity.
  - now rewrite (getitem_dict _ _ _ H).
Qed.

Lemma load_user_resume_entry (username resume_name : string) (s : state)
    (users user : list (string * value)) (resume_data : value) (updated : string) :
  load_users s = VDict users ->
  dict_lookup username users = Some (VDict user) ->
  resumes_ok user ->
  dict_lookup resume_name (resumes_of user)
    = Some (VDict [("data", resume_data); ("last_updated", VStr updated)]) ->
  load_user_resume username resume_name s = Ok resume_data.
Proof.
  intros Hload Huser Hres Hentry. unfold load_user_resume. rewrite Hload. cbn [is_in].
  rewrite Huser. cbn [bind]. rewrite (getitem_dict _ _ _ Huser). cbn [bind is_in].
  unfold resumes_of in Hentry. destruct Hres as [H|[saved H]]; rewrite H in *.
  - discriminate.
  - cbn [bind]. rewrite (getitem_dict _ _ _ H). cbn [bind is_in]. rewrite Hentry.
    cbn [bind]. rewrite (getitem_dict _ _ _ Hentry). cbn [bind].
    now apply getitem_dict.
Qed.

(** X25 — saving and loading from the sidebar, for an account that has a
    saved résumé already (so that the sidebar shows the two buttons) and a
    users file that can be written: "Save Current Resume" with a name saves
    the résumé of the session, and "Load Selected Resume" with that name,
    in a later run, makes it the résumé of the session again, provided it
    is not an empty dict, which [if loaded_data:] leaves out. *)
Theorem sidebar_save_then_load (username selected resume_name now : string)
    (data : value) (s : state) (users user : list (string * value)) :
  writable s = true ->
  load_users s = VDict users ->
  dict_lookup username users = Some (VDict user) ->
  resumes_ok user ->
  resumes_of user <> [] ->
  nonempty resume_name = true ->
  truthy data = true ->
  exists s',
    account_sidebar username selected resume_name SaveCurrent now data s
    = (Ok (mkOutcome data false
             [Success ("Welcome, " +:+ username +:+ "!");
              Success ("Resume saved as '" +:+ resume_name +:+ "'!")]), s')
    /\ forall (session_data : value) (typed later : string),
         account_sidebar username resume_name typed LoadSelected later session_data s'
         = (Ok (mkOutcome data false
                  [Success ("Welcome, " +:+ username +:+ "!");
                   Success ("Resume '" +:+ resume_name +:+ "' loaded!")]), s').
Proof.
  intros Hw Hload Huser Hres Hsome Hname Hdata.
  set (entry := VDict [("data", data); ("last_updated", VStr now)]).
  set (saved := dict_set resume_name entry (resumes_of user)).
  set (user' := dict_set "resumes" (VDict saved) user).
  set (users' := dict_set username (VDict user') users).
  exists (mkState (Some (VDict users')) true (current_user s)).
  assert (Hsave : save_user_resume username data resume_name now s
                  = (Ok true, mkState (Some (VDict users')) true (current_user s))).
  { rewrite (save_user_resume_users username resume_name now data s users user)
      by assumption.
    unfold save_users. now rewrite Hw. }
  assert (Huser' : dict_lookup username users' = Some (VDict user'))
    by apply dict_lookup_set_eq.
  assert (Hres' : resumes_ok user').
  { right. exists saved. apply dict_lookup_set_eq. }
  assert (Hof : resumes_of user' = saved).
  { unfold resumes_of, user'. now rewrite dict_lookup_set_eq. }
  split.
  - unfold account_sidebar.
    rewrite (get_user_resumes_names username s users user Hload Huser Hres).
    destruct (map fst (resumes_of user)) as [|k ks] eqn:E;
      [apply map_eq_nil in E; contradiction|].
    rewrite andb_false_r. unfold save_and_logout. rewrite Hname. cbn [is_save andb].
    now rewrite Hsave.
  - intros session_data typed later. unfold account_sidebar.
    set (s' := mkState (Some (VDict users')) true (current_user s)).
    assert (Hload' : load_users s' = VDict users') by reflexivity.
    rewrite (get_user_resumes_names username s' users' user' Hload' Huser' Hres'), Hof.
    assert (Hne : map fst saved <> []).
    { unfold saved. rewrite keys_dict_set.
      destruct (existsb _ _); [|now destruct (map fst (resumes_of user))].
      intros Hnil. apply map_eq_nil in Hnil. contradiction. }
    destruct (map fst saved) as [|k ks]; [contradiction|].
    rewrite Hname. cbn [is_load andb].
    rewrite (load_user_resume_entry username resume_name s' users' user' data now
               Hload' Huser' Hres').
    + now rewrite Hdata.
    + rewrite Hof. apply dict_lookup_set_eq.
Qed.

End SidebarRoundTrip.

Lemma sidebar_save_then_load_witness :
  UserManager.writable UserManager.ann_file = true /\
  exists s',
    Sidebar.account_sidebar "ann" EmptyString "second" Sidebar.SaveCurrent
      "2024-03-01T00:00:00" jane UserManager.ann_file
    = (Ok (Sidebar.mkOutcome jane false
             [Sidebar.Success ("Welcome, " +:+ "ann" +:+ "!");
              Sidebar.Success ("Resume saved as '" +:+ "second" +:+ "'!")]), s')
    /\ forall (session_data : value) (typed later : string),
         Sidebar.account_sidebar "ann" "second" typed Sidebar.LoadSelected later
           session_data s'
         = (Ok (Sidebar.mkOutcome jane false
                  [Sidebar.Success ("Welcome, " +:+ "ann" +:+ "!");
                   Sidebar.Success ("Resume '" +:+ "second" +:+ "' loaded!")]), s').
Proof.
  split; [reflexivity|].
  assert (Hres : UserManager.resumes_ok UserManager.ann_entry).
  { right. eexists. reflexivity. }
  assert (Hsome : UserManager.resumes_of UserManager.ann_entry <> []) by discriminate.
  exact (sidebar_save_then_load "ann" EmptyString "second" "2024-03-01T00:00:00" jane
           UserManager.ann_file _ UserManager.ann_entry
           eq_refl eq_refl eq_refl Hres Hsome eq_refl eq_refl).
Defined.
